(** * Wi-Fi Direct P2P echo demo: session context, pairing orchestrator
      and UDP echo engine

    A shallow embedding of [src/wifi_p2p_utils.c], [src/main.c] and
    [src/udp_utils.c].  C integers are [Z] with their wrap-around written
    out; the file-scope statics of each translation unit become the fields
    of a record that is passed through every function; results of calls
    into Zephyr (net_mgmt requests, sockets, the notifications delivered
    while a thread is blocked) are explicit arguments.  Logging and LED
    output have no effect on the modelled state and are left out. *)

From Stdlib Require Import ZArith List String Ascii Bool Lia.
Import ListNotations.
Open Scope Z_scope.

(* ------------------------------------------------------------------ *)
(** ** Machine integers and errno values                               *)
(* ------------------------------------------------------------------ *)

Definition u8 (z : Z) : Z := z mod 2 ^ 8.
Definition u16 (z : Z) : Z := z mod 2 ^ 16.
Definition u32 (z : Z) : Z := z mod 2 ^ 32.
Definition u64 (z : Z) : Z := z mod 2 ^ 64.

Definition INT_MIN : Z := - 2 ^ 31.
Definition UINT32_MAX : Z := 2 ^ 32 - 1.

(** Zephyr's errno.h numbering; only the sign and the distinctness of the
    values is ever used. *)
Definition EIO : Z := 5.
Definition EAGAIN : Z := 11.
Definition EWOULDBLOCK : Z := EAGAIN.
Definition EBUSY : Z := 16.
Definition ENODEV : Z := 19.
Definition EINVAL : Z := 22.
Definition ETIMEDOUT : Z := 116.

(* ------------------------------------------------------------------ *)
(** ** wifi_p2p_utils.h: the data model                                *)
(* ------------------------------------------------------------------ *)

Inductive wifi_p2p_role : Type :=
| WIFI_P2P_ROLE_UNDETERMINED
| WIFI_P2P_ROLE_GO
| WIFI_P2P_ROLE_CLI.

Inductive wifi_p2p_state : Type :=
| WIFI_P2P_STATE_IDLE
| WIFI_P2P_STATE_FINDING
| WIFI_P2P_STATE_FOUND
| WIFI_P2P_STATE_CONNECTING
| WIFI_P2P_STATE_CONNECTED
| WIFI_P2P_STATE_GROUP_FORMED
| WIFI_P2P_STATE_ERROR.

Inductive wifi_p2p_event : Type :=
| WIFI_P2P_EVENT_DEVICE_FOUND
| WIFI_P2P_EVENT_GROUP_STARTED
| WIFI_P2P_EVENT_CONNECTED
| WIFI_P2P_EVENT_CONNECT_FAILED
| WIFI_P2P_EVENT_PEER_JOINED
| WIFI_P2P_EVENT_AP_STA_CONNECTED
| WIFI_P2P_EVENT_PEER_LEFT
| WIFI_P2P_EVENT_DISCONNECTED.

Definition role_eqb (a b : wifi_p2p_role) : bool :=
  match a, b with
  | WIFI_P2P_ROLE_UNDETERMINED, WIFI_P2P_ROLE_UNDETERMINED
  | WIFI_P2P_ROLE_GO, WIFI_P2P_ROLE_GO
  | WIFI_P2P_ROLE_CLI, WIFI_P2P_ROLE_CLI => true
  | _, _ => false
  end.

Definition state_eqb (a b : wifi_p2p_state) : bool :=
  match a, b with
  | WIFI_P2P_STATE_IDLE, WIFI_P2P_STATE_IDLE
  | WIFI_P2P_STATE_FINDING, WIFI_P2P_STATE_FINDING
  | WIFI_P2P_STATE_FOUND, WIFI_P2P_STATE_FOUND
  | WIFI_P2P_STATE_CONNECTING, WIFI_P2P_STATE_CONNECTING
  | WIFI_P2P_STATE_CONNECTED, WIFI_P2P_STATE_CONNECTED
  | WIFI_P2P_STATE_GROUP_FORMED, WIFI_P2P_STATE_GROUP_FORMED
  | WIFI_P2P_STATE_ERROR, WIFI_P2P_STATE_ERROR => true
  | _, _ => false
  end.

(** A hardware address: WIFI_MAC_ADDR_LEN = 6 octets. *)
Inductive mac_addr : Type :=
| Mac (o0 o1 o2 o3 o4 o5 : Z).

Definition mac_zero : mac_addr := Mac 0 0 0 0 0 0.

(** [memcmp(a, b, WIFI_MAC_ADDR_LEN) == 0]. *)
Definition mac_eqb (a b : mac_addr) : bool :=
  match a, b with
  | Mac a0 a1 a2 a3 a4 a5, Mac b0 b1 b2 b3 b4 b5 =>
      (a0 =? b0) && (a1 =? b1) && (a2 =? b2) &&
      (a3 =? b3) && (a4 =? b4) && (a5 =? b5)
  end.

(** struct wifi_p2p_device_info (declared by Zephyr): the fields this
    repository reads. *)
Record wifi_p2p_device_info : Type := mk_device_info {
  mac : mac_addr;
  device_name : string;
  rssi : Z
}.

Record wifi_p2p_context : Type := mk_context {
  state : wifi_p2p_state;
  role : wifi_p2p_role;
  peer_mac : mac_addr;
  own_mac : mac_addr;
  peer_count : Z;
  go_intent : Z;
  frequency : Z;
  group_formed : bool;
  connected : bool
}.

Definition set_state (s : wifi_p2p_state) (c : wifi_p2p_context) :=
  mk_context s (role c) (peer_mac c) (own_mac c) (peer_count c)
             (go_intent c) (frequency c) (group_formed c) (connected c).
Definition set_role (r : wifi_p2p_role) (c : wifi_p2p_context) :=
  mk_context (state c) r (peer_mac c) (own_mac c) (peer_count c)
             (go_intent c) (frequency c) (group_formed c) (connected c).
Definition set_peer_mac (m : mac_addr) (c : wifi_p2p_context) :=
  mk_context (state c) (role c) m (own_mac c) (peer_count c)
             (go_intent c) (frequency c) (group_formed c) (connected c).
Definition set_peer_count (n : Z) (c : wifi_p2p_context) :=
  mk_context (state c) (role c) (peer_mac c) (own_mac c) n
             (go_intent c) (frequency c) (group_formed c) (connected c).
Definition set_go_intent (n : Z) (c : wifi_p2p_context) :=
  mk_context (state c) (role c) (peer_mac c) (own_mac c) (peer_count c)
             n (frequency c) (group_formed c) (connected c).
Definition set_frequency (n : Z) (c : wifi_p2p_context) :=
  mk_context (state c) (role c) (peer_mac c) (own_mac c) (peer_count c)
             (go_intent c) n (group_formed c) (connected c).
Definition set_group_formed (b : bool) (c : wifi_p2p_context) :=
  mk_context (state c) (role c) (peer_mac c) (own_mac c) (peer_count c)
             (go_intent c) (frequency c) b (connected c).
Definition set_connected (b : bool) (c : wifi_p2p_context) :=
  mk_context (state c) (role c) (peer_mac c) (own_mac c) (peer_count c)
             (go_intent c) (frequency c) (group_formed c) b.

(** [memset(&p2p_ctx, 0, sizeof(p2p_ctx))]: both enums have 0 as their
    first enumerator. *)
Definition ctx_zero : wifi_p2p_context :=
  mk_context WIFI_P2P_STATE_IDLE WIFI_P2P_ROLE_UNDETERMINED
             mac_zero mac_zero 0 0 0 false false.

(* ------------------------------------------------------------------ *)
(** ** Zephyr semaphores, as used by K_SEM_DEFINE(name, 0, 1)          *)
(* ------------------------------------------------------------------ *)

(** Whether a thread is blocked in [k_sem_take] on the semaphore, and
    whether a [k_sem_give] has already handed it the semaphore. *)
Inductive sem_waiter : Type :=
| NoWaiter
| Pending
| Released.

Record k_sem : Type := mk_sem {
  sem_count : nat;
  sem_wait : sem_waiter
}.

Definition SEM_LIMIT : nat := 1.

Definition sem_initial : k_sem := mk_sem 0 NoWaiter.

(** k_sem_give: a pending waiter is readied; otherwise the count is
    incremented unless it is at the limit. *)
Definition k_sem_give (s : k_sem) : k_sem :=
  match sem_wait s with
  | Pending => mk_sem (sem_count s) Released
  | _ => mk_sem (if Nat.eqb (sem_count s) SEM_LIMIT then sem_count s
                 else S (sem_count s)) (sem_wait s)
  end.

(** k_sem_reset: the count goes to zero and a pending waiter is aborted. *)
Definition k_sem_reset (s : k_sem) : k_sem := mk_sem 0 NoWaiter.

(** The gate has been released: a waiter was handed the semaphore or a
    signal is stored for the next taker. *)
Definition sem_signalled (s : k_sem) : bool :=
  match sem_wait s with
  | Released => true
  | _ => Nat.ltb 0 (sem_count s)
  end.

(* ------------------------------------------------------------------ *)
(** ** wifi_p2p_utils.c: file-scope state                              *)
(* ------------------------------------------------------------------ *)

(** Link-layer calls made on the Wi-Fi interface. *)
Inductive link_op : Type :=
| NET_IF_UP
| NET_IF_CARRIER_ON
| NET_IF_DORMANT_OFF.

(** The statics of wifi_p2p_utils.c.  [U] is the state owned by the
    registered user callback; [user_event_cb] is the function pointer
    ([None] is NULL).  [wifi_iface] tells whether
    [net_if_get_first_wifi()] returns an interface. *)
Record p2p_world (U : Type) : Type := mk_world {
  p2p_ctx : wifi_p2p_context;
  p2p_find_sem : k_sem;
  p2p_connect_sem : k_sem;
  p2p_group_formed_sem : k_sem;
  p2p_go_neg_request_sem : k_sem;
  p2p_ap_sta_connected_sem : k_sem;
  user_event_cb : option (wifi_p2p_event -> wifi_p2p_context -> U -> U);
  user : U;
  wifi_iface : bool;
  link_ops : list link_op
}.

Arguments mk_world {U}.
Arguments p2p_ctx {U}.
Arguments p2p_find_sem {U}.
Arguments p2p_connect_sem {U}.
Arguments p2p_group_formed_sem {U}.
Arguments p2p_go_neg_request_sem {U}.
Arguments p2p_ap_sta_connected_sem {U}.
Arguments user_event_cb {U}.
Arguments user {U}.
Arguments wifi_iface {U}.
Arguments link_ops {U}.

Section P2P_UTILS.

Context {U : Type}.

Local Abbreviation world := (p2p_world U).

Definition upd_ctx (f : wifi_p2p_context -> wifi_p2p_context) (w : world)
  : world :=
  mk_world (f (p2p_ctx w)) (p2p_find_sem w) (p2p_connect_sem w)
           (p2p_group_formed_sem w) (p2p_go_neg_request_sem w)
           (p2p_ap_sta_connected_sem w) (user_event_cb w) (user w)
           (wifi_iface w) (link_ops w).

Definition upd_find_sem (f : k_sem -> k_sem) (w : world) : world :=
  mk_world (p2p_ctx w) (f (p2p_find_sem w)) (p2p_connect_sem w)
           (p2p_group_formed_sem w) (p2p_go_neg_request_sem w)
           (p2p_ap_sta_connected_sem w) (user_event_cb w) (user w)
           (wifi_iface w) (link_ops w).

Definition upd_connect_sem (f : k_sem -> k_sem) (w : world) : world :=
  mk_world (p2p_ctx w) (p2p_find_sem w) (f (p2p_connect_sem w))
           (p2p_group_formed_sem w) (p2p_go_neg_request_sem w)
           (p2p_ap_sta_connected_sem w) (user_event_cb w) (user w)
           (wifi_iface w) (link_ops w).

Definition upd_group_formed_sem (f : k_sem -> k_sem) (w : world) : world :=
  mk_world (p2p_ctx w) (p2p_find_sem w) (p2p_connect_sem w)
           (f (p2p_group_formed_sem w)) (p2p_go_neg_request_sem w)
           (p2p_ap_sta_connected_sem w) (user_event_cb w) (user w)
           (wifi_iface w) (link_ops w).

Definition upd_go_neg_request_sem (f : k_sem -> k_sem) (w : world) : world :=
  mk_world (p2p_ctx w) (p2p_find_sem w) (p2p_connect_sem w)
           (p2p_group_formed_sem w) (f (p2p_go_neg_request_sem w))
           (p2p_ap_sta_connected_sem w) (user_event_cb w) (user w)
           (wifi_iface w) (link_ops w).

Definition upd_ap_sta_connected_sem (f : k_sem -> k_sem) (w : world)
  : world :=
  mk_world (p2p_ctx w) (p2p_find_sem w) (p2p_connect_sem w)
           (p2p_group_formed_sem w) (p2p_go_neg_request_sem w)
           (f (p2p_ap_sta_connected_sem w)) (user_event_cb w) (user w)
           (wifi_iface w) (link_ops w).

Definition set_user_event_cb
  (cb : option (wifi_p2p_event -> wifi_p2p_context -> U -> U)) (w : world)
  : world :=
  mk_world (p2p_ctx w) (p2p_find_sem w) (p2p_connect_sem w)
           (p2p_group_formed_sem w) (p2p_go_neg_request_sem w)
           (p2p_ap_sta_connected_sem w) cb (user w)
           (wifi_iface w) (link_ops w).

Definition upd_user (f : U -> U) (w : world) : world :=
  mk_world (p2p_ctx w) (p2p_find_sem w) (p2p_connect_sem w)
           (p2p_group_formed_sem w) (p2p_go_neg_request_sem w)
           (p2p_ap_sta_connected_sem w) (user_event_cb w) (f (user w))
           (wifi_iface w) (link_ops w).

Definition add_link_ops (ops : list link_op) (w : world) : world :=
  mk_world (p2p_ctx w) (p2p_find_sem w) (p2p_connect_sem w)
           (p2p_group_formed_sem w) (p2p_go_neg_request_sem w)
           (p2p_ap_sta_connected_sem w) (user_event_cb w) (user w)
           (wifi_iface w) (link_ops w ++ ops).

(** The link-layer activation sequence guarded by [if (iface)]. *)
Definition bring_iface_up (w : world) : world :=
  if wifi_iface w
  then add_link_ops [NET_IF_UP; NET_IF_CARRIER_ON; NET_IF_DORMANT_OFF] w
  else w.

(** notify_user_event: calls the registered callback with the event and
    a pointer to the context as it is at the time of the call. *)
Definition notify_user_event (event : wifi_p2p_event) (w : world) : world :=
  match user_event_cb w with
  | Some cb => upd_user (cb event (p2p_ctx w)) w
  | None => w
  end.

(** Notifications of the radio/management subsystem, with the payload
    [cb->info] of each ([None] is a NULL info pointer). *)
Inductive net_mgmt_event : Type :=
| NET_EVENT_WIFI_P2P_DEVICE_FOUND (info : option wifi_p2p_device_info)
| NET_EVENT_WIFI_CONNECT_RESULT (status : Z)
| NET_EVENT_WIFI_AP_ENABLE_RESULT (status : Z)
| NET_EVENT_WIFI_AP_STA_CONNECTED (sta_mac : mac_addr)
| NET_EVENT_WIFI_AP_STA_DISCONNECTED (sta_mac : mac_addr)
| NET_EVENT_OTHER.

Definition handle_p2p_device_found (info : option wifi_p2p_device_info)
  (w : world) : world :=
  match info with
  | None => w
  | Some peer_info =>
      let w := upd_ctx (set_peer_mac (mac peer_info)) w in
      let w := upd_ctx (fun c => set_peer_count (u16 (peer_count c + 1)) c) w in
      let w := upd_ctx (set_state WIFI_P2P_STATE_FOUND) w in
      let w := upd_find_sem k_sem_give w in
      notify_user_event WIFI_P2P_EVENT_DEVICE_FOUND w
  end.

Definition handle_p2p_connect_result (status : Z) (w : world) : world :=
  if status =? 0 then
    let w :=
      if negb (role_eqb (role (p2p_ctx w)) WIFI_P2P_ROLE_GO) then
        let w := upd_ctx (set_role WIFI_P2P_ROLE_CLI) w in
        notify_user_event WIFI_P2P_EVENT_CONNECTED w
      else
        notify_user_event WIFI_P2P_EVENT_PEER_JOINED w in
    let w := upd_ctx (set_state WIFI_P2P_STATE_CONNECTED) w in
    let w := upd_ctx (set_connected true) w in
    let w := upd_ctx (set_group_formed true) w in
    let w := upd_connect_sem k_sem_give w in
    upd_group_formed_sem k_sem_give w
  else
    if state_eqb (state (p2p_ctx w)) WIFI_P2P_STATE_CONNECTING then
      w
    else
      let w := upd_ctx (set_state WIFI_P2P_STATE_ERROR) w in
      let w := notify_user_event WIFI_P2P_EVENT_CONNECT_FAILED w in
      let w := upd_connect_sem k_sem_give w in
      upd_group_formed_sem k_sem_give w.

Definition handle_ap_enable_result (status : Z) (w : world) : world :=
  if status =? 0 then
    let w := upd_ctx (set_role WIFI_P2P_ROLE_GO) w in
    let w := upd_ctx (set_group_formed true) w in
    let w := upd_ctx (set_state WIFI_P2P_STATE_GROUP_FORMED) w in
    let w := upd_ctx (set_connected true) w in
    let w := bring_iface_up w in
    let w := upd_group_formed_sem k_sem_give w in
    notify_user_event WIFI_P2P_EVENT_GROUP_STARTED w
  else
    let w := upd_ctx (set_state WIFI_P2P_STATE_ERROR) w in
    let w := upd_group_formed_sem k_sem_give w in
    notify_user_event WIFI_P2P_EVENT_CONNECT_FAILED w.

Definition handle_ap_sta_connected (sta_mac : mac_addr) (w : world)
  : world :=
  let w := upd_ctx (set_connected true) w in
  let w := upd_ctx (set_peer_mac sta_mac) w in
  let w := notify_user_event WIFI_P2P_EVENT_PEER_JOINED w in
  let w := upd_ap_sta_connected_sem k_sem_give w in
  notify_user_event WIFI_P2P_EVENT_AP_STA_CONNECTED w.

Definition handle_ap_sta_disconnected (sta_mac : mac_addr) (w : world)
  : world :=
  if mac_eqb (peer_mac (p2p_ctx w)) sta_mac then
    let w := upd_ctx (set_connected false) w in
    let w := upd_ctx (set_peer_mac mac_zero) w in
    notify_user_event WIFI_P2P_EVENT_PEER_LEFT w
  else
    w.

Definition p2p_mgmt_event_handler (mgmt_event : net_mgmt_event) (w : world)
  : world :=
  match mgmt_event with
  | NET_EVENT_WIFI_P2P_DEVICE_FOUND info => handle_p2p_device_found info w
  | NET_EVENT_WIFI_CONNECT_RESULT status => handle_p2p_connect_result status w
  | NET_EVENT_WIFI_AP_ENABLE_RESULT status => handle_ap_enable_result status w
  | NET_EVENT_WIFI_AP_STA_CONNECTED m => handle_ap_sta_connected m w
  | NET_EVENT_WIFI_AP_STA_DISCONNECTED m => handle_ap_sta_disconnected m w
  | NET_EVENT_OTHER => w
  end.

(** Notifications handled, in order, while the calling thread is blocked. *)
Definition dispatch_all (evs : list net_mgmt_event) (w : world) : world :=
  fold_left (fun w ev => p2p_mgmt_event_handler ev w) evs w.

Definition wifi_p2p_init (w : world) : Z * world :=
  let w := upd_ctx (fun _ => ctx_zero) w in
  let w := upd_ctx (set_state WIFI_P2P_STATE_IDLE) w in
  let w := upd_ctx (set_role WIFI_P2P_ROLE_UNDETERMINED) w in
  let w := upd_find_sem k_sem_reset w in
  let w := upd_connect_sem k_sem_reset w in
  let w := upd_group_formed_sem k_sem_reset w in
  let w := upd_go_neg_request_sem k_sem_reset w in
  let w := upd_ap_sta_connected_sem k_sem_reset w in
  let w := bring_iface_up w in
  (0, w).

Definition wifi_p2p_register_event_callback
  (cb : option (wifi_p2p_event -> wifi_p2p_context -> U -> U)) (w : world)
  : world :=
  set_user_event_cb cb w.

(** k_sem_take(sem, K_MSEC(timeout_ms)), for a semaphore selected by its
    projection [get] and updater [upd].  [evs] are the notifications
    handled while the caller is blocked, up to its wake-up or time-out. *)
Definition k_sem_take
  (get : world -> k_sem) (upd : (k_sem -> k_sem) -> world -> world)
  (timeout_ms : Z) (evs : list net_mgmt_event) (w : world) : Z * world :=
  if Nat.ltb 0 (sem_count (get w)) then
    (0, upd (fun s => mk_sem (Nat.pred (sem_count s)) (sem_wait s)) w)
  else if timeout_ms =? 0 then
    (- EBUSY, w)
  else
    let w := upd (fun s => mk_sem (sem_count s) Pending) w in
    let w := dispatch_all evs w in
    match sem_wait (get w) with
    | Released => (0, upd (fun s => mk_sem (sem_count s) NoWaiter) w)
    | _ => (- EAGAIN, upd (fun s => mk_sem (sem_count s) NoWaiter) w)
    end.

Definition wifi_p2p_wait_for_peer (timeout_ms : Z)
  (evs : list net_mgmt_event) (w : world) : Z * world :=
  let (ret, w) := k_sem_take p2p_find_sem upd_find_sem timeout_ms evs w in
  if ret =? - EAGAIN then (- ETIMEDOUT, w) else (0, w).

Definition wifi_p2p_wait_for_group_formation (timeout_ms : Z)
  (evs : list net_mgmt_event) (w : world) : Z * world :=
  let (ret, w) :=
    k_sem_take p2p_group_formed_sem upd_group_formed_sem timeout_ms evs w in
  if ret =? - EAGAIN then (- ETIMEDOUT, w)
  else if state_eqb (state (p2p_ctx w)) WIFI_P2P_STATE_ERROR then (- EIO, w)
  else (0, w).

Definition wifi_p2p_wait_for_connection (timeout_ms : Z)
  (evs : list net_mgmt_event) (w : world) : Z * world :=
  let (ret, w) :=
    k_sem_take p2p_connect_sem upd_connect_sem timeout_ms evs w in
  if ret =? - EAGAIN then (- ETIMEDOUT, w)
  else if state_eqb (state (p2p_ctx w)) WIFI_P2P_STATE_ERROR then (- EIO, w)
  else (0, w).

Definition wifi_p2p_wait_for_ap_sta_connected (timeout_ms : Z)
  (evs : list net_mgmt_event) (w : world) : Z * world :=
  let (ret, w) :=
    k_sem_take p2p_ap_sta_connected_sem upd_ap_sta_connected_sem
               timeout_ms evs w in
  if ret =? - EAGAIN then (- ETIMEDOUT, w) else (0, w).

(** In the request functions below [ret] is the value returned by
    [net_mgmt(NET_REQUEST_WIFI_P2P_OPER, ...)]. *)

Definition wifi_p2p_find (timeout_sec : Z) (ret : Z) (w : world)
  : Z * world :=
  if negb (wifi_iface w) then (- ENODEV, w)
  else
    let w := upd_ctx (set_state WIFI_P2P_STATE_FINDING) w in
    let w := upd_ctx (set_peer_count 0) w in
    if negb (ret =? 0) then
      (ret, upd_ctx (set_state WIFI_P2P_STATE_ERROR) w)
    else (0, w).

Definition wifi_p2p_stop_find (ret : Z) (w : world) : Z * world :=
  if negb (wifi_iface w) then (- ENODEV, w)
  else if negb (ret =? 0) then (ret, w)
  else (0, upd_ctx (set_state WIFI_P2P_STATE_IDLE) w).

Definition wifi_p2p_connect (peer : option mac_addr) (intent : Z)
  (freq : Z) (ret : Z) (w : world) : Z * world :=
  if negb (wifi_iface w) then (- ENODEV, w)
  else
    match peer with
    | None => (- EINVAL, w)
    | Some _ =>
        let w := upd_ctx (set_go_intent intent) w in
        let w := upd_ctx (set_frequency freq) w in
        let w := upd_ctx (set_state WIFI_P2P_STATE_CONNECTING) w in
        if negb (ret =? 0) then
          (ret, upd_ctx (set_state WIFI_P2P_STATE_ERROR) w)
        else if intent =? 15 then
          (0, upd_ctx (set_role WIFI_P2P_ROLE_GO) w)
        else if intent =? 0 then
          (0, upd_ctx (set_role WIFI_P2P_ROLE_CLI) w)
        else (0, w)
    end.

Definition wifi_p2p_group_add (freq : Z) (ret : Z) (w : world) : Z * world :=
  if negb (wifi_iface w) then (- ENODEV, w)
  else if negb (ret =? 0) then (ret, w)
  else
    let w := upd_ctx (set_role WIFI_P2P_ROLE_GO) w in
    (0, upd_ctx (set_frequency freq) w).

Definition wifi_p2p_group_remove (ret : Z) (w : world) : Z * world :=
  if negb (wifi_iface w) then (- ENODEV, w)
  else if negb (ret =? 0) then (ret, w)
  else
    let w := upd_ctx (set_group_formed false) w in
    let w := upd_ctx (set_connected false) w in
    (0, upd_ctx (set_state WIFI_P2P_STATE_IDLE) w).

(** The operations that act on the session context: the orchestrator's
    requests, each with the result of its net_mgmt call, and the
    notifications of the dispatcher. *)
Inductive p2p_op : Type :=
| OpInit
| OpFind (timeout_sec ret : Z)
| OpStopFind (ret : Z)
| OpConnect (peer : option mac_addr) (intent freq ret : Z)
| OpGroupAdd (freq ret : Z)
| OpGroupRemove (ret : Z)
| OpEvent (ev : net_mgmt_event).

Definition p2p_step (op : p2p_op) (w : world) : world :=
  match op with
  | OpInit => snd (wifi_p2p_init w)
  | OpFind t ret => snd (wifi_p2p_find t ret w)
  | OpStopFind ret => snd (wifi_p2p_stop_find ret w)
  | OpConnect peer intent freq ret =>
      snd (wifi_p2p_connect peer intent freq ret w)
  | OpGroupAdd freq ret => snd (wifi_p2p_group_add freq ret w)
  | OpGroupRemove ret => snd (wifi_p2p_group_remove ret w)
  | OpEvent ev => p2p_mgmt_event_handler ev w
  end.

Definition p2p_run (ops : list p2p_op) (w : world) : world :=
  fold_left (fun w op => p2p_step op w) ops w.

(** States of the module reachable once [wifi_p2p_init] has run. *)
Inductive reachable : world -> Prop :=
| reachable_init : forall w0, reachable (snd (wifi_p2p_init w0))
| reachable_step : forall op w, reachable w -> reachable (p2p_step op w).

(** Whether [op] assigns a role other than UNDETERMINED on a device whose
    Wi-Fi interface presence is [iface]. *)
Definition resolves_role (iface : bool) (op : p2p_op) : bool :=
  match op with
  | OpConnect (Some _) intent _ ret =>
      iface && (ret =? 0) && ((intent =? 15) || (intent =? 0))
  | OpGroupAdd _ ret => iface && (ret =? 0)
  | OpEvent (NET_EVENT_WIFI_CONNECT_RESULT status) => status =? 0
  | OpEvent (NET_EVENT_WIFI_AP_ENABLE_RESULT status) => status =? 0
  | _ => false
  end.

(** Whether a role-assigning operation occurs in [ops] after the last
    [OpInit] ([resolved] is the answer for the empty trace). *)
Fixpoint role_resolved_since_init (iface : bool) (resolved : bool)
  (ops : list p2p_op) : bool :=
  match ops with
  | [] => resolved
  | OpInit :: rest => role_resolved_since_init iface false rest
  | op :: rest =>
      role_resolved_since_init iface (resolved || resolves_role iface op) rest
  end.

End P2P_UTILS.

(* ------------------------------------------------------------------ *)
(** ** wifi_p2p_utils.c: peer list queries                             *)
(* ------------------------------------------------------------------ *)

Definition str_is_empty (s : string) : bool :=
  match s with
  | EmptyString => true
  | String _ _ => false
  end.

Section PEER_LOOKUP.

(** The C library's [sscanf(mac_str, "%x:%x:%x:%x:%x:%x", ...)]: the
    unsigned values it stores, in order; its return value is their
    number. *)
Variable sscanf_mac : string -> list Z.

Definition parse_mac_address (mac_str : string) : option mac_addr :=
  match sscanf_mac mac_str with
  | [b0; b1; b2; b3; b4; b5] =>
      Some (Mac (u8 b0) (u8 b1) (u8 b2) (u8 b3) (u8 b4) (u8 b5))
  | _ => None
  end.

(** The loop [for (i = 0; i < peer_count; i++)] of
    wifi_p2p_find_peer_by_mac, entered at index [i] with [remaining]
    iterations to go.  Reading past the array is outside the model. *)
Fixpoint find_peer_loop (peers : list wifi_p2p_device_info)
  (filter_mac : mac_addr) (i : nat) (remaining : nat) : option nat :=
  match remaining with
  | O => None
  | S remaining' =>
      match nth_error peers i with
      | Some p =>
          if mac_eqb (mac p) filter_mac then Some i
          else find_peer_loop peers filter_mac (S i) remaining'
      | None => None
      end
  end.

(** wifi_p2p_find_peer_by_mac: [peers] is the array ([None] for a NULL
    pointer), [mac_filter] the filter string ([None] for NULL); the
    result is the index of the element pointed to, [None] for NULL. *)
Definition wifi_p2p_find_peer_by_mac
  (peers : option (list wifi_p2p_device_info)) (peer_count : Z)
  (mac_filter : option string) : option nat :=
  match peers, mac_filter with
  | Some arr, Some filter =>
      if peer_count =? 0 then None
      else if str_is_empty filter then Some 0%nat
      else
        match parse_mac_address filter with
        | None => None
        | Some filter_mac =>
            find_peer_loop arr filter_mac 0 (Z.to_nat peer_count)
        end
  | _, _ => None
  end.

End PEER_LOOKUP.

(** wifi_p2p_get_peers, called with non-NULL [peers] and [peer_count]
    pointers: [cur] is the caller's array and count; on success the
    subsystem has filled the array ([found]) and [params.peer_count]
    ([found_count]) is stored through the pointer. *)
Definition wifi_p2p_get_peers {U : Type} (w : p2p_world U)
  (cur : list wifi_p2p_device_info * Z) (ret : Z)
  (found : list wifi_p2p_device_info) (found_count : Z)
  : Z * (list wifi_p2p_device_info * Z) :=
  if negb (wifi_iface w) then (- ENODEV, cur)
  else if negb (ret =? 0) then (ret, cur)
  else (0, (found, u16 found_count)).

(* ------------------------------------------------------------------ *)
(** ** udp_utils.h / udp_utils.c: the echo engine                      *)
(* ------------------------------------------------------------------ *)

Definition UDP_RECV_TIMEOUT_MS : Z := 2000.

Record udp_echo_stats : Type := mk_stats {
  packets_sent : Z;
  packets_received : Z;
  bytes_sent : Z;
  bytes_received : Z;
  packets_lost : Z;
  rtt_min_us : Z;
  rtt_max_us : Z;
  rtt_avg_us : Z;
  rtt_total_us : Z
}.

Definition stats_zero : udp_echo_stats := mk_stats 0 0 0 0 0 0 0 0 0.

(** udp_echo_reset_stats; [None] is a NULL pointer. *)
Definition udp_echo_reset_stats (stats : option udp_echo_stats)
  : option udp_echo_stats :=
  match stats with
  | Some _ => Some (mk_stats 0 0 0 0 0 UINT32_MAX 0 0 0)
  | None => None
  end.

(** The return value and [errno] of a socket call. *)
Record sock_result : Type := mk_sock_result {
  sock_ret : Z;
  sock_errno : Z
}.

(** udp_send, given the outcome of its zsock_sendto. *)
Definition udp_send (sendto : sock_result) : Z :=
  if sock_ret sendto <? 0 then - sock_errno sendto else sock_ret sendto.

(** udp_receive, given the outcome of its zsock_recvfrom. *)
Definition udp_receive (recvfrom : sock_result) : Z :=
  if sock_ret recvfrom <? 0 then
    if (sock_errno recvfrom =? EAGAIN) || (sock_errno recvfrom =? EWOULDBLOCK)
    then 0
    else - sock_errno recvfrom
  else sock_ret recvfrom.

(** What one call of udp_echo_ping meets: k_uptime_get() before the
    send, the outcome of the send, of the receive, and k_uptime_get()
    after the reply (both in milliseconds). *)
Record ping_env : Type := mk_ping_env {
  start_time : Z;
  ping_sendto : sock_result;
  ping_recvfrom : sock_result;
  end_time : Z
}.

(** udp_echo_ping: the return value and the content of [*rtt_us] after
    the call ([rtt_us] before it when nothing is stored). *)
Definition udp_echo_ping (e : ping_env) (rtt_us : Z) : Z * Z :=
  let ret := udp_send (ping_sendto e) in
  if ret <? 0 then (ret, rtt_us)
  else
    let ret := udp_receive (ping_recvfrom e) in
    if ret <=? 0 then
      if ret =? 0 then (- ETIMEDOUT, rtt_us) else (ret, rtt_us)
    else (ret, u32 ((end_time e - start_time e) * 1000)).

(** The statistics update of the client loop for a ping that returned
    [ret] with round-trip time [rtt_us] (udp_utils.c lines 281-315). *)
Definition client_account (packet_size ret rtt_us : Z)
  (s : udp_echo_stats) : udp_echo_stats :=
  if 0 <? ret then
    let sent := u32 (packets_sent s + 1) in
    let received := u32 (packets_received s + 1) in
    let bsent := u32 (bytes_sent s + packet_size) in
    let breceived := u32 (bytes_received s + ret) in
    let rmin :=
      if (received =? 1) || (rtt_us <? rtt_min_us s) then rtt_us
      else rtt_min_us s in
    let rmax := if rtt_us >? rtt_max_us s then rtt_us else rtt_max_us s in
    let total := u64 (rtt_total_us s + rtt_us) in
    let avg := u32 (total / received) in
    mk_stats sent received bsent breceived (packets_lost s)
             rmin rmax avg total
  else if ret =? - ETIMEDOUT then
    mk_stats (u32 (packets_sent s + 1)) (packets_received s)
             (u32 (bytes_sent s + packet_size)) (bytes_received s)
             (u32 (packets_lost s + 1))
             (rtt_min_us s) (rtt_max_us s) (rtt_avg_us s) (rtt_total_us s)
  else s.

(** One pass through the client's [while]: the value read from
    [*stop_flag] at the loop head and what the ping meets. *)
Record client_iter : Type := mk_client_iter {
  client_stop_read : bool;
  client_ping : ping_env
}.

Inductive exit_reason : Type :=
| ExitCount
| ExitStopFlag.

(** The [while] loop of udp_echo_client_run, guarded by the stop flag.  [env]
    scripts the passes; [None] means the script ended with the loop
    still running. *)
Fixpoint client_loop (packet_size count : Z) (env : list client_iter)
  (seq_num rtt_us : Z) (stats : option udp_echo_stats)
  : option (exit_reason * option udp_echo_stats) :=
  match env with
  | [] => None
  | it :: rest =>
      if client_stop_read it then Some (ExitStopFlag, stats)
      else if (0 <? count) && (count <=? seq_num) then Some (ExitCount, stats)
      else
        let (ret, rtt_us) := udp_echo_ping (client_ping it) rtt_us in
        let stats :=
          match stats with
          | Some s => Some (client_account packet_size ret rtt_us s)
          | None => None
          end in
        client_loop packet_size count rest (u32 (seq_num + 1)) rtt_us stats
  end.

(** udp_echo_client_run; [buffer_size] is [sizeof(send_buffer)], that is
    CONFIG_UDP_ECHO_PACKET_SIZE + 64.  The function returns 0 whenever
    it returns. *)
Definition udp_echo_client_run (buffer_size packet_size count : Z)
  (stats : option udp_echo_stats) (env : list client_iter)
  : option (exit_reason * option udp_echo_stats) :=
  let packet_size :=
    if packet_size >? buffer_size then buffer_size else packet_size in
  client_loop packet_size count env 0 0 stats.

(** The address family of a socket address; a zero-initialised
    structure holds AF_UNSPEC. *)
Inductive sa_family : Type :=
| AF_UNSPEC
| AF_INET.

Record sockaddr_in : Type := mk_sockaddr_in {
  sin_family : sa_family;
  sin_addr : Z;
  sin_port : Z
}.

Definition sockaddr_zero : sockaddr_in := mk_sockaddr_in AF_UNSPEC 0 0.

(** htons on the little-endian target: the two bytes of a 16-bit value
    swapped. *)
Definition htons (x : Z) : Z :=
  Z.lor (Z.shiftl (Z.land x 255) 8) (Z.land (Z.shiftr x 8) 255).

(** Outcome of the server's zsock_recvfrom: a failure with its errno, or
    a datagram (its length is the return value) and the sender. *)
Inductive recv_outcome : Type :=
| RecvFail (errno : Z)
| RecvData (payload : list Z) (from : sockaddr_in).

Record server_iter : Type := mk_server_iter {
  server_stop_read : bool;
  server_recvfrom : recv_outcome;
  server_sendto : sock_result
}.

(** A zsock_sendto call of the server: the bytes handed over and the
    destination. *)
Record sendto_call : Type := mk_sendto_call {
  sent_payload : list Z;
  sent_to : sockaddr_in
}.

Definition server_count_received (recv_len : Z)
  (stats : option udp_echo_stats) : option udp_echo_stats :=
  match stats with
  | Some s =>
      Some (mk_stats (packets_sent s) (u32 (packets_received s + 1))
                     (bytes_sent s) (u32 (bytes_received s + recv_len))
                     (packets_lost s) (rtt_min_us s) (rtt_max_us s)
                     (rtt_avg_us s) (rtt_total_us s))
  | None => None
  end.

Definition server_count_sent (send_len : Z)
  (stats : option udp_echo_stats) : option udp_echo_stats :=
  match stats with
  | Some s =>
      Some (mk_stats (u32 (packets_sent s + 1)) (packets_received s)
                     (u32 (bytes_sent s + send_len)) (bytes_received s)
                     (packets_lost s) (rtt_min_us s) (rtt_max_us s)
                     (rtt_avg_us s) (rtt_total_us s))
  | None => None
  end.

(** The body of the server's [while] after the stop flag was read as
    false: the statistics and the sendto calls made so far, updated. *)
Definition server_body (it : server_iter)
  (st : option udp_echo_stats * list sendto_call)
  : option udp_echo_stats * list sendto_call :=
  let (stats, calls) := st in
  match server_recvfrom it with
  | RecvFail _ => (stats, calls)
  | RecvData payload from =>
      let recv_len := Z.of_nat (List.length payload) in
      if recv_len =? 0 then (stats, calls)
      else
        let stats := server_count_received recv_len stats in
        let calls := calls ++ [mk_sendto_call payload from] in
        let send_len := sock_ret (server_sendto it) in
        if send_len <? 0 then (stats, calls)
        else (server_count_sent send_len stats, calls)
  end.

(** udp_echo_server_run: [None] means the script [env] ended with the
    loop still running; otherwise the function returned 0 with these
    statistics, having made these sendto calls. *)
Fixpoint udp_echo_server_run (env : list server_iter)
  (st : option udp_echo_stats * list sendto_call)
  : option (option udp_echo_stats * list sendto_call) :=
  match env with
  | [] => None
  | it :: rest =>
      if server_stop_read it then Some st
      else udp_echo_server_run rest (server_body it st)
  end.

(** What udp_echo_print_stats logs: the counters; the three RTT lines,
    each as milliseconds and the remainder in microseconds, only when a
    packet was received; the loss percentage only when one was sent. *)
Record stats_report : Type := mk_report {
  rep_packets_sent : Z;
  rep_packets_received : Z;
  rep_packets_lost : Z;
  rep_bytes_sent : Z;
  rep_bytes_received : Z;
  rep_rtt_min : option (Z * Z);
  rep_rtt_max : option (Z * Z);
  rep_rtt_avg : option (Z * Z);
  rep_loss_pct : option Z
}.

Definition udp_echo_print_stats (stats : option udp_echo_stats)
  : option stats_report :=
  match stats with
  | None => None
  | Some s =>
      let ms_us (v : Z) :=
        if 0 <? packets_received s then Some (v / 1000, v mod 1000)
        else None in
      Some (mk_report (packets_sent s) (packets_received s) (packets_lost s)
                      (bytes_sent s) (bytes_received s)
                      (ms_us (rtt_min_us s)) (ms_us (rtt_max_us s))
                      (ms_us (rtt_avg_us s))
                      (if 0 <? packets_sent s
                       then Some (u32 (packets_lost s * 100) / packets_sent s)
                       else None))
  end.

(** The receive timeout udp_client_init asks for with SO_RCVTIMEO, as
    the [struct timeval] it builds. *)
Definition recv_timeval : Z * Z :=
  (UDP_RECV_TIMEOUT_MS / 1000, (UDP_RECV_TIMEOUT_MS mod 1000) * 1000).

Definition timeval_ms (tv : Z * Z) : Z := fst tv * 1000 + snd tv / 1000.

(** What a call of zsock_inet_pton leaves behind: its return value and
    the content of the address field it was handed, after the call. *)
Record inet_pton_result : Type := mk_inet_pton {
  inet_pton_ret : Z;
  inet_pton_addr : Z
}.

(** What an init function of udp_utils.c has done when it returns: the
    return value, the descriptor stored through [socket] (if any) and
    the descriptors it has closed with zsock_close, in order. *)
Record init_result : Type := mk_init {
  init_ret : Z;
  init_socket : option Z;
  init_closed : list Z
}.

(** udp_client_init, given the outcome of zsock_socket and of
    zsock_inet_pton, the structure [server_addr] points to and [port]:
    what it has done and the structure after the call.  A failure of
    zsock_setsockopt is only logged.  The family and the port are
    stored before the address is parsed; when the parse fails the new
    descriptor is closed and nothing is stored through [socket]. *)
Definition udp_client_init (sock : sock_result) (server_addr : sockaddr_in)
  (pton : inet_pton_result) (port : Z) : init_result * sockaddr_in :=
  if sock_ret sock <? 0 then (mk_init (- sock_errno sock) None [], server_addr)
  else
    let server_addr :=
      mk_sockaddr_in AF_INET (sin_addr server_addr) (sin_port server_addr) in
    let server_addr :=
      mk_sockaddr_in (sin_family server_addr) (sin_addr server_addr)
                     (htons port) in
    let server_addr :=
      mk_sockaddr_in (sin_family server_addr) (inet_pton_addr pton)
                     (sin_port server_addr) in
    if inet_pton_ret pton <=? 0
    then (mk_init (- EINVAL) None [sock_ret sock], server_addr)
    else (mk_init 0 (Some (sock_ret sock)) [], server_addr).

(** udp_server_init, given the outcome of zsock_socket and of
    zsock_bind; the address it binds to is a local of the function.
    When the bind fails the new descriptor is closed and nothing is
    stored through [socket]. *)
Definition udp_server_init (sock : sock_result) (bind : sock_result)
  : init_result :=
  if sock_ret sock <? 0 then mk_init (- sock_errno sock) None []
  else if sock_ret bind <? 0
  then mk_init (- sock_errno bind) None [sock_ret sock]
  else mk_init 0 (Some (sock_ret sock)) [].

(* ------------------------------------------------------------------ *)
(** ** main.c: the pairing orchestrator                                *)
(* ------------------------------------------------------------------ *)

(** The Kconfig options main.c reads (values of prj.conf). *)
Record kconfig : Type := mk_kconfig {
  CONFIG_WIFI_P2P_MAX_PEERS : Z;
  CONFIG_P2P_DISCOVERY_TIMEOUT : Z;
  CONFIG_P2P_DISCOVERY_WAIT_MS : Z;
  CONFIG_P2P_FIND_STOP_DELAY_MS : Z;
  CONFIG_P2P_TARGET_PEER_MAC : string;
  CONFIG_P2P_GO_INTENT : Z;
  CONFIG_P2P_OPERATING_FREQUENCY : Z;
  CONFIG_P2P_GO_NEG_REQUEST_WAIT_MS : Z;
  CONFIG_P2P_GROUP_FORMATION_TIMEOUT_MS : Z;
  CONFIG_P2P_AP_STA_CONNECTED_TIMEOUT_MS : Z;
  CONFIG_P2P_4WAY_HANDSHAKE_WAIT_MS : Z;
  CONFIG_P2P_DHCP_START_DELAY_MS : Z;
  CONFIG_UDP_ECHO_PACKET_SIZE : Z;
  CONFIG_UDP_ECHO_INTERVAL_MS : Z;
  CONFIG_UDP_ECHO_COUNT : Z
}.

(** What main.c does that is visible outside its own statics, in program
    order: sleeps, the store to the volatile stop flag, socket closes
    (its own and those the init functions of udp_utils.c make during a
    call from main.c), thread creation and the calls into the network
    configuration. *)
Inductive action : Type :=
| ACT_K_SLEEP (ms : Z)
| ACT_STOP_FLAG_SET
| ACT_SOCK_CLOSE (fd : Z)
| ACT_THREAD_CREATE_SERVER
| ACT_THREAD_CREATE_CLIENT
| ACT_CONFIGURE_GO_IP
| ACT_START_DHCP_SERVER
| ACT_REGISTER_DHCP_CALLBACK
| ACT_DHCPV4_START.

(** The statics of main.c.  [p2p_connect_work_pending] stands for
    [p2p_connect_work] being queued by k_work_submit. *)
Record main_globals : Type := mk_globals {
  discovered_peers : list wifi_p2p_device_info;
  discovered_peer_count : Z;
  p2p_pairing_in_progress : bool;
  p2p_connect_work_pending : bool;
  dhcp_bound_handled : bool;
  udp_socket : Z;
  server_addr : sockaddr_in;
  udp_echo_stop_flag : bool;
  echo_stats : udp_echo_stats;
  timeline : list action
}.

Definition set_discovered (ps : list wifi_p2p_device_info) (n : Z)
  (g : main_globals) : main_globals :=
  mk_globals ps n (p2p_pairing_in_progress g) (p2p_connect_work_pending g)
             (dhcp_bound_handled g) (udp_socket g) (server_addr g)
             (udp_echo_stop_flag g) (echo_stats g) (timeline g).
Definition set_pairing_in_progress (b : bool) (g : main_globals)
  : main_globals :=
  mk_globals (discovered_peers g) (discovered_peer_count g) b
             (p2p_connect_work_pending g) (dhcp_bound_handled g)
             (udp_socket g) (server_addr g) (udp_echo_stop_flag g)
             (echo_stats g) (timeline g).
Definition set_connect_work_pending (b : bool) (g : main_globals)
  : main_globals :=
  mk_globals (discovered_peers g) (discovered_peer_count g)
             (p2p_pairing_in_progress g) b (dhcp_bound_handled g)
             (udp_socket g) (server_addr g) (udp_echo_stop_flag g)
             (echo_stats g) (timeline g).
Definition set_dhcp_bound_handled (b : bool) (g : main_globals)
  : main_globals :=
  mk_globals (discovered_peers g) (discovered_peer_count g)
             (p2p_pairing_in_progress g) (p2p_connect_work_pending g) b
             (udp_socket g) (server_addr g) (udp_echo_stop_flag g)
             (echo_stats g) (timeline g).
Definition set_udp_socket (fd : Z) (g : main_globals) : main_globals :=
  mk_globals (discovered_peers g) (discovered_peer_count g)
             (p2p_pairing_in_progress g) (p2p_connect_work_pending g)
             (dhcp_bound_handled g) fd (server_addr g)
             (udp_echo_stop_flag g) (echo_stats g) (timeline g).
Definition set_server_addr (a : sockaddr_in) (g : main_globals)
  : main_globals :=
  mk_globals (discovered_peers g) (discovered_peer_count g)
             (p2p_pairing_in_progress g) (p2p_connect_work_pending g)
             (dhcp_bound_handled g) (udp_socket g) a
             (udp_echo_stop_flag g) (echo_stats g) (timeline g).
Definition set_udp_echo_stop_flag (b : bool) (g : main_globals)
  : main_globals :=
  mk_globals (discovered_peers g) (discovered_peer_count g)
             (p2p_pairing_in_progress g) (p2p_connect_work_pending g)
             (dhcp_bound_handled g) (udp_socket g) (server_addr g) b
             (echo_stats g) (timeline g).
Definition set_echo_stats (s : udp_echo_stats) (g : main_globals)
  : main_globals :=
  mk_globals (discovered_peers g) (discovered_peer_count g)
             (p2p_pairing_in_progress g) (p2p_connect_work_pending g)
             (dhcp_bound_handled g) (udp_socket g) (server_addr g)
             (udp_echo_stop_flag g) s (timeline g).
Definition log_action (a : action) (g : main_globals) : main_globals :=
  mk_globals (discovered_peers g) (discovered_peer_count g)
             (p2p_pairing_in_progress g) (p2p_connect_work_pending g)
             (dhcp_bound_handled g) (udp_socket g) (server_addr g)
             (udp_echo_stop_flag g) (echo_stats g) (timeline g ++ [a]).

(** The closes an init function has made, appended to the timeline. *)
Definition log_closes (fds : list Z) (g : main_globals) : main_globals :=
  fold_left (fun g fd => log_action (ACT_SOCK_CLOSE fd) g) fds g.

(** The statics as the C runtime initialises them. *)
Definition globals_boot : main_globals :=
  mk_globals [] 0 false false false (-1) sockaddr_zero false stats_zero [].

(** The grace period of stop_udp_echo, [k_sleep(K_MSEC(500))]. *)
Definition STOP_GRACE_MS : Z := 500.

(** stop_udp_echo.  The socket is closed through udp_client_cleanup,
    which closes a descriptor that is not negative. *)
Definition stop_udp_echo (g : main_globals) : main_globals :=
  let g := set_udp_echo_stop_flag true g in
  let g := log_action ACT_STOP_FLAG_SET g in
  let g := log_action (ACT_K_SLEEP STOP_GRACE_MS) g in
  if udp_socket g >=? 0 then
    let g := log_action (ACT_SOCK_CLOSE (udp_socket g)) g in
    set_udp_socket (-1) g
  else g.

(** start_udp_echo_server and start_udp_echo_client, given the outcome
    of the socket calls of their init function; [udp_echo_port] is
    CONFIG_UDP_ECHO_PORT, converted to the [uint16_t] parameter. *)
Definition start_udp_echo_server (sock bind : sock_result)
  (g : main_globals) : main_globals :=
  let r := udp_server_init sock bind in
  let g := log_closes (init_closed r) g in
  let g :=
    match init_socket r with Some s => set_udp_socket s g | None => g end in
  if init_ret r <? 0 then g
  else
    let g :=
      match udp_echo_reset_stats (Some (echo_stats g)) with
      | Some s => set_echo_stats s g
      | None => g
      end in
    let g := set_udp_echo_stop_flag false g in
    log_action ACT_THREAD_CREATE_SERVER g.

Definition start_udp_echo_client (sock : sock_result)
  (pton : inet_pton_result) (udp_echo_port : Z) (g : main_globals)
  : main_globals :=
  let (r, addr) :=
    udp_client_init sock (server_addr g) pton (u16 udp_echo_port) in
  let g := set_server_addr addr g in
  let g := log_closes (init_closed r) g in
  let g :=
    match init_socket r with Some s => set_udp_socket s g | None => g end in
  if init_ret r <? 0 then g
  else
    let g :=
      match udp_echo_reset_stats (Some (echo_stats g)) with
      | Some s => set_echo_stats s g
      | None => g
      end in
    let g := set_udp_echo_stop_flag false g in
    log_action ACT_THREAD_CREATE_CLIENT g.

Definition setup_go_network (sock bind : sock_result) (g : main_globals)
  : main_globals :=
  let g := log_action ACT_CONFIGURE_GO_IP g in
  let g := log_action ACT_START_DHCP_SERVER g in
  start_udp_echo_server sock bind g.

(** p2p_event_handler, the callback main.c registers. *)
Definition p2p_event_handler (event : wifi_p2p_event)
  (ctx : wifi_p2p_context) (g : main_globals) : main_globals :=
  match event with
  | WIFI_P2P_EVENT_PEER_LEFT => stop_udp_echo g
  | WIFI_P2P_EVENT_DISCONNECTED => stop_udp_echo g
  | _ => g
  end.

(** The loop of p2p_connect_handler that looks for the highest RSSI
    (main.c lines 344-349), entered at index [i] with [remaining]
    iterations to go; [best] is [(best_idx, best_rssi)]. *)
Fixpoint best_rssi_loop (peers : list wifi_p2p_device_info)
  (i remaining : nat) (best : Z * Z) : Z * Z :=
  match remaining with
  | O => best
  | S remaining' =>
      match nth_error peers i with
      | Some p =>
          best_rssi_loop peers (S i) remaining'
            (if rssi p >? snd best then (Z.of_nat i, rssi p) else best)
      | None => best
      end
  end.

(** The auto-selection branch (main.c lines 337-351): the index of
    [target_peer] in the array, [None] for NULL. *)
Definition select_highest_rssi (peers : list wifi_p2p_device_info)
  (count : Z) : option nat :=
  let best := best_rssi_loop peers 0 (Z.to_nat count) (-1, INT_MIN) in
  if fst best >=? 0 then Some (Z.to_nat (fst best)) else None.

(** The application: the statics of wifi_p2p_utils.c with those of
    main.c as the state of the user callback. *)
Definition app : Type := p2p_world main_globals.

(** k_sleep(K_MSEC(ms)) on an orchestrator thread: [evs] are the
    notifications the dispatcher handles meanwhile. *)
Definition k_sleep (ms : Z) (evs : list net_mgmt_event) (w : app) : app :=
  dispatch_all evs (upd_user (log_action (ACT_K_SLEEP ms)) w).

(** What one run of p2p_start_handler meets. *)
Record start_env : Type := mk_start_env {
  find_ret : Z;
  discovery_events : list net_mgmt_event;
  get_peers_ret : Z;
  peers_found : list wifi_p2p_device_info;
  peers_found_count : Z
}.

(** What one run of p2p_connect_handler meets. *)
Record connect_env : Type := mk_connect_env {
  stop_find_ret : Z;
  find_stop_events : list net_mgmt_event;
  go_neg_events : list net_mgmt_event;
  connect_ret : Z;
  group_formation_events : list net_mgmt_event;
  ap_sta_events : list net_mgmt_event;
  handshake_events : list net_mgmt_event;
  dhcp_delay_events : list net_mgmt_event;
  server_socket : sock_result;
  server_bind : sock_result
}.

Definition no_peer : wifi_p2p_device_info := mk_device_info mac_zero "" 0.

Section MAIN.

Variable cfg : kconfig.
Variable sscanf_mac : string -> list Z.

(** Peer selection of p2p_connect_handler (main.c lines 335-356). *)
Definition select_target_peer (g : main_globals) : option nat :=
  if str_is_empty (CONFIG_P2P_TARGET_PEER_MAC cfg) then
    select_highest_rssi (discovered_peers g) (discovered_peer_count g)
  else
    wifi_p2p_find_peer_by_mac sscanf_mac (Some (discovered_peers g))
      (discovered_peer_count g) (Some (CONFIG_P2P_TARGET_PEER_MAC cfg)).

(** The role-specific part of p2p_connect_handler (main.c lines
    416-456). *)
Definition post_connect (e : connect_env) (w : app) : app :=
  match role (p2p_ctx w) with
  | WIFI_P2P_ROLE_GO =>
      let (_, w) :=
        wifi_p2p_wait_for_ap_sta_connected
          (u32 (CONFIG_P2P_AP_STA_CONNECTED_TIMEOUT_MS cfg))
          (ap_sta_events e) w in
      let w :=
        k_sleep (CONFIG_P2P_4WAY_HANDSHAKE_WAIT_MS cfg)
                (handshake_events e) w in
      upd_user (setup_go_network (server_socket e) (server_bind e)) w
  | WIFI_P2P_ROLE_CLI =>
      let w :=
        if 0 <? CONFIG_P2P_DHCP_START_DELAY_MS cfg
        then k_sleep (CONFIG_P2P_DHCP_START_DELAY_MS cfg)
                     (dhcp_delay_events e) w
        else w in
      let w := upd_user (set_dhcp_bound_handled false) w in
      let w := upd_user (log_action ACT_REGISTER_DHCP_CALLBACK) w in
      upd_user (log_action ACT_DHCPV4_START) w
  | WIFI_P2P_ROLE_UNDETERMINED => w
  end.

Definition p2p_connect_handler (e : connect_env) (w : app) : app :=
  if discovered_peer_count (user w) =? 0 then
    upd_user (set_pairing_in_progress false) w
  else
    let (_, w) := wifi_p2p_stop_find (stop_find_ret e) w in
    let w :=
      k_sleep (CONFIG_P2P_FIND_STOP_DELAY_MS cfg) (find_stop_events e) w in
    match select_target_peer (user w) with
    | None => upd_user (set_pairing_in_progress false) w
    | Some idx =>
        let target_peer := nth idx (discovered_peers (user w)) no_peer in
        let peer := mac target_peer in
        let intent := u8 (CONFIG_P2P_GO_INTENT cfg) in
        let freq := u32 (CONFIG_P2P_OPERATING_FREQUENCY cfg) in
        let w :=
          if intent =? 0
          then k_sleep (CONFIG_P2P_GO_NEG_REQUEST_WAIT_MS cfg)
                       (go_neg_events e) w
          else w in
        let (ret, w) :=
          wifi_p2p_connect (Some peer) intent freq (connect_ret e) w in
        if ret <? 0 then upd_user (set_pairing_in_progress false) w
        else
          let (ret, w) :=
            wifi_p2p_wait_for_group_formation
              (u32 (CONFIG_P2P_GROUP_FORMATION_TIMEOUT_MS cfg))
              (group_formation_events e) w in
          if ret <? 0 then upd_user (set_pairing_in_progress false) w
          else
            let w := post_connect e w in
            upd_user (set_pairing_in_progress false) w
    end.

Definition p2p_start_handler (e : start_env) (w : app) : app :=
  if p2p_pairing_in_progress (user w) then w
  else
    let w := upd_user (set_pairing_in_progress true) w in
    let w :=
      upd_user (fun g => set_discovered (discovered_peers g) 0 g) w in
    let (ret, w) :=
      wifi_p2p_find (u16 (CONFIG_P2P_DISCOVERY_TIMEOUT cfg)) (find_ret e) w in
    if ret <? 0 then upd_user (set_pairing_in_progress false) w
    else
      let w :=
        k_sleep (CONFIG_P2P_DISCOVERY_WAIT_MS cfg) (discovery_events e) w in
      let (_, found) :=
        wifi_p2p_get_peers w
          (discovered_peers (user w), discovered_peer_count (user w))
          (get_peers_ret e) (peers_found e) (peers_found_count e) in
      let w := upd_user (set_discovered (fst found) (snd found)) w in
      if (0 <? discovered_peer_count (user w))
         || state_eqb (state (p2p_ctx w)) WIFI_P2P_STATE_FOUND
      then upd_user (set_connect_work_pending true) w
      else upd_user (set_pairing_in_progress false) w.

(** The system work queue runs the connect work item if it is queued. *)
Definition run_connect_work (e : connect_env) (w : app) : app :=
  if p2p_connect_work_pending (user w)
  then p2p_connect_handler e (upd_user (set_connect_work_pending false) w)
  else w.

(** One "start pairing" trigger followed to its end: the start work item
    and, when it queued it, the connect work item. *)
Definition pairing_attempt (se : start_env) (ce : connect_env) (w : app)
  : app :=
  run_connect_work ce (p2p_start_handler se w).

End MAIN.

(* ------------------------------------------------------------------ *)
(** ** main.c: the address-bound callback                              *)
(* ------------------------------------------------------------------ *)

(** The statics of main.c together with the two that only the DHCP
    callback chain uses: [dhcp_bound_iface] (whether the pointer is
    non-NULL) and whether [dhcp_bound_work] is queued. *)
Record main_dhcp : Type := mk_main_dhcp {
  dhcp_globals : main_globals;
  dhcp_bound_iface : bool;
  dhcp_bound_work_pending : bool
}.

(** The two assignments of p2p_connect_handler that arm the callback
    (main.c lines 446-447). *)
Definition arm_dhcp_bound (iface : bool) (m : main_dhcp) : main_dhcp :=
  mk_main_dhcp (set_dhcp_bound_handled false (dhcp_globals m)) iface
               (dhcp_bound_work_pending m).

(** dhcp_bound_cb; [iface] tells whether its argument is non-NULL. *)
Definition dhcp_bound_cb (iface : bool) (m : main_dhcp) : main_dhcp :=
  if dhcp_bound_handled (dhcp_globals m) then m
  else mk_main_dhcp (set_dhcp_bound_handled true (dhcp_globals m)) iface true.

(** dhcp_bound_handler, given CONFIG_P2P_CLIENT_CONNECT_DELAY_MS,
    CONFIG_UDP_ECHO_PORT and the outcome of the socket calls of
    udp_client_init. *)
Definition dhcp_bound_handler (client_connect_delay_ms : Z)
  (sock : sock_result) (pton : inet_pton_result) (udp_echo_port : Z)
  (m : main_dhcp) : main_dhcp :=
  if negb (dhcp_bound_iface m) then m
  else
    let g := log_action (ACT_K_SLEEP client_connect_delay_ms)
                        (dhcp_globals m) in
    mk_main_dhcp (start_udp_echo_client sock pton udp_echo_port g)
                 (dhcp_bound_iface m) (dhcp_bound_work_pending m).

(** The system work queue runs the address-bound work item if it is
    queued. *)
Definition run_dhcp_bound_work (client_connect_delay_ms : Z)
  (sock : sock_result) (pton : inet_pton_result) (udp_echo_port : Z)
  (m : main_dhcp) : main_dhcp :=
  if dhcp_bound_work_pending m
  then dhcp_bound_handler client_connect_delay_ms sock pton udp_echo_port
         (mk_main_dhcp (dhcp_globals m) (dhcp_bound_iface m) false)
  else m.

(* ------------------------------------------------------------------ *)
(** ** net_utils.c                                                     *)
(* ------------------------------------------------------------------ *)

Definition EALREADY : Z := 120.

Module net_utils.

(** Calls into Zephyr's DHCPv4 server. *)
Inductive dhcp_server_call : Type :=
| NET_DHCPV4_SERVER_START
| NET_DHCPV4_SERVER_STOP.

(** The network events the module's handler can be handed. *)
Inductive net_event : Type :=
| NET_EVENT_IPV4_DHCP_BOUND
| NET_EVENT_IPV4_OTHER.

(** The statics of net_utils.c.  [V] is the state owned by the
    registered address-bound callback, which is handed the interface
    pointer (here: whether it is non-NULL). *)
Record statics (V : Type) : Type := mk_statics {
  dhcp_server_running : bool;
  dhcp_bound_sem : k_sem;
  dhcp_bound_cb : option (bool -> V -> V);
  dhcp_cb_registered : bool;
  cb_state : V;
  server_calls : list dhcp_server_call
}.

Arguments mk_statics {V}.
Arguments dhcp_server_running {V}.
Arguments dhcp_bound_sem {V}.
Arguments dhcp_bound_cb {V}.
Arguments dhcp_cb_registered {V}.
Arguments cb_state {V}.
Arguments server_calls {V}.

Section NET_UTILS.

Context {V : Type}.

(** Whether net_if_get_first_wifi() returns an interface. *)
Variable wifi_present : bool.

Definition set_running (b : bool) (n : statics V) : statics V :=
  mk_statics b (dhcp_bound_sem n) (dhcp_bound_cb n) (dhcp_cb_registered n)
             (cb_state n) (server_calls n).

Definition log_server_call (c : dhcp_server_call) (n : statics V)
  : statics V :=
  mk_statics (dhcp_server_running n) (dhcp_bound_sem n) (dhcp_bound_cb n)
             (dhcp_cb_registered n) (cb_state n) (server_calls n ++ [c]).

(** net_mgmt_event_handler; [iface] tells whether the interface pointer
    of the event is non-NULL. *)
Definition net_mgmt_event_handler (mgmt_event : net_event) (iface : bool)
  (n : statics V) : statics V :=
  match mgmt_event with
  | NET_EVENT_IPV4_DHCP_BOUND =>
      let n := mk_statics (dhcp_server_running n)
                          (k_sem_give (dhcp_bound_sem n)) (dhcp_bound_cb n)
                          (dhcp_cb_registered n) (cb_state n)
                          (server_calls n) in
      match dhcp_bound_cb n with
      | Some cb =>
          mk_statics (dhcp_server_running n) (dhcp_bound_sem n)
                     (dhcp_bound_cb n) (dhcp_cb_registered n)
                     (cb iface (cb_state n)) (server_calls n)
      | None => n
      end
  | NET_EVENT_IPV4_OTHER => n
  end.

(** A network event reaches the handler only once the callback has been
    added with net_mgmt_add_event_callback. *)
Definition deliver (ev : net_event * bool) (n : statics V) : statics V :=
  if dhcp_cb_registered n
  then net_mgmt_event_handler (fst ev) (snd ev) n
  else n.

Definition deliver_all (evs : list (net_event * bool)) (n : statics V)
  : statics V :=
  fold_left (fun n ev => deliver ev n) evs n.

(** net_utils_start_dhcp_server: [iface] tells whether the argument is
    non-NULL, [pool_start] is the address string ([None] for NULL),
    [pton_ret] the result of net_addr_pton and [start_ret] that of
    net_dhcpv4_server_start. *)
Definition net_utils_start_dhcp_server (iface : bool)
  (pool_start : option string) (pton_ret start_ret : Z) (n : statics V)
  : Z * statics V :=
  let iface := if negb iface then wifi_present else iface in
  if negb iface then (- ENODEV, n)
  else
    match pool_start with
    | None => (- EINVAL, n)
    | Some _ =>
        if pton_ret <? 0 then (pton_ret, n)
        else
          let n := log_server_call NET_DHCPV4_SERVER_START n in
          if start_ret =? - EALREADY then (0, set_running true n)
          else if start_ret <? 0 then (start_ret, n)
          else (0, set_running true n)
    end.

(** net_utils_stop_dhcp_server; [stop_ret] is the result of
    net_dhcpv4_server_stop. *)
Definition net_utils_stop_dhcp_server (iface : bool) (stop_ret : Z)
  (n : statics V) : Z * statics V :=
  let iface := if negb iface then wifi_present else iface in
  if negb iface then (- ENODEV, n)
  else if negb (dhcp_server_running n) then (0, n)
  else
    let n := log_server_call NET_DHCPV4_SERVER_STOP n in
    if stop_ret <? 0 then (stop_ret, n)
    else (0, set_running false n).

Definition net_utils_register_dhcp_callback (n : statics V) : statics V :=
  if negb (dhcp_cb_registered n) then
    mk_statics (dhcp_server_running n) (k_sem_reset (dhcp_bound_sem n))
               (dhcp_bound_cb n) true (cb_state n) (server_calls n)
  else n.

Definition net_utils_set_dhcp_bound_cb (cb : option (bool -> V -> V))
  (n : statics V) : statics V :=
  mk_statics (dhcp_server_running n) (dhcp_bound_sem n) cb
             (dhcp_cb_registered n) (cb_state n) (server_calls n).

End NET_UTILS.

End net_utils.

(** The registration sequence of the non-coordinator branch of
    p2p_connect_handler (main.c lines 446-449) on the statics of
    net_utils.c, with main.c's statics as the state of the callback. *)
Definition register_dhcp_bound (iface : bool)
  (n : net_utils.statics main_dhcp) : net_utils.statics main_dhcp :=
  let n :=
    net_utils.mk_statics
      (net_utils.dhcp_server_running n) (net_utils.dhcp_bound_sem n)
      (net_utils.dhcp_bound_cb n) (net_utils.dhcp_cb_registered n)
      (arm_dhcp_bound iface (net_utils.cb_state n))
      (net_utils.server_calls n) in
  let n := net_utils.net_utils_set_dhcp_bound_cb (Some dhcp_bound_cb) n in
  net_utils.net_utils_register_dhcp_callback n.

(* ------------------------------------------------------------------ *)
(** ** Concrete data used in the examples                              *)
(* ------------------------------------------------------------------ *)

(** A callback that records each call: the event and the context it was
    handed. *)
Definition recording_cb (event : wifi_p2p_event) (ctx : wifi_p2p_context)
  (calls : list (wifi_p2p_event * wifi_p2p_context))
  : list (wifi_p2p_event * wifi_p2p_context) :=
  calls ++ [(event, ctx)].

(** The statics of wifi_p2p_utils.c before wifi_p2p_init, on a board
    with a Wi-Fi interface, with [cb] registered. *)
Definition boot_world {U : Type}
  (cb : option (wifi_p2p_event -> wifi_p2p_context -> U -> U)) (u : U)
  : p2p_world U :=
  mk_world ctx_zero sem_initial sem_initial sem_initial sem_initial
           sem_initial cb u true [].

Definition mac_a : mac_addr := Mac 0xf4 0xce 0x36 0x00 0x10 0x01.
Definition mac_b : mac_addr := Mac 0xf4 0xce 0x36 0x00 0x10 0x02.

(** An example configuration with target filter [filter] and intent
    [intent]. *)
Definition example_cfg (filter : string) (intent : Z) : kconfig :=
  mk_kconfig 8 10 5000 500 filter intent 2437 3000 30000 10000 2000 0
             64 1000 10.

(** An example stand-in for the C library's scanner: it converts the one
    well-formed address used in the examples. *)
Definition example_sscanf (s : string) : list Z :=
  if String.eqb s "aa:bb:cc:dd:ee:ff"
  then [0xaa; 0xbb; 0xcc; 0xdd; 0xee; 0xff]
  else [].

Definition example_peers : list wifi_p2p_device_info :=
  [ mk_device_info mac_a "peer-1" (-70);
    mk_device_info mac_b "peer-2" (-40);
    mk_device_info (Mac 0xf4 0xce 0x36 0x00 0x10 0x03) "peer-3" (-55) ].

(** The application after start-up: wifi_p2p_init has run and main.c's
    callback is registered. *)
Definition example_app : app :=
  wifi_p2p_register_event_callback (Some p2p_event_handler)
    (snd (wifi_p2p_init (boot_world None globals_boot))).

(** The same with a pairing attempt in flight that has discovered the
    three example peers. *)
Definition example_app_discovered : app :=
  upd_user (fun g => set_pairing_in_progress true
                       (set_discovered example_peers 3 g)) example_app.

(** An example pairing attempt on the coordinator side: one peer is
    announced during discovery, the peer list holds the three example
    peers, the connect call is accepted, the access point comes up while
    the orchestrator waits for group formation, the station connects
    while it waits for that, and the echo server socket can be opened. *)
Definition example_start_env : start_env :=
  mk_start_env 0
    [NET_EVENT_WIFI_P2P_DEVICE_FOUND
       (Some (mk_device_info mac_b "peer-2" (-40)))]
    0 example_peers 3.

Definition example_connect_env : connect_env :=
  mk_connect_env 0 [] [] 0
    [NET_EVENT_WIFI_AP_ENABLE_RESULT 0]
    [NET_EVENT_WIFI_AP_STA_CONNECTED mac_b]
    [] [] (mk_sock_result 3 0) (mk_sock_result 0 0).

(** The time main.c sleeps between storing the stop flag and closing the
    socket, read off a timeline: the sleeps after the first
    ACT_STOP_FLAG_SET and before the next ACT_SOCK_CLOSE, in ms ([None]
    when the timeline has no such pair). *)
Fixpoint sleep_until_close (tl : list action) : option Z :=
  match tl with
  | [] => None
  | ACT_SOCK_CLOSE _ :: _ => Some 0
  | ACT_K_SLEEP ms :: rest =>
      match sleep_until_close rest with
      | Some t => Some (ms + t)
      | None => None
      end
  | _ :: rest => sleep_until_close rest
  end.

Fixpoint grace_after_stop_flag (tl : list action) : option Z :=
  match tl with
  | [] => None
  | ACT_STOP_FLAG_SET :: rest => sleep_until_close rest
  | _ :: rest => grace_after_stop_flag rest
  end.

(** An echo session in progress on descriptor 3: the statics of main.c
    after start_udp_echo_client has succeeded. *)
Definition example_echo_session : main_globals :=
  start_udp_echo_client (mk_sock_result 3 0) (mk_inet_pton 1 0xc0a80701)
                        5001 globals_boot.

(** A ping sent at uptime [t0] ms whose [bytes]-byte reply arrives
    [rtt_ms] ms later, and a ping sent at [t0] whose reply never comes
    (the receive times out with EAGAIN). *)
Definition ping_reply (t0 rtt_ms bytes : Z) : ping_env :=
  mk_ping_env t0 (mk_sock_result bytes 0) (mk_sock_result bytes 0)
              (t0 + rtt_ms).

Definition ping_timeout (t0 : Z) : ping_env :=
  mk_ping_env t0 (mk_sock_result 64 0) (mk_sock_result (-1) EAGAIN)
              (t0 + UDP_RECV_TIMEOUT_MS).

(** A ping whose send fails with [errno]. *)
Definition ping_send_error (t0 errno : Z) : ping_env :=
  mk_ping_env t0 (mk_sock_result (-1) errno) (mk_sock_result 0 0) t0.

(** A script for the client loop in which the stop flag is never read as
    set: one pass per ping and a last pass that only reaches the count
    check. *)
Definition client_script (pings : list ping_env) : list client_iter :=
  map (mk_client_iter false) pings
  ++ [mk_client_iter false (ping_timeout 0)].



(** The role has been resolved. *)
Definition role_resolved {U : Type} (w : p2p_world U) : bool :=
  negb (role_eqb (role (p2p_ctx w)) WIFI_P2P_ROLE_UNDETERMINED).

(** The invariant as the data model words it: the role differs from
    UNDETERMINED only in states CONNECTED and GROUP_FORMED. *)
Definition role_only_when_linked {U : Type} (w : p2p_world U) : Prop :=
  role (p2p_ctx w) <> WIFI_P2P_ROLE_UNDETERMINED ->
  state (p2p_ctx w) = WIFI_P2P_STATE_CONNECTED \/
  state (p2p_ctx w) = WIFI_P2P_STATE_GROUP_FORMED.

(** What the highest-RSSI loop has established once the first [i]
    elements are scanned: either nothing scanned so far is above
    INT_MIN, or [best] names the earliest element of highest RSSI. *)
Definition best_so_far (peers : list wifi_p2p_device_info) (i : nat)
  (best : Z * Z) : Prop :=
  (fst best = -1 /\ snd best = INT_MIN /\
   forall j q, (j < i)%nat -> nth_error peers j = Some q ->
               rssi q <= INT_MIN) \/
  (exists bi p,
      fst best = Z.of_nat bi /\ (bi < i)%nat /\
      nth_error peers bi = Some p /\ snd best = rssi p /\
      (forall j q, (j < i)%nat -> nth_error peers j = Some q ->
                   rssi q <= rssi p) /\
      (forall j q, (j < bi)%nat -> nth_error peers j = Some q ->
                   rssi q < rssi p)).

(** The callback registered in the application is main.c's
    p2p_event_handler, or none is registered yet. *)
Definition app_cb_ok (w : app) : Prop :=
  user_event_cb w = Some p2p_event_handler \/ user_event_cb w = None.

(** The statics of main.c that the pairing sequence relies on and that
    no notification may touch. *)
Definition same_pairing_statics (g g' : main_globals) : Prop :=
  discovered_peers g' = discovered_peers g /\
  discovered_peer_count g' = discovered_peer_count g /\
  p2p_pairing_in_progress g' = p2p_pairing_in_progress g /\
  p2p_connect_work_pending g' = p2p_connect_work_pending g.

(** The number of peer-found notifications in [evs] that carry a device
    description. *)
Fixpoint count_found (evs : list net_mgmt_event) : Z :=
  match evs with
  | [] => 0
  | NET_EVENT_WIFI_P2P_DEVICE_FOUND (Some _) :: rest => 1 + count_found rest
  | _ :: rest => count_found rest
  end.

(** All five semaphores of wifi_p2p_utils.c satisfy [P]. *)
Definition all_sems {U : Type} (P : k_sem -> Prop) (w : p2p_world U)
  : Prop :=
  P (p2p_find_sem w) /\ P (p2p_connect_sem w) /\
  P (p2p_group_formed_sem w) /\ P (p2p_go_neg_request_sem w) /\
  P (p2p_ap_sta_connected_sem w).

(** A semaphore at rest: nobody waits on it and it holds at most the
    one signal its limit allows. *)
Definition sem_at_rest (s : k_sem) : Prop :=
  sem_wait s = NoWaiter /\ (sem_count s <= SEM_LIMIT)%nat.

(** The datagrams the echo server is expected to send back: one per
    non-empty datagram received before the first pass that reads the
    stop flag as set, unchanged and addressed to its sender. *)
Fixpoint expected_echoes (env : list server_iter) : list sendto_call :=
  match env with
  | [] => []
  | it :: rest =>
      if server_stop_read it then []
      else
        match server_recvfrom it with
        | RecvData (b :: bs) from =>
            mk_sendto_call (b :: bs) from :: expected_echoes rest
        | _ => expected_echoes rest
        end
  end.

(** The number of those echoes whose sendto did not fail. *)
Fixpoint echoes_delivered (env : list server_iter) : Z :=
  match env with
  | [] => 0
  | it :: rest =>
      if server_stop_read it then 0
      else
        match server_recvfrom it with
        | RecvData (_ :: _) _ =>
            (if sock_ret (server_sendto it) <? 0 then 0 else 1)
            + echoes_delivered rest
        | _ => echoes_delivered rest
        end
  end.

(** What the client loop keeps true of its statistics after at most [n]
    passes on freshly reset statistics: the packet counters add up, and
    the RTT fields are those of an empty sample or bracket the average. *)
Definition client_stats_ok (n : nat) (s : udp_echo_stats) : Prop :=
  0 <= packets_received s /\ 0 <= packets_lost s /\
  packets_sent s = packets_received s + packets_lost s /\
  packets_sent s <= Z.of_nat n /\
  (packets_received s = 0 ->
   rtt_min_us s = UINT32_MAX /\ rtt_max_us s = 0 /\
   rtt_avg_us s = 0 /\ rtt_total_us s = 0) /\
  (0 < packets_received s ->
   0 <= rtt_min_us s /\ rtt_min_us s <= rtt_max_us s /\
   rtt_max_us s < 2 ^ 32 /\
   packets_received s * rtt_min_us s <= rtt_total_us s /\
   rtt_total_us s <= packets_received s * rtt_max_us s /\
   rtt_avg_us s = rtt_total_us s / packets_received s).


(** A socket call that fails reports a positive errno. *)
Definition sock_result_ok (r : sock_result) : Prop :=
  sock_ret r < 0 -> 0 < sock_errno r.

(** What a request that fails must leave alone: the role, the tracked
    peer, both addresses, the link flags, every semaphore, the callback
    and its state, and the log of link-layer calls. *)
Definition request_frame {U : Type} (w w' : p2p_world U) : Prop :=
  role (p2p_ctx w') = role (p2p_ctx w) /\
  peer_mac (p2p_ctx w') = peer_mac (p2p_ctx w) /\
  own_mac (p2p_ctx w') = own_mac (p2p_ctx w) /\
  group_formed (p2p_ctx w') = group_formed (p2p_ctx w) /\
  connected (p2p_ctx w') = connected (p2p_ctx w) /\
  p2p_find_sem w' = p2p_find_sem w /\
  p2p_connect_sem w' = p2p_connect_sem w /\
  p2p_group_formed_sem w' = p2p_group_formed_sem w /\
  p2p_go_neg_request_sem w' = p2p_go_neg_request_sem w /\
  p2p_ap_sta_connected_sem w' = p2p_ap_sta_connected_sem w /\
  user_event_cb w' = user_event_cb w /\
  user w' = user w /\
  link_ops w' = link_ops w.

(** The interface pointer handed over with the first address-bound
    event of a sequence, if there is one. *)
Fixpoint first_bound (evs : list (net_utils.net_event * bool))
  : option bool :=
  match evs with
  | [] => None
  | (net_utils.NET_EVENT_IPV4_DHCP_BOUND, iface) :: _ => Some iface
  | (net_utils.NET_EVENT_IPV4_OTHER, _) :: rest => first_bound rest
  end.

(** The five gates of wifi_p2p_utils.c, in the order of their
    definition. *)
Definition p2p_sems {U : Type} (w : p2p_world U) : list k_sem :=
  [p2p_find_sem w; p2p_connect_sem w; p2p_group_formed_sem w;
   p2p_go_neg_request_sem w; p2p_ap_sta_connected_sem w].

(** The orchestrator as the system drives it.  p2p_start_work and
    p2p_connect_work are items of the system work queue, which runs one
    item to completion before it takes the next; the dispatcher handles
    notifications between two items. *)
Inductive main_step : Type :=
| START_WORK (e : start_env)
| CONNECT_WORK (e : connect_env)
| NOTIFICATIONS (evs : list net_mgmt_event).

Definition main_run (cfg : kconfig) (sscanf_mac : string -> list Z)
  (steps : list main_step) (w : app) : app :=
  fold_left
    (fun w s =>
       match s with
       | START_WORK e => p2p_start_handler cfg e w
       | CONNECT_WORK e => run_connect_work cfg sscanf_mac e w
       | NOTIFICATIONS evs => dispatch_all evs w
       end) steps w.

(** A step of the application that leaves the pairing statics of main.c
    and the registered callback alone. *)
Definition pairing_kept (w w' : app) : Prop :=
  app_cb_ok w' /\ same_pairing_statics (user w) (user w').

(* ================================================================== *)
(** * Properties                                                       *)
(* ================================================================== *)

(* ------------------------------------------------------------------ *)
(** ** Equality tests                                                  *)
(* ------------------------------------------------------------------ *)

Lemma state_eqb_eq : forall a b, state_eqb a b = true <-> a = b.
Proof. intros a b; split; [destruct a, b; simpl; congruence | intros ->; destruct b; reflexivity]. Qed.

Lemma state_eqb_neq : forall a b, state_eqb a b = false <-> a <> b.
Proof.
  intros a b; split.
  - intros H E. apply state_eqb_eq in E. congruence.
  - intros H. destruct (state_eqb a b) eqn:E; [apply state_eqb_eq in E; contradiction | reflexivity].
Qed.

Lemma mac_eqb_eq : forall a b, mac_eqb a b = true <-> a = b.
Proof.
  intros [a0 a1 a2 a3 a4 a5] [b0 b1 b2 b3 b4 b5]; simpl.
  rewrite !andb_true_iff, !Z.eqb_eq. split.
  - intros [[[[[-> ->] ->] ->] ->] ->]. reflexivity.
  - intros E; inversion E; subst; auto 10.
Qed.

Lemma mac_eqb_neq : forall a b, mac_eqb a b = false <-> a <> b.
Proof.
  intros a b; split.
  - intros H E. apply mac_eqb_eq in E. congruence.
  - intros H. destruct (mac_eqb a b) eqn:E; [apply mac_eqb_eq in E; contradiction | reflexivity].
Qed.

(** A semaphore that has just been given is signalled, whatever it was. *)
Lemma sem_signalled_give : forall s, sem_signalled (k_sem_give s) = true.
Proof.
  intros [n wt]. unfold k_sem_give, sem_signalled; simpl.
  destruct wt; simpl; try reflexivity;
    destruct (Nat.eqb n SEM_LIMIT) eqn:E; simpl;
      try reflexivity; apply Nat.eqb_eq in E; subst; reflexivity.
Qed.

(* ------------------------------------------------------------------ *)
(** ** The event dispatcher                                            *)
(* ------------------------------------------------------------------ *)

(** C1.  A connect-result notification with a failure status (status
    other than 0): delivered in state CONNECTING it leaves the whole
    module state as it was (no context field changes, no semaphore is
    given, the user callback is not called); delivered in any other state
    it sets the state to ERROR and changes no other context field, calls
    the registered callback once with CONNECT_FAILED (and the context
    already in state ERROR), and gives both the connect semaphore and the
    group-formed semaphore, leaving the other three semaphores alone. *)
Theorem connect_result_failure :
  forall (U : Type) (w : p2p_world U) (status : Z),
    status <> 0 ->
    let w' := handle_p2p_connect_result status w in
    (state (p2p_ctx w) = WIFI_P2P_STATE_CONNECTING -> w' = w) /\
    (state (p2p_ctx w) <> WIFI_P2P_STATE_CONNECTING ->
     p2p_ctx w' = set_state WIFI_P2P_STATE_ERROR (p2p_ctx w) /\
     state (p2p_ctx w') = WIFI_P2P_STATE_ERROR /\
     (forall cb, user_event_cb w = Some cb ->
        user w' = cb WIFI_P2P_EVENT_CONNECT_FAILED (p2p_ctx w') (user w)) /\
     (user_event_cb w = None -> user w' = user w) /\
     p2p_connect_sem w' = k_sem_give (p2p_connect_sem w) /\
     p2p_group_formed_sem w' = k_sem_give (p2p_group_formed_sem w) /\
     sem_signalled (p2p_connect_sem w') = true /\
     sem_signalled (p2p_group_formed_sem w') = true /\
     p2p_find_sem w' = p2p_find_sem w /\
     p2p_go_neg_request_sem w' = p2p_go_neg_request_sem w /\
     p2p_ap_sta_connected_sem w' = p2p_ap_sta_connected_sem w).
Proof.
  intros U w status Hst w'. subst w'.
  unfold handle_p2p_connect_result.
  apply Z.eqb_neq in Hst. rewrite Hst.
  split.
  - intros Hc. rewrite Hc. reflexivity.
  - intros Hc. apply state_eqb_neq in Hc. rewrite Hc.
    unfold notify_user_event.
    destruct w as [c s1 s2 s3 s4 s5 cb u i l]; simpl in *.
    destruct cb as [f|]; simpl;
      repeat split; try reflexivity; try apply sem_signalled_give;
      try congruence;
      try (intros cb H; inversion H; reflexivity).
Qed.

(** The property above at two concrete notifications with status -1 and
    the recording callback registered: one delivered in state IDLE, one
    in state CONNECTING. *)
Lemma connect_result_failure_witness :
  let w := boot_world (Some recording_cb) [] in
  let w' := handle_p2p_connect_result (-1) w in
  let wc := upd_ctx (set_state WIFI_P2P_STATE_CONNECTING) w in
  (-1 <> 0) /\
  state (p2p_ctx w') = WIFI_P2P_STATE_ERROR /\
  user w' = [(WIFI_P2P_EVENT_CONNECT_FAILED,
              set_state WIFI_P2P_STATE_ERROR ctx_zero)] /\
  sem_signalled (p2p_connect_sem w') = true /\
  sem_signalled (p2p_group_formed_sem w') = true /\
  handle_p2p_connect_result (-1) wc = wc.
Proof.
  cbv zeta.
  assert (Hne : -1 <> 0) by lia.
  pose proof (connect_result_failure _ (boot_world (Some recording_cb) [])
                (-1) Hne) as H.
  pose proof (connect_result_failure _
                (upd_ctx (set_state WIFI_P2P_STATE_CONNECTING)
                         (boot_world (Some recording_cb) []))
                (-1) Hne) as Hc.
  cbv zeta in H, Hc. destruct H as [_ H]. destruct Hc as [Hc _].
  assert (Hn : state (p2p_ctx (boot_world (Some recording_cb) []))
               <> WIFI_P2P_STATE_CONNECTING) by (simpl; congruence).
  destruct (H Hn) as (_ & Hs & Hcb & _ & _ & _ & H1 & H2 & _).
  split; [exact Hne |].
  split; [exact Hs |].
  split; [rewrite (Hcb recording_cb eq_refl); reflexivity |].
  split; [exact H1 |].
  split; [exact H2 |].
  apply Hc. reflexivity.
Defined.

(** C9.  A station-disconnected notification: when the disconnecting
    address equals the tracked peer address the handler clears
    [connected], zeroes the peer address, changes no other context field
    and calls the registered callback once with PEER_LEFT; when the
    address differs the whole module state stays as it was (no context
    field changes, the callback is not called).  No semaphore is given
    in either case. *)
Theorem ap_sta_disconnected :
  forall (U : Type) (w : p2p_world U) (sta_mac : mac_addr),
    let w' := handle_ap_sta_disconnected sta_mac w in
    (sta_mac = peer_mac (p2p_ctx w) ->
     p2p_ctx w' = set_peer_mac mac_zero (set_connected false (p2p_ctx w)) /\
     connected (p2p_ctx w') = false /\
     peer_mac (p2p_ctx w') = mac_zero /\
     (forall cb, user_event_cb w = Some cb ->
        user w' = cb WIFI_P2P_EVENT_PEER_LEFT (p2p_ctx w') (user w)) /\
     (user_event_cb w = None -> user w' = user w) /\
     p2p_find_sem w' = p2p_find_sem w /\
     p2p_connect_sem w' = p2p_connect_sem w /\
     p2p_group_formed_sem w' = p2p_group_formed_sem w /\
     p2p_go_neg_request_sem w' = p2p_go_neg_request_sem w /\
     p2p_ap_sta_connected_sem w' = p2p_ap_sta_connected_sem w) /\
    (sta_mac <> peer_mac (p2p_ctx w) -> w' = w).
Proof.
  intros U w sta_mac w'. subst w'. unfold handle_ap_sta_disconnected.
  split.
  - intros ->.
    assert (E : mac_eqb (peer_mac (p2p_ctx w)) (peer_mac (p2p_ctx w)) = true)
      by (apply mac_eqb_eq; reflexivity).
    rewrite E. unfold notify_user_event.
    destruct w as [c s1 s2 s3 s4 s5 cb u i l]; simpl in *.
    destruct cb as [f|]; simpl;
      repeat split; try reflexivity; try congruence;
      try (intros cb H; inversion H; reflexivity).
  - intros Hne.
    assert (E : mac_eqb (peer_mac (p2p_ctx w)) sta_mac = false)
      by (apply mac_eqb_neq; congruence).
    rewrite E. reflexivity.
Qed.

(** The property above with peer [mac_a] tracked and connected: the
    departure of [mac_a] is acted upon, that of [mac_b] is not. *)
Lemma ap_sta_disconnected_witness :
  let w := upd_ctx (fun c => set_connected true (set_peer_mac mac_a c))
                   (boot_world (Some recording_cb) []) in
  let w' := handle_ap_sta_disconnected mac_a w in
  connected (p2p_ctx w') = false /\
  peer_mac (p2p_ctx w') = mac_zero /\
  user w' = [(WIFI_P2P_EVENT_PEER_LEFT, ctx_zero)] /\
  handle_ap_sta_disconnected mac_b w = w.
Proof.
  cbv zeta.
  pose proof (ap_sta_disconnected _
                (upd_ctx (fun c => set_connected true (set_peer_mac mac_a c))
                         (boot_world (Some recording_cb) []))) as H.
  destruct (H mac_a) as [Ha _]. destruct (H mac_b) as [_ Hb].
  destruct (Ha eq_refl) as (_ & H1 & H2 & Hcb & _).
  split; [exact H1 |].
  split; [exact H2 |].
  split; [rewrite (Hcb recording_cb eq_refl); reflexivity |].
  apply Hb. unfold mac_a, mac_b. simpl. congruence.
Defined.

(* ------------------------------------------------------------------ *)
(** ** The role of the device over the life of the session context     *)
(* ------------------------------------------------------------------ *)

Ltac split_ifs :=
  repeat match goal with
         | |- context [if ?b then _ else _] => destruct b eqn:?
         | |- context [match ?x with Some _ => _ | None => _ end] =>
             destruct x eqn:?
         end.

Ltac clean_options :=
  repeat match goal with
         | H : Some _ = Some _ |- _ => inversion H; subst; clear H
         | H : Some _ = None |- _ => discriminate H
         | H : None = Some _ |- _ => discriminate H
         end.

Ltac unfold_p2p :=
  unfold p2p_step, wifi_p2p_init, wifi_p2p_find, wifi_p2p_stop_find,
         wifi_p2p_connect, wifi_p2p_group_add, wifi_p2p_group_remove,
         p2p_mgmt_event_handler, handle_p2p_device_found,
         handle_p2p_connect_result, handle_ap_enable_result,
         handle_ap_sta_connected, handle_ap_sta_disconnected,
         notify_user_event, bring_iface_up.

Lemma p2p_step_wifi_iface :
  forall (U : Type) (op : p2p_op) (w : p2p_world U),
    wifi_iface (p2p_step op w) = wifi_iface w.
Proof.
  intros U op w. destruct w as [c s1 s2 s3 s4 s5 cb u i l].
  destruct op as [ | t r | r | p it f r | f r | r | ev];
    try (destruct ev as [[p|] | st | st | m | m | ]);
    try destruct p;
    unfold_p2p; simpl;
    destruct cb; destruct i; simpl; split_ifs; reflexivity.
Qed.

(** How one operation acts on "the role is resolved": initialization
    clears it, a role-assigning operation sets it, all others keep it. *)
Lemma p2p_step_role_resolved :
  forall (U : Type) (op : p2p_op) (w : p2p_world U),
    role_resolved (p2p_step op w) =
    match op with
    | OpInit => false
    | _ => role_resolved w || resolves_role (wifi_iface w) op
    end.
Proof.
  intros U op w. destruct w as [c s1 s2 s3 s4 s5 cb u i l].
  destruct c as [st rl pm om pc gi fr gf cn].
  unfold role_resolved.
  destruct op as [ | t r | r | p it f r | f r | r | ev];
    try (destruct ev as [[p|] | status | status | m | m | ]);
    try destruct p;
    unfold_p2p; simpl;
    destruct cb; destruct i; destruct rl; simpl; split_ifs; simpl;
    rewrite ?orb_false_r, ?orb_true_r; try reflexivity;
    simpl in *; try discriminate;
    repeat match goal with
           | H : negb ?b = _ |- _ => destruct b; simpl in *
           end;
    try reflexivity; try discriminate.
Qed.

(** The role is resolved after a trace exactly when the trace holds a
    role-assigning operation after its last initialization. *)
Lemma p2p_run_role_resolved :
  forall (U : Type) (ops : list p2p_op) (w : p2p_world U),
    role_resolved (p2p_run ops w) =
    role_resolved_since_init (wifi_iface w) (role_resolved w) ops.
Proof.
  intros U ops. induction ops as [| op ops IH]; intros w.
  - reflexivity.
  - change (p2p_run (op :: ops) w) with (p2p_run ops (p2p_step op w)).
    rewrite IH, p2p_step_wifi_iface, p2p_step_role_resolved.
    destruct op; reflexivity.
Qed.

(** Entering CONNECTED or GROUP_FORMED resolves the role, and no
    operation other than initialization ever unresolves it. *)
Lemma p2p_step_linked_resolved :
  forall (U : Type) (op : p2p_op) (w : p2p_world U),
    (state (p2p_ctx w) = WIFI_P2P_STATE_CONNECTED \/
     state (p2p_ctx w) = WIFI_P2P_STATE_GROUP_FORMED ->
     role_resolved w = true) ->
    state (p2p_ctx (p2p_step op w)) = WIFI_P2P_STATE_CONNECTED \/
    state (p2p_ctx (p2p_step op w)) = WIFI_P2P_STATE_GROUP_FORMED ->
    role_resolved (p2p_step op w) = true.
Proof.
  intros U op w. destruct w as [c s1 s2 s3 s4 s5 cb u i l].
  destruct c as [st rl pm om pc gi fr gf cn].
  unfold role_resolved.
  destruct op as [ | t r | r | p it f r | f r | r | ev];
    try (destruct ev as [[p|] | status | status | m | m | ]);
    try destruct p;
    unfold_p2p; simpl;
    destruct cb; destruct i; destruct rl; simpl; split_ifs; simpl;
    intros Hinv [H | H]; try reflexivity; try discriminate;
    try (apply Hinv; auto).
Qed.

Lemma p2p_run_linked_resolved :
  forall (U : Type) (ops : list p2p_op) (w : p2p_world U),
    (state (p2p_ctx w) = WIFI_P2P_STATE_CONNECTED \/
     state (p2p_ctx w) = WIFI_P2P_STATE_GROUP_FORMED ->
     role_resolved w = true) ->
    state (p2p_ctx (p2p_run ops w)) = WIFI_P2P_STATE_CONNECTED \/
    state (p2p_ctx (p2p_run ops w)) = WIFI_P2P_STATE_GROUP_FORMED ->
    role_resolved (p2p_run ops w) = true.
Proof.
  intros U ops. induction ops as [| op ops IH]; intros w Hinv.
  - exact Hinv.
  - change (p2p_run (op :: ops) w) with (p2p_run ops (p2p_step op w)).
    apply IH. apply p2p_step_linked_resolved. exact Hinv.
Qed.

Lemma role_resolved_iff :
  forall (U : Type) (w : p2p_world U),
    role_resolved w = true <->
    role (p2p_ctx w) <> WIFI_P2P_ROLE_UNDETERMINED.
Proof.
  intros U w. unfold role_resolved.
  destruct (role (p2p_ctx w)); simpl; split; congruence.
Qed.

Lemma wifi_p2p_init_ctx :
  forall (U : Type) (w0 : p2p_world U),
    p2p_ctx (snd (wifi_p2p_init w0)) = ctx_zero /\
    wifi_iface (snd (wifi_p2p_init w0)) = wifi_iface w0.
Proof.
  intros U w0. destruct w0 as [c s1 s2 s3 s4 s5 cb u i l].
  unfold wifi_p2p_init, bring_iface_up; simpl. destruct i; split; reflexivity.
Qed.

Lemma p2p_run_nil :
  forall (U : Type) (w : p2p_world U), p2p_run [] w = w.
Proof. intros U w. reflexivity. Qed.

Lemma p2p_run_app :
  forall (U : Type) (ops : list p2p_op) (op : p2p_op) (w : p2p_world U),
    p2p_run (ops ++ [op]) w = p2p_step op (p2p_run ops w).
Proof.
  intros U ops op w. unfold p2p_run. rewrite fold_left_app.
  cbn [fold_left]. reflexivity.
Qed.

(** Every reachable state is the end of a trace of operations started by
    an initialization, and conversely. *)
Lemma reachable_iff_run :
  forall (U : Type) (w : p2p_world U),
    reachable w <->
    exists w0 ops, w = p2p_run ops (snd (wifi_p2p_init w0)).
Proof.
  intros U w. split.
  - induction 1 as [w0 | op w Hr (w0 & ops & ->)].
    + exists w0, []. symmetry. apply p2p_run_nil.
    + exists w0, (ops ++ [op]). rewrite p2p_run_app. reflexivity.
  - intros (w0 & ops & ->).
    induction ops as [| op ops IH] using rev_ind.
    + rewrite p2p_run_nil. apply reachable_init.
    + rewrite p2p_run_app. apply reachable_step. exact IH.
Qed.


(** C2, as the data model words it, fails: a connect call with intent 15
    that the radio subsystem accepts leaves the context in state
    CONNECTING with role GO. *)
Lemma role_invariant_counterexample :
  let w := p2p_run [OpConnect (Some mac_a) 15 2437 0]
                   (snd (wifi_p2p_init (boot_world None tt))) in
  reachable w /\
  state (p2p_ctx w) = WIFI_P2P_STATE_CONNECTING /\
  role (p2p_ctx w) = WIFI_P2P_ROLE_GO /\
  ~ role_only_when_linked w.
Proof.
  cbv zeta. split; [| split; [reflexivity | split; [reflexivity |]]].
  - apply reachable_iff_run. eexists. eexists. reflexivity.
  - unfold role_only_when_linked. simpl. intros H.
    assert (Hgo : WIFI_P2P_ROLE_GO <> WIFI_P2P_ROLE_UNDETERMINED)
      by discriminate.
    destruct (H Hgo) as [E | E]; discriminate E.
Qed.

(** C2, amended.  After any trace of operations (init, find, stop-find,
    connect, group-add, group-remove, the dispatcher's handlers) that
    follows an initialization: the role differs from UNDETERMINED exactly
    when, since the last initialization, a role-assigning operation took
    place (an accepted connect call with intent 15 or 0, an accepted
    group-add, a connect-result success or an access-point-enable
    success); and whenever the state is CONNECTED or GROUP_FORMED the role
    differs from UNDETERMINED. *)
Theorem role_resolution :
  forall (U : Type) (w0 : p2p_world U) (ops : list p2p_op),
    let w := p2p_run ops (snd (wifi_p2p_init w0)) in
    reachable w /\
    (role (p2p_ctx w) <> WIFI_P2P_ROLE_UNDETERMINED <->
     role_resolved_since_init (wifi_iface w0) false ops = true) /\
    (state (p2p_ctx w) = WIFI_P2P_STATE_CONNECTED \/
     state (p2p_ctx w) = WIFI_P2P_STATE_GROUP_FORMED ->
     role (p2p_ctx w) <> WIFI_P2P_ROLE_UNDETERMINED).
Proof.
  intros U w0 ops w. subst w.
  destruct (wifi_p2p_init_ctx U w0) as [Hc Hi].
  split; [| split].
  - apply reachable_iff_run. exists w0, ops. reflexivity.
  - rewrite <- role_resolved_iff, p2p_run_role_resolved, Hi.
    unfold role_resolved at 1. rewrite Hc. reflexivity.
  - intros H. apply role_resolved_iff.
    apply p2p_run_linked_resolved; [| exact H].
    rewrite Hc. simpl. intros [E | E]; discriminate.
Qed.

(* ------------------------------------------------------------------ *)
(** ** Peer lookup and peer selection                                  *)
(* ------------------------------------------------------------------ *)

(** C10.  wifi_p2p_find_peer_by_mac with the empty string as filter and
    a count other than zero returns a pointer to element 0 of the array,
    whatever the peers and their RSSI values are; with a NULL array, a
    zero count or a NULL filter it returns NULL. *)
Theorem find_peer_by_mac_empty_filter :
  forall (sscanf_mac : string -> list Z),
    (forall (p : wifi_p2p_device_info) (rest : list wifi_p2p_device_info)
            (peer_count : Z),
        peer_count <> 0 ->
        wifi_p2p_find_peer_by_mac sscanf_mac (Some (p :: rest)) peer_count
                                  (Some ""%string) = Some 0%nat /\
        nth_error (p :: rest) 0 = Some p) /\
    (forall peer_count mac_filter,
        wifi_p2p_find_peer_by_mac sscanf_mac None peer_count mac_filter
        = None) /\
    (forall peers mac_filter,
        wifi_p2p_find_peer_by_mac sscanf_mac peers 0 mac_filter = None) /\
    (forall peers peer_count,
        wifi_p2p_find_peer_by_mac sscanf_mac peers peer_count None = None).
Proof.
  intros sscanf_mac. split; [| split; [| split]].
  - intros p rest peer_count Hn. split; [| reflexivity].
    unfold wifi_p2p_find_peer_by_mac.
    apply Z.eqb_neq in Hn. rewrite Hn. reflexivity.
  - intros peer_count mac_filter. reflexivity.
  - intros peers mac_filter. destruct peers as [arr|]; [| reflexivity].
    destruct mac_filter; reflexivity.
  - intros peers peer_count. destruct peers; reflexivity.
Qed.

(** The property above on an array of three peers whose strongest is
    not the first. *)
Lemma find_peer_by_mac_empty_filter_witness :
  let p1 := mk_device_info mac_a "peer-1" (-70) in
  let p2 := mk_device_info mac_b "peer-2" (-40) in
  2 <> 0 /\
  wifi_p2p_find_peer_by_mac (fun _ => []) (Some [p1; p2]) 2 (Some ""%string)
  = Some 0%nat.
Proof.
  cbv zeta. assert (H : 2 <> 0) by lia. split; [exact H |].
  destruct (find_peer_by_mac_empty_filter (fun _ => [])) as [H0 _].
  exact (proj1 (H0 _ _ 2 H)).
Defined.

Lemma best_rssi_loop_inv :
  forall peers remaining i best,
    (i + remaining <= List.length peers)%nat ->
    best_so_far peers i best ->
    best_so_far peers (i + remaining)
                (best_rssi_loop peers i remaining best).
Proof.
  intros peers remaining.
  induction remaining as [| r IH]; intros i best Hlen Hinv; simpl.
  - rewrite Nat.add_0_r. exact Hinv.
  - destruct (nth_error peers i) as [p|] eqn:Hp.
    + replace (i + S r)%nat with (S i + r)%nat by lia.
      apply IH; [lia |].
      destruct (rssi p >? snd best) eqn:Hgt.
      * apply Z.gtb_lt in Hgt. right. exists i, p. simpl.
        repeat split; try reflexivity; try lia.
        -- exact Hp.
        -- intros j q Hj Hq.
           destruct (Nat.eq_dec j i) as [-> | Hne];
             [rewrite Hp in Hq; inversion Hq; lia |].
           destruct Hinv as [(_ & Hs & Hall) | (bi & pb & _ & _ & _ & Hs & Hall & _)];
             specialize (Hall j q ltac:(lia) Hq); lia.
        -- intros j q Hj Hq.
           destruct Hinv as [(_ & Hs & Hall) | (bi & pb & _ & _ & _ & Hs & Hall & _)];
             specialize (Hall j q ltac:(lia) Hq); lia.
      * assert (Hle : rssi p <= snd best)
          by (destruct (Z.gtb_spec (rssi p) (snd best)); [discriminate | lia]).
        destruct Hinv as [(Hf & Hs & Hall) | (bi & pb & Hf & Hbi & Hnb & Hs & Hall & Hbefore)].
        -- left. repeat split; try assumption.
           intros j q Hj Hq.
           destruct (Nat.eq_dec j i) as [-> | Hne];
             [rewrite Hp in Hq; inversion Hq; subst; lia |].
           apply (Hall j q); [lia | exact Hq].
        -- right. exists bi, pb. repeat split; try assumption; try lia.
           intros j q Hj Hq.
           destruct (Nat.eq_dec j i) as [-> | Hne];
             [rewrite Hp in Hq; inversion Hq; subst; lia |].
           apply (Hall j q); [lia | exact Hq].
    + apply nth_error_None in Hp. lia.
Qed.

(** Auto-selection picks the earliest peer of highest RSSI among the
    first [count] elements of the array. *)
Lemma select_highest_rssi_spec :
  forall (peers : list wifi_p2p_device_info) (count : Z),
    0 < count ->
    (Z.to_nat count <= List.length peers)%nat ->
    (forall j q, (j < Z.to_nat count)%nat -> nth_error peers j = Some q ->
                 INT_MIN < rssi q) ->
    exists idx p,
      select_highest_rssi peers count = Some idx /\
      (idx < Z.to_nat count)%nat /\
      nth_error peers idx = Some p /\
      (forall j q, (j < Z.to_nat count)%nat -> nth_error peers j = Some q ->
                   rssi q <= rssi p) /\
      (forall j q, (j < idx)%nat -> nth_error peers j = Some q ->
                   rssi q < rssi p).
Proof.
  intros peers count Hpos Hlen Hmin.
  unfold select_highest_rssi.
  pose proof (best_rssi_loop_inv peers (Z.to_nat count) 0 (-1, INT_MIN)
                ltac:(simpl; lia)) as H.
  simpl in H.
  assert (H0 : best_so_far peers 0 (-1, INT_MIN)).
  { left. simpl. repeat split; try reflexivity. intros j q Hj. lia. }
  specialize (H H0).
  destruct H as [(_ & _ & Hall) | (bi & p & Hf & Hbi & Hnb & Hs & Hall & Hbefore)].
  - exfalso.
    destruct (nth_error peers 0) as [q|] eqn:Hq.
    + specialize (Hall 0%nat q ltac:(lia) Hq).
      specialize (Hmin 0%nat q ltac:(lia) Hq). lia.
    + apply nth_error_None in Hq. lia.
  - rewrite Hf.
    assert (E : (Z.of_nat bi >=? 0) = true) by (apply Z.geb_le; lia).
    rewrite E, Nat2Z.id.
    exists bi, p. repeat split; assumption.
Qed.

(** The filter loop returns NULL when no scanned element carries the
    address. *)
Lemma find_peer_loop_none :
  forall peers filter_mac remaining i,
    (forall j p, (i <= j < i + remaining)%nat ->
                 nth_error peers j = Some p -> mac p <> filter_mac) ->
    find_peer_loop peers filter_mac i remaining = None.
Proof.
  intros peers filter_mac remaining.
  induction remaining as [| r IH]; intros i Hno; simpl.
  - reflexivity.
  - destruct (nth_error peers i) as [p|] eqn:Hp; [| reflexivity].
    assert (E : mac_eqb (mac p) filter_mac = false)
      by (apply mac_eqb_neq; apply (Hno i p); [lia | exact Hp]).
    rewrite E. apply IH. intros j q Hj. apply Hno. lia.
Qed.

Lemma stop_udp_echo_pairing_statics :
  forall g, same_pairing_statics g (stop_udp_echo g).
Proof.
  intros g. unfold stop_udp_echo, same_pairing_statics. simpl.
  destruct (udp_socket g >=? 0); simpl; repeat split; reflexivity.
Qed.

Lemma p2p_event_handler_pairing_statics :
  forall ev ctx g, same_pairing_statics g (p2p_event_handler ev ctx g).
Proof.
  intros ev ctx g.
  destruct ev; simpl; try apply stop_udp_echo_pairing_statics;
    repeat split; reflexivity.
Qed.

(** A notification leaves the pairing statics of main.c alone and does
    not change which callback is registered. *)
Lemma event_handler_pairing_statics :
  forall (ev : net_mgmt_event) (w : app),
    app_cb_ok w ->
    app_cb_ok (p2p_mgmt_event_handler ev w) /\
    same_pairing_statics (user w) (user (p2p_mgmt_event_handler ev w)).
Proof.
  intros ev w Hcb. destruct w as [c s1 s2 s3 s4 s5 cb u i l].
  unfold app_cb_ok in *. simpl in Hcb.
  assert (Hrefl : same_pairing_statics u u) by (repeat split; reflexivity).
  assert (Hstop : forall e c', same_pairing_statics u (p2p_event_handler e c' u))
    by (intros; apply p2p_event_handler_pairing_statics).
  assert (Hstop2 : forall e c' e2 c2,
             same_pairing_statics u
               (p2p_event_handler e2 c2 (p2p_event_handler e c' u))).
  { intros e1 c1 e2 c2.
    destruct (p2p_event_handler_pairing_statics e1 c1 u) as (A1 & A2 & A3 & A4).
    destruct (p2p_event_handler_pairing_statics e2 c2
                (p2p_event_handler e1 c1 u)) as (B1 & B2 & B3 & B4).
    repeat split; congruence. }
  destruct ev as [[p|] | status | status | m | m | ];
    unfold_p2p; simpl;
    destruct Hcb as [-> | ->]; simpl; split_ifs; simpl in *;
    clean_options;
    (split; [auto
            | first [apply Hrefl | apply Hstop | apply Hstop2
                    | apply stop_udp_echo_pairing_statics]]).
Qed.

Lemma dispatch_all_pairing_statics :
  forall (evs : list net_mgmt_event) (w : app),
    app_cb_ok w ->
    app_cb_ok (dispatch_all evs w) /\
    same_pairing_statics (user w) (user (dispatch_all evs w)).
Proof.
  intros evs. induction evs as [| ev evs IH]; intros w Hcb.
  - split; [exact Hcb | repeat split; reflexivity].
  - change (dispatch_all (ev :: evs) w)
      with (dispatch_all evs (p2p_mgmt_event_handler ev w)).
    destruct (event_handler_pairing_statics ev w Hcb) as (Hcb1 & A1 & A2 & A3 & A4).
    destruct (IH _ Hcb1) as (Hcb2 & B1 & B2 & B3 & B4).
    split; [exact Hcb2 | repeat split; congruence].
Qed.

Lemma k_sleep_pairing_statics :
  forall (ms : Z) (evs : list net_mgmt_event) (w : app),
    app_cb_ok w ->
    app_cb_ok (k_sleep ms evs w) /\
    same_pairing_statics (user w) (user (k_sleep ms evs w)).
Proof.
  intros ms evs w Hcb. unfold k_sleep.
  assert (Hcb1 : app_cb_ok (upd_user (log_action (ACT_K_SLEEP ms)) w))
    by (destruct w; exact Hcb).
  destruct (dispatch_all_pairing_statics evs _ Hcb1) as (Hcb2 & B1 & B2 & B3 & B4).
  split; [exact Hcb2 |]. destruct w; simpl in *.
  repeat split; assumption.
Qed.

Lemma wifi_p2p_stop_find_user :
  forall (U : Type) (ret : Z) (w : p2p_world U),
    user (snd (wifi_p2p_stop_find ret w)) = user w /\
    user_event_cb (snd (wifi_p2p_stop_find ret w)) = user_event_cb w.
Proof.
  intros U ret w. unfold wifi_p2p_stop_find.
  destruct w; simpl. split_ifs; split; reflexivity.
Qed.

(** Peer selection reads nothing but the peer array, its count and the
    configured filter. *)
Lemma select_target_peer_ext :
  forall cfg1 cfg2 sscanf_mac g1 g2,
    CONFIG_P2P_TARGET_PEER_MAC cfg1 = CONFIG_P2P_TARGET_PEER_MAC cfg2 ->
    discovered_peers g1 = discovered_peers g2 ->
    discovered_peer_count g1 = discovered_peer_count g2 ->
    select_target_peer cfg1 sscanf_mac g1
    = select_target_peer cfg2 sscanf_mac g2.
Proof.
  intros cfg1 cfg2 sscanf_mac g1 g2 Hf Hp Hc.
  unfold select_target_peer. rewrite Hf, Hp, Hc. reflexivity.
Qed.

Lemma select_target_peer_no_match :
  forall cfg sscanf_mac g,
    discovered_peer_count g <> 0 ->
    CONFIG_P2P_TARGET_PEER_MAC cfg <> ""%string ->
    (forall m,
        parse_mac_address sscanf_mac (CONFIG_P2P_TARGET_PEER_MAC cfg)
        = Some m ->
        forall j q, (j < Z.to_nat (discovered_peer_count g))%nat ->
                    nth_error (discovered_peers g) j = Some q ->
                    mac q <> m) ->
    select_target_peer cfg sscanf_mac g = None.
Proof.
  intros cfg sscanf_mac g Hc Hf Hno. unfold select_target_peer.
  destruct (CONFIG_P2P_TARGET_PEER_MAC cfg) as [| a s] eqn:Ef;
    [congruence |].
  simpl. unfold wifi_p2p_find_peer_by_mac.
  apply Z.eqb_neq in Hc. rewrite Hc. simpl.
  destruct (parse_mac_address sscanf_mac (String a s)) as [m|] eqn:Ep;
    [| reflexivity].
  apply find_peer_loop_none. intros j q Hj. apply (Hno m eq_refl). lia.
Qed.

(** C5.  Peer selection in p2p_connect_handler, for a non-empty list of
    discovered peers (the first [discovered_peer_count] elements of the
    array).  It is a function of the peer list and of the configured
    filter alone.  With the empty filter, and RSSI values above INT_MIN,
    it selects a peer whose RSSI no listed peer exceeds, and every peer
    listed before the selected one has a strictly lower RSSI (ties go to
    the earliest); for RSSI values -70, -40, -55 it selects the second
    entry.  With a non-empty filter that no listed peer's address equals
    (or that does not parse as an address), it selects no peer, and the
    connect handler ends right after stopping discovery and the settling
    delay: the in-flight flag is cleared and no connect call is made. *)
Theorem peer_selection :
  forall (cfg : kconfig) (sscanf_mac : string -> list Z)
         (e : connect_env) (w : app),
    let peers := discovered_peers (user w) in
    let count := discovered_peer_count (user w) in
    let filter := CONFIG_P2P_TARGET_PEER_MAC cfg in
    app_cb_ok w ->
    0 < count ->
    (Z.to_nat count <= List.length peers)%nat ->
    (forall cfg' g',
        CONFIG_P2P_TARGET_PEER_MAC cfg' = filter ->
        discovered_peers g' = peers ->
        discovered_peer_count g' = count ->
        select_target_peer cfg' sscanf_mac g'
        = select_target_peer cfg sscanf_mac (user w)) /\
    (filter = ""%string ->
     (forall j q, (j < Z.to_nat count)%nat -> nth_error peers j = Some q ->
                  INT_MIN < rssi q) ->
     exists idx p,
       select_target_peer cfg sscanf_mac (user w) = Some idx /\
       (idx < Z.to_nat count)%nat /\
       nth_error peers idx = Some p /\
       (forall j q, (j < Z.to_nat count)%nat -> nth_error peers j = Some q ->
                    rssi q <= rssi p) /\
       (forall j q, (j < idx)%nat -> nth_error peers j = Some q ->
                    rssi q < rssi p)) /\
    (forall p1 p2 p3,
        rssi p1 = -70 -> rssi p2 = -40 -> rssi p3 = -55 ->
        select_highest_rssi [p1; p2; p3] 3 = Some 1%nat) /\
    (filter <> ""%string ->
     (forall m,
         parse_mac_address sscanf_mac filter = Some m ->
         forall j q, (j < Z.to_nat count)%nat -> nth_error peers j = Some q ->
                     mac q <> m) ->
     select_target_peer cfg sscanf_mac (user w) = None /\
     p2p_connect_handler cfg sscanf_mac e w
     = upd_user (set_pairing_in_progress false)
         (k_sleep (CONFIG_P2P_FIND_STOP_DELAY_MS cfg) (find_stop_events e)
                  (snd (wifi_p2p_stop_find (stop_find_ret e) w))) /\
     p2p_pairing_in_progress
       (user (p2p_connect_handler cfg sscanf_mac e w)) = false).
Proof.
  intros cfg sscanf_mac e w peers count filter Hcb Hpos Hlen.
  subst peers count filter.
  split; [| split; [| split]].
  - intros cfg' g' Hf Hp Hc. apply select_target_peer_ext; assumption.
  - intros Hf Hmin. unfold select_target_peer. rewrite Hf. simpl.
    apply select_highest_rssi_spec; assumption.
  - intros [m1 n1 r1] [m2 n2 r2] [m3 n3 r3]; simpl.
    intros -> -> ->. reflexivity.
  - intros Hf Hno.
    assert (Hc : discovered_peer_count (user w) <> 0) by lia.
    pose proof (select_target_peer_no_match cfg sscanf_mac (user w)
                  Hc Hf Hno) as Hsel.
    assert (Hrun : p2p_connect_handler cfg sscanf_mac e w
                   = upd_user (set_pairing_in_progress false)
                       (k_sleep (CONFIG_P2P_FIND_STOP_DELAY_MS cfg)
                          (find_stop_events e)
                          (snd (wifi_p2p_stop_find (stop_find_ret e) w)))).
    { unfold p2p_connect_handler.
      apply Z.eqb_neq in Hc. rewrite Hc.
      destruct (wifi_p2p_stop_find_user _ (stop_find_ret e) w) as [Hu Hk].
      destruct (wifi_p2p_stop_find (stop_find_ret e) w) as [r w1].
      simpl in Hu, Hk |- *.
      assert (Hcb1 : app_cb_ok w1) by (unfold app_cb_ok; rewrite Hk; exact Hcb).
      destruct (k_sleep_pairing_statics
                  (CONFIG_P2P_FIND_STOP_DELAY_MS cfg) (find_stop_events e)
                  w1 Hcb1) as (_ & A1 & A2 & _).
      rewrite (select_target_peer_ext cfg cfg sscanf_mac _ (user w)
                 eq_refl); [| congruence | congruence].
      rewrite Hsel. reflexivity. }
    split; [exact Hsel | split; [exact Hrun |]].
    rewrite Hrun. destruct (k_sleep _ _ _). reflexivity.
Qed.

(** The property above on the three example peers: with the empty filter
    the second peer (-40 dBm) is selected; with a filter that names none
    of them the connect handler gives up with the flag cleared. *)
Lemma peer_selection_witness :
  let e := mk_connect_env 0 [] [] 0 [] [] [] []
                          (mk_sock_result 3 0) (mk_sock_result 0 0) in
  let cfg_any := example_cfg "" 15 in
  let cfg_mac := example_cfg "aa:bb:cc:dd:ee:ff" 15 in
  select_target_peer cfg_any example_sscanf (user example_app_discovered)
  = Some 1%nat /\
  select_target_peer cfg_mac example_sscanf (user example_app_discovered)
  = None /\
  p2p_pairing_in_progress
    (user (p2p_connect_handler cfg_mac example_sscanf e
                               example_app_discovered)) = false /\
  state (p2p_ctx (p2p_connect_handler cfg_mac example_sscanf e
                                      example_app_discovered))
  = WIFI_P2P_STATE_IDLE.
Proof.
  cbv zeta.
  set (e := mk_connect_env 0 [] [] 0 [] [] [] []
                           (mk_sock_result 3 0) (mk_sock_result 0 0)).
  assert (Hcb : app_cb_ok example_app_discovered) by (left; reflexivity).
  assert (Hpos : 0 < discovered_peer_count (user example_app_discovered))
    by (simpl; lia).
  assert (Hlen : (Z.to_nat (discovered_peer_count (user example_app_discovered))
                  <= List.length (discovered_peers (user example_app_discovered)))%nat)
    by (simpl; lia).
  pose proof (peer_selection (example_cfg "" 15) example_sscanf e
                example_app_discovered Hcb Hpos Hlen) as Hany.
  pose proof (peer_selection (example_cfg "aa:bb:cc:dd:ee:ff" 15)
                example_sscanf e example_app_discovered Hcb Hpos Hlen)
    as Hmac.
  cbv zeta in Hany, Hmac.
  destruct Hany as (_ & _ & H3 & _).
  destruct Hmac as (_ & _ & _ & H4).
  split.
  - exact (H3 (nth 0 example_peers no_peer) (nth 1 example_peers no_peer)
               (nth 2 example_peers no_peer) eq_refl eq_refl eq_refl).
  - assert (Hf : CONFIG_P2P_TARGET_PEER_MAC (example_cfg "aa:bb:cc:dd:ee:ff" 15)
                 <> ""%string) by (simpl; discriminate).
    assert (Hno : forall m,
               parse_mac_address example_sscanf
                 (CONFIG_P2P_TARGET_PEER_MAC (example_cfg "aa:bb:cc:dd:ee:ff" 15))
               = Some m ->
               forall j q,
                 (j < Z.to_nat (discovered_peer_count (user example_app_discovered)))%nat ->
                 nth_error (discovered_peers (user example_app_discovered)) j = Some q ->
                 mac q <> m).
    { intros m Hm j q Hj Hq. vm_compute in Hm. inversion Hm; subst; clear Hm.
      simpl in Hj.
      destruct j as [| [| [| j]]]; simpl in Hq; try lia;
        inversion Hq; subst; vm_compute; discriminate. }
    destruct (H4 Hf Hno) as (Hsel & Hrun & Hflag).
    split; [exact Hsel | split; [exact Hflag |]].
    rewrite Hrun. reflexivity.
Defined.

(* ------------------------------------------------------------------ *)
(** ** The in-flight flag of the pairing orchestrator                  *)
(* ------------------------------------------------------------------ *)

Lemma pairing_flag_cleared :
  forall (w : app),
    p2p_pairing_in_progress
      (user (upd_user (set_pairing_in_progress false) w)) = false.
Proof. intros w. destruct w; reflexivity. Qed.

Ltac split_paths :=
  repeat match goal with
         | |- context [let (_, _) := ?x in _] => destruct x
         | |- context [if ?b then _ else _] => destruct b eqn:?
         | |- context [match ?x with Some _ => _ | None => _ end] =>
             destruct x eqn:?
         end.

(** Every exit path of p2p_connect_handler leaves the flag cleared. *)
Lemma p2p_connect_handler_clears_flag :
  forall cfg sscanf_mac (e : connect_env) (w : app),
    p2p_pairing_in_progress
      (user (p2p_connect_handler cfg sscanf_mac e w)) = false.
Proof.
  intros cfg sscanf_mac e w. unfold p2p_connect_handler.
  split_paths; apply pairing_flag_cleared.
Qed.

(** p2p_start_handler, entered with the flag clear, ends with the flag
    cleared or with the connect work item queued. *)
Lemma p2p_start_handler_exit :
  forall cfg (e : start_env) (w : app),
    p2p_pairing_in_progress (user w) = false ->
    p2p_pairing_in_progress (user (p2p_start_handler cfg e w)) = false \/
    p2p_connect_work_pending (user (p2p_start_handler cfg e w)) = true.
Proof.
  intros cfg e w Hf. unfold p2p_start_handler. rewrite Hf.
  split_paths;
    try (left; apply pairing_flag_cleared);
    right; match goal with |- context [upd_user _ ?x] => destruct x end;
    reflexivity.
Qed.

Ltac eval_globals :=
  cbn [start_udp_echo_client start_udp_echo_server udp_client_init
       udp_server_init log_closes fold_left log_action set_server_addr
       set_udp_socket set_echo_stats set_udp_echo_stop_flag
       udp_echo_reset_stats init_ret init_socket init_closed
       sock_ret sock_errno inet_pton_ret inet_pton_addr
       sin_family sin_addr sin_port
       udp_socket server_addr udp_echo_stop_flag echo_stats timeline
       discovered_peers discovered_peer_count p2p_pairing_in_progress
       p2p_connect_work_pending dhcp_bound_handled fst snd].

Lemma wifi_p2p_find_user :
  forall (U : Type) (timeout_sec ret : Z) (w : p2p_world U),
    user (snd (wifi_p2p_find timeout_sec ret w)) = user w /\
    user_event_cb (snd (wifi_p2p_find timeout_sec ret w)) = user_event_cb w.
Proof.
  intros U t ret w. unfold wifi_p2p_find.
  destruct w; simpl. split_ifs; split; reflexivity.
Qed.

Lemma upd_user_fields :
  forall (f : main_globals -> main_globals) (w : app),
    user (upd_user f w) = f (user w) /\
    user_event_cb (upd_user f w) = user_event_cb w /\
    p2p_ctx (upd_user f w) = p2p_ctx w /\
    link_ops (upd_user f w) = link_ops w /\
    p2p_sems (upd_user f w) = p2p_sems w.
Proof. intros f w. destruct w; repeat split; reflexivity. Qed.

Lemma wifi_p2p_connect_user :
  forall (U : Type) peer (intent freq ret : Z) (w : p2p_world U),
    user (snd (wifi_p2p_connect peer intent freq ret w)) = user w /\
    user_event_cb (snd (wifi_p2p_connect peer intent freq ret w))
    = user_event_cb w.
Proof.
  intros U peer intent freq ret w. unfold wifi_p2p_connect.
  destruct w as [c s1 s2 s3 s4 s5 cb u i l]. cbn [wifi_iface].
  destruct i, peer, (negb (ret =? 0)), (intent =? 15), (intent =? 0);
    split; reflexivity.
Qed.

Lemma same_pairing_statics_refl : forall g, same_pairing_statics g g.
Proof. intros g. repeat split; reflexivity. Qed.

Lemma same_pairing_statics_trans :
  forall a b c,
    same_pairing_statics a b -> same_pairing_statics b c ->
    same_pairing_statics a c.
Proof.
  intros a b c (A1 & A2 & A3 & A4) (B1 & B2 & B3 & B4).
  repeat split; congruence.
Qed.

Lemma pairing_kept_refl : forall w, app_cb_ok w -> pairing_kept w w.
Proof.
  intros w H. split; [exact H | apply same_pairing_statics_refl].
Qed.

Lemma pairing_kept_trans :
  forall a b c, pairing_kept a b -> pairing_kept b c -> pairing_kept a c.
Proof.
  intros a b c (_ & Hab) (Hc & Hbc).
  split; [exact Hc | eapply same_pairing_statics_trans; eassumption].
Qed.

Lemma same_user_pairing_kept :
  forall (w w' : app),
    app_cb_ok w -> user w' = user w -> user_event_cb w' = user_event_cb w ->
    pairing_kept w w'.
Proof.
  intros w w' Hcb Hu Hc. unfold pairing_kept, app_cb_ok in *.
  rewrite Hu, Hc. split; [exact Hcb | apply same_pairing_statics_refl].
Qed.

Lemma upd_user_pairing_kept :
  forall (f : main_globals -> main_globals) (w : app),
    (forall g, same_pairing_statics g (f g)) ->
    app_cb_ok w -> pairing_kept w (upd_user f w).
Proof.
  intros f w Hf Hcb.
  destruct (upd_user_fields f w) as (Hu & Hc & _).
  unfold pairing_kept, app_cb_ok in *. rewrite Hu, Hc.
  split; [exact Hcb | apply Hf].
Qed.

Lemma log_action_pairing_statics :
  forall a g, same_pairing_statics g (log_action a g).
Proof. intros a g. repeat split; reflexivity. Qed.

Lemma setup_go_network_pairing_statics :
  forall sock bind g, same_pairing_statics g (setup_go_network sock bind g).
Proof.
  intros [sr se] [br be] [dp dc pp cw dh fd sa fl st tl].
  unfold setup_go_network, start_udp_echo_server, udp_server_init.
  eval_globals.
  destruct (sr <? 0); eval_globals;
    [destruct (- se <? 0); repeat split; reflexivity |].
  destruct (br <? 0); eval_globals;
    [destruct (- be <? 0); repeat split; reflexivity |].
  repeat split; reflexivity.
Qed.

(** Blocking on a semaphore: the notifications handled meanwhile leave
    the pairing statics alone. *)
Lemma k_sem_take_pairing_kept :
  forall (get : app -> k_sem) (upd : (k_sem -> k_sem) -> app -> app)
         (timeout_ms : Z) (evs : list net_mgmt_event) (w : app),
    (forall f w', user (upd f w') = user w' /\
                  user_event_cb (upd f w') = user_event_cb w') ->
    app_cb_ok w ->
    pairing_kept w (snd (k_sem_take get upd timeout_ms evs w)).
Proof.
  intros get upd t evs w Hupd Hcb.
  assert (Hk : forall f w', app_cb_ok w' -> pairing_kept w' (upd f w')).
  { intros f w' Hcb'. apply same_user_pairing_kept;
      [exact Hcb' | apply Hupd | apply Hupd]. }
  unfold k_sem_take.
  destruct (Nat.ltb 0 (sem_count (get w))); cbn [snd]; [apply Hk; exact Hcb |].
  destruct (t =? 0); cbn [snd]; [apply pairing_kept_refl; exact Hcb |].
  pose proof (Hk (fun s => mk_sem (sem_count s) Pending) w Hcb) as H1.
  set (w1 := upd (fun s => mk_sem (sem_count s) Pending) w) in *.
  clearbody w1.
  pose proof (dispatch_all_pairing_statics evs w1 (proj1 H1)) as H2.
  set (w2 := dispatch_all evs w1) in *. clearbody w2.
  assert (H3 : pairing_kept w w2)
    by (eapply pairing_kept_trans; [exact H1 | exact H2]).
  pose proof (Hk (fun s => mk_sem (sem_count s) NoWaiter) w2 (proj1 H2))
    as H4.
  destruct (sem_wait (get w2)); cbn [snd];
    (eapply pairing_kept_trans; [exact H3 | exact H4]).
Qed.

Lemma wait_for_group_formation_pairing_kept :
  forall (timeout_ms : Z) (evs : list net_mgmt_event) (w : app),
    app_cb_ok w ->
    pairing_kept w
      (snd (wifi_p2p_wait_for_group_formation timeout_ms evs w)).
Proof.
  intros t evs w Hcb. unfold wifi_p2p_wait_for_group_formation.
  pose proof (k_sem_take_pairing_kept p2p_group_formed_sem
                upd_group_formed_sem t evs w) as H.
  destruct (k_sem_take p2p_group_formed_sem upd_group_formed_sem t evs w)
    as [r w'].
  cbn [snd] in H.
  assert (Hk : pairing_kept w w').
  { apply H; [| exact Hcb]. intros f [c s1 s2 s3 s4 s5 cb u i l].
    split; reflexivity. }
  destruct (r =? - EAGAIN); [exact Hk |].
  destruct (state_eqb (state (p2p_ctx w')) WIFI_P2P_STATE_ERROR); exact Hk.
Qed.

Lemma wait_for_ap_sta_connected_pairing_kept :
  forall (timeout_ms : Z) (evs : list net_mgmt_event) (w : app),
    app_cb_ok w ->
    pairing_kept w
      (snd (wifi_p2p_wait_for_ap_sta_connected timeout_ms evs w)).
Proof.
  intros t evs w Hcb. unfold wifi_p2p_wait_for_ap_sta_connected.
  pose proof (k_sem_take_pairing_kept p2p_ap_sta_connected_sem
                upd_ap_sta_connected_sem t evs w) as H.
  destruct (k_sem_take p2p_ap_sta_connected_sem upd_ap_sta_connected_sem
              t evs w) as [r w'].
  cbn [snd] in H.
  assert (Hk : pairing_kept w w').
  { apply H; [| exact Hcb]. intros f [c s1 s2 s3 s4 s5 cb u i l].
    split; reflexivity. }
  destruct (r =? - EAGAIN); exact Hk.
Qed.

Lemma k_sleep_pairing_kept :
  forall (ms : Z) (evs : list net_mgmt_event) (w : app),
    app_cb_ok w -> pairing_kept w (k_sleep ms evs w).
Proof. intros ms evs w Hcb. apply k_sleep_pairing_statics. exact Hcb. Qed.

Lemma post_connect_pairing_kept :
  forall cfg (e : connect_env) (w : app),
    app_cb_ok w -> pairing_kept w (post_connect cfg e w).
Proof.
  intros cfg e w Hcb. unfold post_connect.
  destruct (role (p2p_ctx w)).
  - apply pairing_kept_refl. exact Hcb.
  - pose proof (wait_for_ap_sta_connected_pairing_kept
                  (u32 (CONFIG_P2P_AP_STA_CONNECTED_TIMEOUT_MS cfg))
                  (ap_sta_events e) w Hcb) as H1.
    destruct (wifi_p2p_wait_for_ap_sta_connected
                (u32 (CONFIG_P2P_AP_STA_CONNECTED_TIMEOUT_MS cfg))
                (ap_sta_events e) w) as [r w1].
    cbn [snd] in H1.
    pose proof (k_sleep_pairing_kept (CONFIG_P2P_4WAY_HANDSHAKE_WAIT_MS cfg)
                  (handshake_events e) w1 (proj1 H1)) as H2.
    set (w2 := k_sleep (CONFIG_P2P_4WAY_HANDSHAKE_WAIT_MS cfg)
                 (handshake_events e) w1) in *.
    clearbody w2.
    eapply pairing_kept_trans; [exact H1 |].
    eapply pairing_kept_trans; [exact H2 |].
    apply upd_user_pairing_kept;
      [apply setup_go_network_pairing_statics | exact (proj1 H2)].
  - assert (H1 : pairing_kept w
                   (if 0 <? CONFIG_P2P_DHCP_START_DELAY_MS cfg
                    then k_sleep (CONFIG_P2P_DHCP_START_DELAY_MS cfg)
                           (dhcp_delay_events e) w
                    else w)).
    { destruct (0 <? CONFIG_P2P_DHCP_START_DELAY_MS cfg);
        [apply k_sleep_pairing_kept | apply pairing_kept_refl]; exact Hcb. }
    set (w1 := if 0 <? CONFIG_P2P_DHCP_START_DELAY_MS cfg
               then k_sleep (CONFIG_P2P_DHCP_START_DELAY_MS cfg)
                      (dhcp_delay_events e) w
               else w) in *.
    clearbody w1.
    assert (H2 : pairing_kept w1
                   (upd_user (set_dhcp_bound_handled false) w1)).
    { apply upd_user_pairing_kept; [| exact (proj1 H1)].
      intros g. repeat split; reflexivity. }
    set (w2 := upd_user (set_dhcp_bound_handled false) w1) in *.
    clearbody w2.
    assert (H3 : pairing_kept w2
                   (upd_user (log_action ACT_REGISTER_DHCP_CALLBACK) w2))
      by (apply upd_user_pairing_kept;
          [apply log_action_pairing_statics | exact (proj1 H2)]).
    set (w3 := upd_user (log_action ACT_REGISTER_DHCP_CALLBACK) w2) in *.
    clearbody w3.
    eapply pairing_kept_trans; [exact H1 |].
    eapply pairing_kept_trans; [exact H2 |].
    eapply pairing_kept_trans; [exact H3 |].
    apply upd_user_pairing_kept;
      [apply log_action_pairing_statics | exact (proj1 H3)].
Qed.

(** The last assignment of every exit path of the connect sequence. *)
Lemma clear_flag_after_kept :
  forall (w wk : app),
    pairing_kept w wk ->
    let wf := upd_user (set_pairing_in_progress false) wk in
    app_cb_ok wf /\
    p2p_pairing_in_progress (user wf) = false /\
    p2p_connect_work_pending (user wf) = p2p_connect_work_pending (user w).
Proof.
  intros w wk (Hcb & _ & _ & _ & Hp) wf. subst wf.
  destruct (upd_user_fields (set_pairing_in_progress false) wk)
    as (Hu & Hc & _).
  unfold app_cb_ok in *. rewrite Hu, Hc.
  split; [exact Hcb |]. split; [reflexivity | exact Hp].
Qed.

(** The connect sequence ends with the flag cleared and leaves the queue
    state of its own work item as it found it. *)
Lemma p2p_connect_handler_end :
  forall cfg sscanf_mac (e : connect_env) (w : app),
    app_cb_ok w ->
    let w' := p2p_connect_handler cfg sscanf_mac e w in
    app_cb_ok w' /\
    p2p_pairing_in_progress (user w') = false /\
    p2p_connect_work_pending (user w') = p2p_connect_work_pending (user w).
Proof.
  intros cfg sscanf_mac e w Hcb w'. subst w'. unfold p2p_connect_handler.
  destruct (discovered_peer_count (user w) =? 0);
    [apply clear_flag_after_kept, pairing_kept_refl; exact Hcb |].
  destruct (wifi_p2p_stop_find_user _ (stop_find_ret e) w) as (Hu1 & Hc1).
  destruct (wifi_p2p_stop_find (stop_find_ret e) w) as [r1 w1].
  cbn [snd] in Hu1, Hc1.
  assert (K1 : pairing_kept w w1)
    by (apply same_user_pairing_kept; assumption).
  clear Hu1 Hc1.
  pose proof (k_sleep_pairing_kept (CONFIG_P2P_FIND_STOP_DELAY_MS cfg)
                (find_stop_events e) w1 (proj1 K1)) as K2.
  set (w2 := k_sleep (CONFIG_P2P_FIND_STOP_DELAY_MS cfg)
               (find_stop_events e) w1) in *.
  clearbody w2.
  assert (K2' : pairing_kept w w2)
    by (eapply pairing_kept_trans; eassumption).
  clear K1 K2.
  destruct (select_target_peer cfg sscanf_mac (user w2)) as [idx |];
    [| apply clear_flag_after_kept; exact K2'].
  assert (K3 : pairing_kept w2
                 (if u8 (CONFIG_P2P_GO_INTENT cfg) =? 0
                  then k_sleep (CONFIG_P2P_GO_NEG_REQUEST_WAIT_MS cfg)
                         (go_neg_events e) w2
                  else w2)).
  { destruct (u8 (CONFIG_P2P_GO_INTENT cfg) =? 0);
      [apply k_sleep_pairing_kept | apply pairing_kept_refl];
      exact (proj1 K2'). }
  set (peer := mac (nth idx (discovered_peers (user w2)) no_peer)).
  clearbody peer.
  set (w3 := if u8 (CONFIG_P2P_GO_INTENT cfg) =? 0
             then k_sleep (CONFIG_P2P_GO_NEG_REQUEST_WAIT_MS cfg)
                    (go_neg_events e) w2
             else w2) in *.
  clearbody w3.
  assert (K3' : pairing_kept w w3)
    by (eapply pairing_kept_trans; eassumption).
  clear K2' K3.
  destruct (wifi_p2p_connect_user _ (Some peer) (u8 (CONFIG_P2P_GO_INTENT cfg))
              (u32 (CONFIG_P2P_OPERATING_FREQUENCY cfg)) (connect_ret e) w3)
    as (Hu4 & Hc4).
  destruct (wifi_p2p_connect (Some peer) (u8 (CONFIG_P2P_GO_INTENT cfg))
              (u32 (CONFIG_P2P_OPERATING_FREQUENCY cfg)) (connect_ret e) w3)
    as [r4 w4].
  cbn [snd] in Hu4, Hc4.
  assert (K4 : pairing_kept w w4).
  { eapply pairing_kept_trans; [exact K3' |].
    apply same_user_pairing_kept; [exact (proj1 K3') | | ]; assumption. }
  clear Hu4 Hc4 K3'.
  destruct (r4 <? 0); [apply clear_flag_after_kept; exact K4 |].
  pose proof (wait_for_group_formation_pairing_kept
                (u32 (CONFIG_P2P_GROUP_FORMATION_TIMEOUT_MS cfg))
                (group_formation_events e) w4 (proj1 K4)) as K5.
  destruct (wifi_p2p_wait_for_group_formation
              (u32 (CONFIG_P2P_GROUP_FORMATION_TIMEOUT_MS cfg))
              (group_formation_events e) w4) as [r5 w5].
  cbn [snd] in K5.
  assert (K5' : pairing_kept w w5)
    by (eapply pairing_kept_trans; eassumption).
  clear K4 K5.
  destruct (r5 <? 0); [apply clear_flag_after_kept; exact K5' |].
  apply clear_flag_after_kept.
  eapply pairing_kept_trans; [exact K5' |].
  apply post_connect_pairing_kept. exact (proj1 K5').
Qed.

(** The start sequence, entered with the flag clear, arms the flag
    before anything else and either abandons the attempt with the flag
    cleared, the queue of the connect sequence untouched, or hands over
    to the connect sequence with the flag still set. *)
Lemma p2p_start_handler_end :
  forall cfg (e : start_env) (w : app),
    app_cb_ok w ->
    p2p_pairing_in_progress (user w) = false ->
    let w' := p2p_start_handler cfg e w in
    app_cb_ok w' /\
    ((p2p_pairing_in_progress (user w') = false /\
      p2p_connect_work_pending (user w')
      = p2p_connect_work_pending (user w)) \/
     (p2p_pairing_in_progress (user w') = true /\
      p2p_connect_work_pending (user w') = true)).
Proof.
  intros cfg e w Hcb Hf w'. subst w'. unfold p2p_start_handler. rewrite Hf.
  set (w0 := upd_user (fun g => set_discovered (discovered_peers g) 0 g)
               (upd_user (set_pairing_in_progress true) w)).
  assert (H0 : app_cb_ok w0 /\
               p2p_pairing_in_progress (user w0) = true /\
               p2p_connect_work_pending (user w0)
               = p2p_connect_work_pending (user w)).
  { subst w0. unfold app_cb_ok in *.
    destruct w as [c s1 s2 s3 s4 s5 cb u i l].
    cbn [upd_user user user_event_cb] in *.
    split; [exact Hcb |]. split; reflexivity. }
  clearbody w0. destruct H0 as (Hcb0 & Hf0 & Hp0).
  destruct (wifi_p2p_find_user _ (u16 (CONFIG_P2P_DISCOVERY_TIMEOUT cfg))
              (find_ret e) w0) as (Hu & Hucb).
  destruct (wifi_p2p_find (u16 (CONFIG_P2P_DISCOVERY_TIMEOUT cfg))
              (find_ret e) w0) as [ret wf].
  cbn [snd] in Hu, Hucb.
  assert (Kf : pairing_kept w0 wf)
    by (apply same_user_pairing_kept; assumption).
  clear Hu Hucb.
  destruct (ret <? 0).
  - destruct (clear_flag_after_kept w0 wf Kf) as (A & B & C).
    split; [exact A |]. left. split; [exact B | congruence].
  - pose proof (k_sleep_pairing_kept (CONFIG_P2P_DISCOVERY_WAIT_MS cfg)
                  (discovery_events e) wf (proj1 Kf)) as Ks.
    set (ws := k_sleep (CONFIG_P2P_DISCOVERY_WAIT_MS cfg)
                 (discovery_events e) wf) in *.
    clearbody ws.
    assert (Ks' : pairing_kept w0 ws)
      by (eapply pairing_kept_trans; eassumption).
    clear Kf Ks.
    destruct (wifi_p2p_get_peers ws
             (discovered_peers (user ws), discovered_peer_count (user ws))
             (get_peers_ret e) (peers_found e) (peers_found_count e))
      as [r found].
    set (wd := upd_user (set_discovered (fst found) (snd found)) ws).
    assert (Hd : app_cb_ok wd /\
                 p2p_pairing_in_progress (user wd) = true /\
                 p2p_connect_work_pending (user wd)
                 = p2p_connect_work_pending (user w)).
    { destruct Ks' as (Hcbs & _ & _ & Hfs & Hps).
      destruct (upd_user_fields
                  (set_discovered (fst found) (snd found)) ws)
        as (Hu & Hc & _).
      subst wd. unfold app_cb_ok in *. rewrite Hu, Hc.
      split; [exact Hcbs |].
      split; [cbn [set_discovered p2p_pairing_in_progress]; congruence
             | cbn [set_discovered p2p_connect_work_pending]; congruence]. }
    clearbody wd. destruct Hd as (Hcbd & Hfd & Hpd).
    destruct ((0 <? discovered_peer_count (user wd))
              || state_eqb (state (p2p_ctx wd)) WIFI_P2P_STATE_FOUND)%bool.
    + destruct (upd_user_fields (set_connect_work_pending true) wd)
        as (Hu & Hc & _).
      unfold app_cb_ok in *. rewrite Hu, Hc.
      split; [exact Hcbd |]. right.
      split; [exact Hfd | reflexivity].
    + destruct (clear_flag_after_kept wd wd (pairing_kept_refl wd Hcbd))
        as (A & B & C).
      split; [exact A |]. left. split; [exact B | congruence].
Qed.

Lemma main_run_nil :
  forall cfg sscanf_mac w, main_run cfg sscanf_mac [] w = w.
Proof. reflexivity. Qed.

Lemma main_run_cons :
  forall cfg sscanf_mac s steps w,
    main_run cfg sscanf_mac (s :: steps) w
    = main_run cfg sscanf_mac steps (main_run cfg sscanf_mac [s] w).
Proof. reflexivity. Qed.

Lemma main_run_start :
  forall cfg sscanf_mac e w,
    main_run cfg sscanf_mac [START_WORK e] w = p2p_start_handler cfg e w.
Proof. reflexivity. Qed.

Lemma main_run_connect :
  forall cfg sscanf_mac e w,
    main_run cfg sscanf_mac [CONNECT_WORK e] w
    = run_connect_work cfg sscanf_mac e w.
Proof. reflexivity. Qed.

Lemma main_run_notifications :
  forall cfg sscanf_mac evs w,
    main_run cfg sscanf_mac [NOTIFICATIONS evs] w = dispatch_all evs w.
Proof. reflexivity. Qed.

Lemma p2p_start_handler_dropped :
  forall cfg (e : start_env) (w : app),
    p2p_pairing_in_progress (user w) = true ->
    p2p_start_handler cfg e w = w.
Proof.
  intros cfg e w Hf. unfold p2p_start_handler. rewrite Hf. reflexivity.
Qed.

(** The flag follows the queue of the connect sequence through every
    schedule. *)
Lemma main_run1_flag_follows_queue :
  forall cfg sscanf_mac (s : main_step) (w : app),
    app_cb_ok w ->
    p2p_pairing_in_progress (user w) = p2p_connect_work_pending (user w) ->
    app_cb_ok (main_run cfg sscanf_mac [s] w) /\
    p2p_pairing_in_progress (user (main_run cfg sscanf_mac [s] w))
    = p2p_connect_work_pending (user (main_run cfg sscanf_mac [s] w)).
Proof.
  intros cfg sscanf_mac s w Hcb Hinv. destruct s as [e | e | evs].
  - rewrite main_run_start.
    destruct (p2p_pairing_in_progress (user w)) eqn:Hf.
    + rewrite (p2p_start_handler_dropped cfg e w Hf).
      split; [exact Hcb | congruence].
    + destruct (p2p_start_handler_end cfg e w Hcb Hf) as (A & [B | B]).
      * split; [exact A | destruct B; congruence].
      * split; [exact A | destruct B; congruence].
  - rewrite main_run_connect. unfold run_connect_work.
    destruct (p2p_connect_work_pending (user w)) eqn:Hp;
      [| split; [exact Hcb | congruence]].
    destruct (upd_user_fields (set_connect_work_pending false) w)
      as (Hu & Hc & _).
    assert (Hcb1 : app_cb_ok (upd_user (set_connect_work_pending false) w))
      by (unfold app_cb_ok in *; rewrite Hc; exact Hcb).
    assert (Hp1 : p2p_connect_work_pending
                    (user (upd_user (set_connect_work_pending false) w))
                  = false) by (rewrite Hu; reflexivity).
    set (w1 := upd_user (set_connect_work_pending false) w) in *.
    clearbody w1.
    destruct (p2p_connect_handler_end cfg sscanf_mac e w1 Hcb1)
      as (A & B & C).
    split; [exact A | congruence].
  - rewrite main_run_notifications.
    destruct (dispatch_all_pairing_statics evs w Hcb)
      as (A & _ & _ & B & C).
    split; [exact A | congruence].
Qed.

Lemma main_run_flag_follows_queue :
  forall cfg sscanf_mac (steps : list main_step) (w : app),
    app_cb_ok w ->
    p2p_pairing_in_progress (user w) = p2p_connect_work_pending (user w) ->
    app_cb_ok (main_run cfg sscanf_mac steps w) /\
    p2p_pairing_in_progress (user (main_run cfg sscanf_mac steps w))
    = p2p_connect_work_pending (user (main_run cfg sscanf_mac steps w)).
Proof.
  intros cfg sscanf_mac steps.
  induction steps as [| s steps IH]; intros w Hcb Hinv.
  - rewrite main_run_nil. split; assumption.
  - rewrite main_run_cons.
    destruct (main_run1_flag_follows_queue cfg sscanf_mac s w Hcb Hinv)
      as (A & B).
    apply IH; assumption.
Qed.

Lemma main_run_start_triggers_dropped :
  forall cfg sscanf_mac (triggers : list start_env) (w : app),
    p2p_pairing_in_progress (user w) = true ->
    main_run cfg sscanf_mac (map START_WORK triggers) w = w.
Proof.
  intros cfg sscanf_mac triggers w Hf.
  induction triggers as [| e triggers IH]; [reflexivity |].
  cbn [map]. rewrite main_run_cons, main_run_start.
  rewrite (p2p_start_handler_dropped cfg e w Hf). exact IH.
Qed.

(** C8.  A start trigger that finds the in-flight flag set changes
    nothing at all.  Every run of the connect sequence ends with the
    flag cleared, whatever its environment does (no peers, no peer
    selected, connect call refused, group formation timed out or failed,
    and each of the three role branches).  A start sequence entered with
    the flag clear ends with the flag cleared or with the connect
    sequence queued, so that a whole pairing attempt always ends with the
    flag cleared.

    With main.c's own callback registered, the flag is set exactly while
    an attempt is in flight.  A start sequence entered in the idle state
    (flag clear, connect sequence not queued) either abandons the attempt
    with the flag clear and nothing queued, or hands over to the connect
    sequence with the flag set.  From the hand-over on, start triggers
    are dropped and notifications leave the flag and the queue alone, so
    the flag is still set when the connect sequence starts; when that
    sequence has run the state is idle again.  In every schedule of start
    triggers, connect work and notifications the flag is set if and only
    if the connect sequence is queued, hence a start sequence that is
    not dropped always begins in the idle state: no attempt begins while
    another one is in flight. *)
Theorem pairing_in_flight_flag :
  forall (cfg : kconfig) (sscanf_mac : string -> list Z)
         (se : start_env) (ce : connect_env) (w : app),
    (p2p_pairing_in_progress (user w) = true ->
     p2p_start_handler cfg se w = w) /\
    p2p_pairing_in_progress
      (user (p2p_connect_handler cfg sscanf_mac ce w)) = false /\
    (p2p_pairing_in_progress (user w) = false ->
     (p2p_pairing_in_progress (user (p2p_start_handler cfg se w)) = false \/
      p2p_connect_work_pending (user (p2p_start_handler cfg se w)) = true) /\
     p2p_pairing_in_progress
       (user (pairing_attempt cfg sscanf_mac se ce w)) = false) /\
    (app_cb_ok w ->
     p2p_pairing_in_progress (user w) = false ->
     p2p_connect_work_pending (user w) = false ->
     let handed := p2p_start_handler cfg se w in
     ((p2p_pairing_in_progress (user handed) = true /\
       p2p_connect_work_pending (user handed) = true) \/
      (p2p_pairing_in_progress (user handed) = false /\
       p2p_connect_work_pending (user handed) = false)) /\
     (p2p_connect_work_pending (user handed) = true ->
      forall (triggers : list start_env) (evs : list net_mgmt_event),
        let later :=
          main_run cfg sscanf_mac
            (NOTIFICATIONS evs :: map START_WORK triggers) handed in
        main_run cfg sscanf_mac (map START_WORK triggers) handed = handed /\
        p2p_pairing_in_progress (user later) = true /\
        p2p_connect_work_pending (user later) = true /\
        p2p_pairing_in_progress
          (user (run_connect_work cfg sscanf_mac ce later)) = false /\
        p2p_connect_work_pending
          (user (run_connect_work cfg sscanf_mac ce later)) = false)) /\
    (app_cb_ok w ->
     p2p_pairing_in_progress (user w) = p2p_connect_work_pending (user w) ->
     forall steps : list main_step,
       p2p_pairing_in_progress (user (main_run cfg sscanf_mac steps w))
       = p2p_connect_work_pending (user (main_run cfg sscanf_mac steps w))).
Proof.
  intros cfg sscanf_mac se ce w.
  split; [| split; [| split; [| split]]].
  - apply p2p_start_handler_dropped.
  - apply p2p_connect_handler_clears_flag.
  - intros Hf.
    pose proof (p2p_start_handler_exit cfg se w Hf) as Hexit.
    split; [exact Hexit |].
    unfold pairing_attempt, run_connect_work.
    destruct (p2p_connect_work_pending (user (p2p_start_handler cfg se w)))
      eqn:Hp.
    + apply p2p_connect_handler_clears_flag.
    + destruct Hexit as [H | H]; [exact H | discriminate].
  - intros Hcb Hf Hp handed.
    destruct (p2p_start_handler_end cfg se w Hcb Hf) as (Hcbh & Hend).
    fold handed in Hcbh, Hend. clearbody handed.
    assert (Hcases :
      (p2p_pairing_in_progress (user handed) = true /\
       p2p_connect_work_pending (user handed) = true) \/
      (p2p_pairing_in_progress (user handed) = false /\
       p2p_connect_work_pending (user handed) = false)).
    { destruct Hend as [[A B] | [A B]];
        [right; split; congruence | left; split; assumption]. }
    split; [exact Hcases |].
    intros Hq triggers evs later.
    assert (Hfh : p2p_pairing_in_progress (user handed) = true).
    { destruct Hcases as [[A _] | [_ B]]; [exact A | congruence]. }
    subst later. rewrite main_run_cons, main_run_notifications.
    destruct (dispatch_all_pairing_statics evs handed Hcbh)
      as (Hcbn & _ & _ & Hfn & Hpn).
    set (noted := dispatch_all evs handed) in *. clearbody noted.
    assert (Hfl : p2p_pairing_in_progress (user noted) = true) by congruence.
    assert (Hpl : p2p_connect_work_pending (user noted) = true)
      by congruence.
    rewrite (main_run_start_triggers_dropped cfg sscanf_mac triggers
               handed Hfh).
    rewrite (main_run_start_triggers_dropped cfg sscanf_mac triggers
               noted Hfl).
    split; [reflexivity |]. split; [exact Hfl |]. split; [exact Hpl |].
    assert (Hinv : p2p_pairing_in_progress (user noted)
                   = p2p_connect_work_pending (user noted)) by congruence.
    destruct (main_run1_flag_follows_queue cfg sscanf_mac (CONNECT_WORK ce)
                noted Hcbn Hinv) as (_ & Hlast).
    rewrite main_run_connect in Hlast.
    assert (Hdone : p2p_pairing_in_progress
                      (user (run_connect_work cfg sscanf_mac ce noted))
                    = false).
    { unfold run_connect_work. rewrite Hpl.
      apply p2p_connect_handler_clears_flag. }
    split; [exact Hdone | congruence].
  - intros Hcb Hinv steps.
    apply main_run_flag_follows_queue; assumption.
Qed.

(** A complete pairing attempt of the example coordinator: the start
    sequence hands over with the flag set, a second start trigger
    arriving then is dropped, and the attempt ends with the flag
    cleared, nothing queued, role GO and the echo server thread
    created. *)
Lemma pairing_in_flight_flag_witness :
  let cfg := example_cfg "" 15 in
  let handed := p2p_start_handler cfg example_start_env example_app in
  let w := pairing_attempt cfg example_sscanf example_start_env
                           example_connect_env example_app in
  app_cb_ok example_app /\
  p2p_pairing_in_progress (user example_app) = false /\
  p2p_connect_work_pending (user example_app) = false /\
  p2p_pairing_in_progress (user handed) = true /\
  p2p_connect_work_pending (user handed) = true /\
  main_run cfg example_sscanf [START_WORK example_start_env] handed
  = handed /\
  p2p_pairing_in_progress (user w) = false /\
  role (p2p_ctx w) = WIFI_P2P_ROLE_GO /\
  timeline (user w)
  = [ACT_K_SLEEP 5000; ACT_K_SLEEP 500; ACT_K_SLEEP 2000;
     ACT_CONFIGURE_GO_IP; ACT_START_DHCP_SERVER; ACT_THREAD_CREATE_SERVER] /\
  p2p_pairing_in_progress (user example_app_discovered) = true /\
  p2p_start_handler cfg example_start_env example_app_discovered
  = example_app_discovered.
Proof.
  cbv zeta.
  pose proof (pairing_in_flight_flag (example_cfg "" 15) example_sscanf
                example_start_env example_connect_env example_app)
    as (_ & _ & H & Hflight & _).
  pose proof (pairing_in_flight_flag (example_cfg "" 15) example_sscanf
                example_start_env example_connect_env
                example_app_discovered) as (Hrej & _ & _).
  assert (Hcb : app_cb_ok example_app) by (left; reflexivity).
  assert (H0 : p2p_pairing_in_progress (user example_app) = false)
    by reflexivity.
  assert (Hq : p2p_connect_work_pending (user example_app) = false)
    by reflexivity.
  assert (H1 : p2p_pairing_in_progress (user example_app_discovered) = true)
    by reflexivity.
  specialize (Hflight Hcb H0 Hq). cbv zeta in Hflight.
  destruct Hflight as (Hcases & Hdrop).
  assert (Hp : p2p_connect_work_pending
                 (user (p2p_start_handler (example_cfg "" 15)
                          example_start_env example_app)) = true)
    by (vm_compute; reflexivity).
  assert (Hf : p2p_pairing_in_progress
                 (user (p2p_start_handler (example_cfg "" 15)
                          example_start_env example_app)) = true).
  { destruct Hcases as [[A _] | [_ B]]; [exact A |].
    rewrite Hp in B. discriminate B. }
  destruct (Hdrop Hp [example_start_env] []) as (Hsame & _).
  split; [exact Hcb |]. split; [exact H0 |]. split; [exact Hq |].
  split; [exact Hf |]. split; [exact Hp |]. split; [exact Hsame |].
  split; [exact (proj2 (H H0)) |].
  split; [vm_compute; reflexivity |].
  split; [vm_compute; reflexivity |].
  split; [exact H1 |].
  exact (Hrej H1).
Defined.

(* ------------------------------------------------------------------ *)
(** ** Stopping an echo session                                        *)
(* ------------------------------------------------------------------ *)

(** stop_udp_echo on an open socket: the stop flag is stored, then one
    sleep of STOP_GRACE_MS, then the socket is closed. *)
Lemma stop_udp_echo_timeline :
  forall g,
    0 <= udp_socket g ->
    timeline (stop_udp_echo g)
    = timeline g ++ [ACT_STOP_FLAG_SET; ACT_K_SLEEP STOP_GRACE_MS;
                     ACT_SOCK_CLOSE (udp_socket g)] /\
    udp_echo_stop_flag (stop_udp_echo g) = true /\
    udp_socket (stop_udp_echo g) = -1.
Proof.
  intros g Hs. unfold stop_udp_echo. simpl.
  assert (E : (udp_socket g >=? 0) = true) by (apply Z.geb_le; lia).
  rewrite E. simpl. rewrite <- !app_assoc. simpl. repeat split; reflexivity.
Qed.

(** C3 on the code.  Stopping the example echo session (client socket 3,
    receive timeout as set by udp_client_init): the flag is stored, the
    thread sleeps 500 ms and then closes the socket, while the receive
    timeout of the echo loop is 2000 ms.  The grace period is shorter
    than the receive timeout, so a loop that entered its receive wait
    when the flag was stored is still in that wait, on the closed
    descriptor, for another 1500 ms. *)
Theorem stop_udp_echo_grace_too_short :
  let g := stop_udp_echo example_echo_session in
  udp_socket example_echo_session = 3 /\
  timeline g = [ACT_THREAD_CREATE_CLIENT; ACT_STOP_FLAG_SET;
                ACT_K_SLEEP 500; ACT_SOCK_CLOSE 3] /\
  grace_after_stop_flag (timeline g) = Some 500 /\
  timeval_ms recv_timeval = 2000 /\
  timeval_ms recv_timeval = UDP_RECV_TIMEOUT_MS /\
  STOP_GRACE_MS < UDP_RECV_TIMEOUT_MS /\
  UDP_RECV_TIMEOUT_MS - STOP_GRACE_MS = 1500.
Proof.
  cbv zeta. repeat split; try reflexivity.
Qed.

(* ------------------------------------------------------------------ *)
(** ** Echo statistics                                                 *)
(* ------------------------------------------------------------------ *)

(** C4.  From freshly reset statistics, three round trips of 10, 5 and
    20 ms (10000, 5000 and 20000 us) leave min 5000, max 20000, average
    11666, three packets received and none lost; two timeouts after them
    leave five packets sent and two lost, and the report then shows a
    loss of 40 percent.  For any statistics the reported loss is
    lost * 100 / sent in integer division (the product taken in 32
    bits, so exactly that quotient while lost * 100 fits), and no loss
    line, hence no division, when nothing was sent. *)
Theorem echo_statistics_round_trip :
  let fresh := udp_echo_reset_stats (Some stats_zero) in
  let three := [ping_reply 1000 10 64; ping_reply 2000 5 64;
                ping_reply 3000 20 64] in
  let five := three ++ [ping_timeout 4000; ping_timeout 7000] in
  (exists s,
      udp_echo_client_run 128 64 3 fresh (client_script three)
      = Some (ExitCount, Some s) /\
      rtt_min_us s = 5000 /\ rtt_max_us s = 20000 /\ rtt_avg_us s = 11666 /\
      packets_received s = 3 /\ packets_lost s = 0) /\
  (exists s r,
      udp_echo_client_run 128 64 5 fresh (client_script five)
      = Some (ExitCount, Some s) /\
      packets_sent s = 5 /\ packets_lost s = 2 /\ packets_received s = 3 /\
      udp_echo_print_stats (Some s) = Some r /\
      rep_loss_pct r = Some 40) /\
  (forall s, exists r,
      udp_echo_print_stats (Some s) = Some r /\
      (packets_sent s = 0 -> rep_loss_pct r = None) /\
      (0 < packets_sent s ->
       rep_loss_pct r
       = Some (u32 (packets_lost s * 100) / packets_sent s)) /\
      (0 < packets_sent s -> 0 <= packets_lost s * 100 < 2 ^ 32 ->
       rep_loss_pct r = Some (packets_lost s * 100 / packets_sent s))).
Proof.
  cbv zeta. split; [| split].
  - eexists. split; [vm_compute; reflexivity |].
    repeat split; reflexivity.
  - eexists. eexists. split; [vm_compute; reflexivity |].
    repeat split; reflexivity.
  - intros s. eexists. split; [reflexivity |]. simpl.
    split; [| split].
    + intros H. rewrite H. reflexivity.
    + intros H. apply Z.ltb_lt in H. rewrite H. reflexivity.
    + intros H Hr. apply Z.ltb_lt in H. rewrite H.
      unfold u32. rewrite Z.mod_small by exact Hr. reflexivity.
Qed.

(* ------------------------------------------------------------------ *)
(** ** The echo client loop                                            *)
(* ------------------------------------------------------------------ *)

Lemma u32_small : forall x, 0 <= x < 2 ^ 32 -> u32 x = x.
Proof. intros x H. unfold u32. apply Z.mod_small. exact H. Qed.






(** With the stop flag never read as set, a script of [count] pings is
    run to the end and the loop leaves through the count check. *)
Lemma client_loop_terminates :
  forall packet_size count pings seq_num rtt stats,
    0 < count <= UINT32_MAX ->
    0 <= seq_num ->
    seq_num + Z.of_nat (List.length pings) = count ->
    exists stats',
      client_loop packet_size count (client_script pings) seq_num rtt stats
      = Some (ExitCount, stats').
Proof.
  intros packet_size count pings. unfold UINT32_MAX, client_script.
  induction pings as [| p rest IH]; intros seq_num rtt stats Hc Hq Hlen;
    simpl in *.
  - assert (E : (0 <? count) && (count <=? seq_num) = true).
    { apply andb_true_iff. split; [apply Z.ltb_lt | apply Z.leb_le]; lia. }
    rewrite E. eexists. reflexivity.
  - assert (E : (0 <? count) && (count <=? seq_num) = false).
    { apply andb_false_iff. right. apply Z.leb_gt. lia. }
    rewrite E.
    destruct (udp_echo_ping p rtt) as [ret rtt'].
    rewrite u32_small by lia.
    apply IH; lia.
Qed.




(* ------------------------------------------------------------------ *)
(** ** The echo server loop                                            *)
(* ------------------------------------------------------------------ *)

(** The server returns exactly at the first pass that reads the stop
    flag as set, after running the body once for every pass before. *)
Lemma udp_echo_server_run_stops :
  forall pre it post st,
    Forall (fun i => server_stop_read i = false) pre ->
    server_stop_read it = true ->
    udp_echo_server_run (pre ++ it :: post) st
    = Some (fold_left (fun st i => server_body i st) pre st).
Proof.
  intros pre it post. induction pre as [| i pre IH]; intros st Hpre Hit;
    simpl.
  - rewrite Hit. reflexivity.
  - inversion Hpre; subst.
    match goal with H : server_stop_read i = false |- _ => rewrite H end.
    apply IH; assumption.
Qed.

Lemma udp_echo_server_run_returned :
  forall env st r,
    udp_echo_server_run env st = Some r ->
    exists pre it post,
      env = pre ++ it :: post /\
      Forall (fun i => server_stop_read i = false) pre /\
      server_stop_read it = true /\
      r = fold_left (fun st i => server_body i st) pre st.
Proof.
  intros env. induction env as [| i env IH]; intros st r H; simpl in H.
  - discriminate.
  - destruct (server_stop_read i) eqn:Hi.
    + inversion H; subst. exists [], i, env. repeat split; auto.
    + destruct (IH _ _ H) as (pre & it & post & -> & Hpre & Hit & ->).
      exists (i :: pre), it, post. repeat split; auto.
Qed.

(** C7.  One pass of the echo server loop that read the stop flag as
    clear: a receive that fails, by timeout or otherwise, changes
    nothing and the loop goes on; a received datagram increments the
    received-packet counter, adds its length to the received-byte
    counter and is handed to sendto unchanged, addressed to its sender;
    when that send fails the sent counters stay as they were, otherwise
    they are incremented; in every case the loop goes on to the next
    pass.  The function returns only at a pass that reads the stop flag
    as set, and at the first such pass it does return. *)
Theorem echo_server_loop :
  forall (it : server_iter) (rest : list server_iter)
         (stats : udp_echo_stats) (calls : list sendto_call),
    (server_stop_read it = false ->
     udp_echo_server_run (it :: rest) (Some stats, calls)
     = udp_echo_server_run rest (server_body it (Some stats, calls))) /\
    (forall errno,
        server_recvfrom it = RecvFail errno ->
        server_body it (Some stats, calls) = (Some stats, calls)) /\
    (forall payload from,
        server_recvfrom it = RecvData payload from ->
        payload <> [] ->
        exists stats',
          server_body it (Some stats, calls)
          = (Some stats', calls ++ [mk_sendto_call payload from]) /\
          packets_received stats' = u32 (packets_received stats + 1) /\
          bytes_received stats'
          = u32 (bytes_received stats + Z.of_nat (List.length payload)) /\
          (sock_ret (server_sendto it) < 0 ->
           packets_sent stats' = packets_sent stats /\
           bytes_sent stats' = bytes_sent stats) /\
          (0 <= sock_ret (server_sendto it) ->
           packets_sent stats' = u32 (packets_sent stats + 1) /\
           bytes_sent stats'
           = u32 (bytes_sent stats + sock_ret (server_sendto it)))) /\
    (forall env st r,
        udp_echo_server_run env st = Some r ->
        exists pre last post,
          env = pre ++ last :: post /\
          Forall (fun i => server_stop_read i = false) pre /\
          server_stop_read last = true /\
          r = fold_left (fun st i => server_body i st) pre st) /\
    (forall pre last post st,
        Forall (fun i => server_stop_read i = false) pre ->
        server_stop_read last = true ->
        udp_echo_server_run (pre ++ last :: post) st
        = Some (fold_left (fun st i => server_body i st) pre st)).
Proof.
  intros it rest stats calls.
  split; [| split; [| split; [| split]]].
  - intros H. simpl. rewrite H. reflexivity.
  - intros errno H. unfold server_body. rewrite H. reflexivity.
  - intros payload from H Hne. unfold server_body. rewrite H.
    assert (E : (Z.of_nat (List.length payload) =? 0) = false).
    { apply Z.eqb_neq. destruct payload; [congruence | simpl; lia]. }
    rewrite E.
    destruct (sock_ret (server_sendto it) <? 0) eqn:Hs.
    + apply Z.ltb_lt in Hs. eexists. split; [reflexivity |]. simpl.
      repeat split; try reflexivity; lia.
    + apply Z.ltb_ge in Hs. eexists. split; [reflexivity |]. simpl.
      repeat split; try reflexivity; lia.
  - apply udp_echo_server_run_returned.
  - apply udp_echo_server_run_stops.
Qed.

(** The property above on a script of four passes: a receive timeout, a
    datagram that is echoed, a datagram whose echo is refused, and the
    pass that reads the stop flag as set. *)
Lemma echo_server_loop_witness :
  let client := mk_sockaddr_in AF_INET 0xc0a8580a 40000 in
  let hello := [104; 101; 108; 108; 111] in
  let env :=
    [ mk_server_iter false (RecvFail EAGAIN) (mk_sock_result 0 0);
      mk_server_iter false (RecvData hello client) (mk_sock_result 5 0);
      mk_server_iter false (RecvData hello client) (mk_sock_result (-1) 105);
      mk_server_iter true (RecvFail EAGAIN) (mk_sock_result 0 0) ] in
  udp_echo_server_run env (udp_echo_reset_stats (Some stats_zero), [])
  = Some (Some (mk_stats 1 2 5 10 0 UINT32_MAX 0 0 0),
          [mk_sendto_call hello client; mk_sendto_call hello client]).
Proof.
  cbv zeta.
  destruct (echo_server_loop
              (mk_server_iter false (RecvFail EAGAIN) (mk_sock_result 0 0))
              [] stats_zero []) as (_ & _ & _ & _ & Hstop).
  rewrite (Hstop
             [ mk_server_iter false (RecvFail EAGAIN) (mk_sock_result 0 0);
               mk_server_iter false
                 (RecvData [104; 101; 108; 108; 111]
                           (mk_sockaddr_in AF_INET 0xc0a8580a 40000))
                 (mk_sock_result 5 0);
               mk_server_iter false
                 (RecvData [104; 101; 108; 108; 111]
                           (mk_sockaddr_in AF_INET 0xc0a8580a 40000))
                 (mk_sock_result (-1) 105) ]
             (mk_server_iter true (RecvFail EAGAIN) (mk_sock_result 0 0))
             []).
  - reflexivity.
  - repeat constructor.
  - reflexivity.
Defined.

(* ================================================================== *)
(** * Further properties of the dispatcher and the requests            *)
(* ================================================================== *)

Ltac crush_handler :=
  unfold_p2p; simpl; split_ifs; simpl in *; clean_options.

(** What one notification does to the peer count and to the peer-found
    semaphore. *)
Lemma event_handler_peer_count :
  forall (U : Type) (ev : net_mgmt_event) (w : p2p_world U),
    peer_count (p2p_ctx (p2p_mgmt_event_handler ev w))
    = match ev with
      | NET_EVENT_WIFI_P2P_DEVICE_FOUND (Some _) =>
          u16 (peer_count (p2p_ctx w) + 1)
      | _ => peer_count (p2p_ctx w)
      end /\
    p2p_find_sem (p2p_mgmt_event_handler ev w)
    = match ev with
      | NET_EVENT_WIFI_P2P_DEVICE_FOUND (Some _) =>
          k_sem_give (p2p_find_sem w)
      | _ => p2p_find_sem w
      end.
Proof.
  intros U ev w. destruct w as [c s1 s2 s3 s4 s5 cb u i l].
  destruct ev as [[p|] | status | status | m | m | ];
    destruct cb; destruct i; crush_handler; split; reflexivity.
Qed.

Lemma count_found_nonneg : forall evs, 0 <= count_found evs.
Proof.
  induction evs as [| ev evs IH]; [simpl; lia |].
  destruct ev as [[p|] | | | | | ]; cbn [count_found]; lia.
Qed.

Lemma dispatch_all_peer_count :
  forall (U : Type) (evs : list net_mgmt_event) (w : p2p_world U),
    0 <= peer_count (p2p_ctx w) < 2 ^ 16 ->
    peer_count (p2p_ctx (dispatch_all evs w))
    = u16 (peer_count (p2p_ctx w) + count_found evs).
Proof.
  intros U evs. induction evs as [| ev evs IH]; intros w Hr.
  - simpl. rewrite Z.add_0_r. unfold u16. rewrite Z.mod_small; [reflexivity | exact Hr].
  - change (dispatch_all (ev :: evs) w)
      with (dispatch_all evs (p2p_mgmt_event_handler ev w)).
    destruct (event_handler_peer_count U ev w) as [Hc _].
    destruct ev as [[p|] | status | status | m | m | ];
      try (rewrite IH; rewrite Hc; [reflexivity | exact Hr]).
    rewrite IH; rewrite Hc.
    + cbn [count_found]. unfold u16.
      rewrite Zplus_mod_idemp_l. f_equal. lia.
    + unfold u16. apply Z.mod_pos_bound. lia.
Qed.

Lemma dispatch_all_find_sem :
  forall (U : Type) (evs : list net_mgmt_event) (w : p2p_world U),
    (count_found evs = 0 ->
     p2p_find_sem (dispatch_all evs w) = p2p_find_sem w) /\
    (sem_signalled (p2p_find_sem w) = true \/ 0 < count_found evs ->
     sem_signalled (p2p_find_sem (dispatch_all evs w)) = true).
Proof.
  intros U evs. induction evs as [| ev evs IH]; intros w.
  - simpl. split; [reflexivity | intros [H | H]; [exact H | lia]].
  - change (dispatch_all (ev :: evs) w)
      with (dispatch_all evs (p2p_mgmt_event_handler ev w)).
    destruct (event_handler_peer_count U ev w) as [_ Hs].
    destruct (IH (p2p_mgmt_event_handler ev w)) as [IH0 IH1].
    pose proof (count_found_nonneg evs) as Hn.
    destruct ev as [[p|] | status | status | m | m | ];
      cbn [count_found]; rewrite Hs in IH0, IH1;
      try (split; [exact IH0 | exact IH1]).
    split; [lia |].
    intros _. apply IH1. left. apply sem_signalled_give.
Qed.

(** Peer counting.  After an accepted wifi_p2p_find, the peer count
    equals the number of peer-found notifications handled since (those
    with a device description; a NULL description is ignored), modulo
    2^16; the peer-found semaphore is signalled as soon as one was
    handled and untouched otherwise. *)
Theorem device_found_counting :
  forall (U : Type) (w : p2p_world U) (timeout_sec : Z)
         (evs : list net_mgmt_event),
    wifi_iface w = true ->
    let w' := dispatch_all evs (snd (wifi_p2p_find timeout_sec 0 w)) in
    peer_count (p2p_ctx w') = count_found evs mod 2 ^ 16 /\
    (0 < count_found evs -> sem_signalled (p2p_find_sem w') = true) /\
    (count_found evs = 0 -> p2p_find_sem w' = p2p_find_sem w).
Proof.
  intros U w timeout_sec evs Hi w'. subst w'.
  assert (Hf : p2p_find_sem (snd (wifi_p2p_find timeout_sec 0 w))
               = p2p_find_sem w /\
               peer_count (p2p_ctx (snd (wifi_p2p_find timeout_sec 0 w))) = 0).
  { unfold wifi_p2p_find. rewrite Hi. destruct w; split; reflexivity. }
  destruct Hf as [Hsem Hcnt].
  destruct (dispatch_all_find_sem U evs
              (snd (wifi_p2p_find timeout_sec 0 w))) as [H0 H1].
  split; [| split].
  - rewrite dispatch_all_peer_count; rewrite Hcnt; [reflexivity | lia].
  - intros Hpos. apply H1. right. exact Hpos.
  - intros Hz. rewrite (H0 Hz). exact Hsem.
Qed.

(** Three peers announced during discovery, with one notification
    lacking its description in between. *)
Lemma device_found_counting_witness :
  let evs := [NET_EVENT_WIFI_P2P_DEVICE_FOUND (Some (nth 0 example_peers no_peer));
              NET_EVENT_WIFI_P2P_DEVICE_FOUND None;
              NET_EVENT_WIFI_P2P_DEVICE_FOUND (Some (nth 1 example_peers no_peer));
              NET_EVENT_WIFI_P2P_DEVICE_FOUND (Some (nth 2 example_peers no_peer))] in
  let w' := dispatch_all evs (snd (wifi_p2p_find 10 0 example_app)) in
  wifi_iface example_app = true /\
  peer_count (p2p_ctx w') = 3 /\
  sem_signalled (p2p_find_sem w') = true.
Proof.
  cbv zeta.
  assert (Hi : wifi_iface example_app = true) by reflexivity.
  split; [exact Hi |].
  pose proof (device_found_counting _ example_app 10
    [NET_EVENT_WIFI_P2P_DEVICE_FOUND (Some (nth 0 example_peers no_peer));
     NET_EVENT_WIFI_P2P_DEVICE_FOUND None;
     NET_EVENT_WIFI_P2P_DEVICE_FOUND (Some (nth 1 example_peers no_peer));
     NET_EVENT_WIFI_P2P_DEVICE_FOUND (Some (nth 2 example_peers no_peer))]
    Hi) as H.
  cbv zeta in H. destruct H as (Hc & Hs & _).
  split; [rewrite Hc; reflexivity |].
  apply Hs. simpl. lia.
Defined.

(** Station tracking on the coordinator.  After a station-connected
    notification the context is connected to that station and the
    station-connected semaphore is signalled; the callback is called
    with PEER_JOINED and then with AP_STA_CONNECTED.  When that station
    leaves, the link is marked down and the address cleared.  Only the
    station that connected last is tracked: once a second station has
    connected, the departure of the first changes nothing. *)
Theorem station_tracking :
  forall (U : Type) (w : p2p_world U) (m1 m2 : mac_addr),
    let joined := handle_ap_sta_connected m1 w in
    let both := handle_ap_sta_connected m2 joined in
    connected (p2p_ctx joined) = true /\
    peer_mac (p2p_ctx joined) = m1 /\
    sem_signalled (p2p_ap_sta_connected_sem joined) = true /\
    (forall cb, user_event_cb w = Some cb ->
       user joined
       = cb WIFI_P2P_EVENT_AP_STA_CONNECTED (p2p_ctx joined)
            (cb WIFI_P2P_EVENT_PEER_JOINED (p2p_ctx joined) (user w))) /\
    connected (p2p_ctx (handle_ap_sta_disconnected m1 joined)) = false /\
    peer_mac (p2p_ctx (handle_ap_sta_disconnected m1 joined)) = mac_zero /\
    (m1 <> m2 ->
     handle_ap_sta_disconnected m1 both = both /\
     connected (p2p_ctx both) = true /\
     peer_mac (p2p_ctx both) = m2).
Proof.
  intros U w m1 m2 joined both. subst joined both.
  assert (E1 : mac_eqb m1 m1 = true) by (apply mac_eqb_eq; reflexivity).
  destruct w as [c s1 s2 s3 s4 s5 cb u i l].
  unfold handle_ap_sta_connected, handle_ap_sta_disconnected,
         notify_user_event.
  destruct cb as [f|]; simpl; rewrite E1; simpl;
    (split; [reflexivity |]); (split; [reflexivity |]);
    (split; [apply sem_signalled_give |]);
    (split; [intros cb H; inversion H; reflexivity |]);
    (split; [reflexivity |]); (split; [reflexivity |]);
    intros Hne;
    assert (E2 : mac_eqb m2 m1 = false)
      by (apply mac_eqb_neq; congruence);
    rewrite E2; repeat split; reflexivity.
Qed.

(** Two stations join and the first one leaves. *)
Lemma station_tracking_witness :
  let both := dispatch_all [NET_EVENT_WIFI_AP_STA_CONNECTED mac_a;
                            NET_EVENT_WIFI_AP_STA_CONNECTED mac_b]
                           (boot_world (Some recording_cb) []) in
  mac_a <> mac_b /\
  handle_ap_sta_disconnected mac_a both = both /\
  peer_mac (p2p_ctx both) = mac_b.
Proof.
  cbv zeta.
  assert (Hne : mac_a <> mac_b) by (unfold mac_a, mac_b; congruence).
  split; [exact Hne |].
  destruct (station_tracking _ (boot_world (Some recording_cb) [])
              mac_a mac_b) as (_ & _ & _ & _ & _ & _ & H).
  destruct (H Hne) as (H1 & _ & H3).
  split; [exact H1 | exact H3].
Defined.

Lemma event_handler_role_go :
  forall (U : Type) (ev : net_mgmt_event) (w : p2p_world U),
    role (p2p_ctx w) = WIFI_P2P_ROLE_GO ->
    role (p2p_ctx (p2p_mgmt_event_handler ev w)) = WIFI_P2P_ROLE_GO.
Proof.
  intros U ev w. destruct w as [c s1 s2 s3 s4 s5 cb u i l].
  destruct c as [st rl pm om pc gi fr gf cn]. simpl. intros ->.
  destruct ev as [[p|] | status | status | m | m | ];
    destruct cb; destruct i; crush_handler; reflexivity.
Qed.

(** The coordinator role is never taken away by a notification: from a
    context whose role is GO, any sequence of notifications leaves the
    role GO (a connect-result success then reports PEER_JOINED instead
    of turning the device into a client). *)
Theorem role_go_sticky :
  forall (U : Type) (evs : list net_mgmt_event) (w : p2p_world U),
    role (p2p_ctx w) = WIFI_P2P_ROLE_GO ->
    role (p2p_ctx (dispatch_all evs w)) = WIFI_P2P_ROLE_GO.
Proof.
  intros U evs. induction evs as [| ev evs IH]; intros w H.
  - exact H.
  - change (dispatch_all (ev :: evs) w)
      with (dispatch_all evs (p2p_mgmt_event_handler ev w)).
    apply IH. apply event_handler_role_go. exact H.
Qed.

(** A coordinator sees its access point come up, a station connect, the
    connect result and the station leave again. *)
Lemma role_go_sticky_witness :
  let w := snd (wifi_p2p_connect (Some mac_b) 15 2437 0 example_app) in
  role (p2p_ctx w) = WIFI_P2P_ROLE_GO /\
  role (p2p_ctx (dispatch_all [NET_EVENT_WIFI_AP_ENABLE_RESULT 0;
                               NET_EVENT_WIFI_AP_STA_CONNECTED mac_b;
                               NET_EVENT_WIFI_CONNECT_RESULT 0;
                               NET_EVENT_WIFI_AP_STA_DISCONNECTED mac_b]
                              w))
  = WIFI_P2P_ROLE_GO.
Proof.
  cbv zeta.
  assert (H : role (p2p_ctx (snd (wifi_p2p_connect (Some mac_b) 15 2437 0
                                                  example_app)))
              = WIFI_P2P_ROLE_GO) by reflexivity.
  split; [exact H |].
  exact (role_go_sticky _ _ _ H).
Defined.

Lemma p2p_step_link_flags :
  forall (U : Type) (op : p2p_op) (w : p2p_world U),
    (state (p2p_ctx w) = WIFI_P2P_STATE_GROUP_FORMED ->
     role (p2p_ctx w) = WIFI_P2P_ROLE_GO /\ group_formed (p2p_ctx w) = true) /\
    (state (p2p_ctx w) = WIFI_P2P_STATE_CONNECTED ->
     group_formed (p2p_ctx w) = true) /\
    (group_formed (p2p_ctx w) = true ->
     role (p2p_ctx w) <> WIFI_P2P_ROLE_UNDETERMINED) ->
    (state (p2p_ctx (p2p_step op w)) = WIFI_P2P_STATE_GROUP_FORMED ->
     role (p2p_ctx (p2p_step op w)) = WIFI_P2P_ROLE_GO /\
     group_formed (p2p_ctx (p2p_step op w)) = true) /\
    (state (p2p_ctx (p2p_step op w)) = WIFI_P2P_STATE_CONNECTED ->
     group_formed (p2p_ctx (p2p_step op w)) = true) /\
    (group_formed (p2p_ctx (p2p_step op w)) = true ->
     role (p2p_ctx (p2p_step op w)) <> WIFI_P2P_ROLE_UNDETERMINED).
Proof.
  intros U op w. destruct w as [c s1 s2 s3 s4 s5 cb u i l].
  destruct c as [st rl pm om pc gi fr gf cn].
  destruct op as [ | t r | r | p it f r | f r | r | ev];
    try (destruct ev as [[p|] | status | status | m | m | ]);
    try destruct p;
    destruct cb; destruct i; destruct rl; destruct gf;
    crush_handler; intros (H1 & H2 & H3);
    (split; [| split]); intros H;
    try discriminate; try (split; reflexivity); try reflexivity;
    try (destruct (H1 H); discriminate);
    try (specialize (H2 H); discriminate);
    try (exfalso; apply (H3 eq_refl); reflexivity);
    try (destruct (H1 H); split; assumption);
    try (apply H2; assumption).
Qed.

(** Link flags in reachable states.  After any trace of operations that
    follows an initialization: state GROUP_FORMED comes with role GO
    and the group-formed flag set; state CONNECTED comes with the
    group-formed flag set; and the group-formed flag is only ever set
    together with a resolved role. *)
Theorem link_flags_invariant :
  forall (U : Type) (w0 : p2p_world U) (ops : list p2p_op),
    let w := p2p_run ops (snd (wifi_p2p_init w0)) in
    (state (p2p_ctx w) = WIFI_P2P_STATE_GROUP_FORMED ->
     role (p2p_ctx w) = WIFI_P2P_ROLE_GO /\ group_formed (p2p_ctx w) = true) /\
    (state (p2p_ctx w) = WIFI_P2P_STATE_CONNECTED ->
     group_formed (p2p_ctx w) = true) /\
    (group_formed (p2p_ctx w) = true ->
     role (p2p_ctx w) <> WIFI_P2P_ROLE_UNDETERMINED).
Proof.
  intros U w0 ops w. subst w.
  destruct (wifi_p2p_init_ctx U w0) as [Hc _].
  revert Hc. generalize (snd (wifi_p2p_init w0)). intros w Hc.
  assert (Hinit :
    (state (p2p_ctx w) = WIFI_P2P_STATE_GROUP_FORMED ->
     role (p2p_ctx w) = WIFI_P2P_ROLE_GO /\ group_formed (p2p_ctx w) = true) /\
    (state (p2p_ctx w) = WIFI_P2P_STATE_CONNECTED ->
     group_formed (p2p_ctx w) = true) /\
    (group_formed (p2p_ctx w) = true ->
     role (p2p_ctx w) <> WIFI_P2P_ROLE_UNDETERMINED)).
  { rewrite Hc. simpl. repeat split; intros; discriminate. }
  clear Hc. revert w Hinit.
  induction ops as [| op ops IH]; intros w Hinv.
  - exact Hinv.
  - change (p2p_run (op :: ops) w) with (p2p_run ops (p2p_step op w)).
    apply IH. apply p2p_step_link_flags. exact Hinv.
Qed.

Lemma k_sem_give_at_rest :
  forall s, sem_at_rest s -> sem_at_rest (k_sem_give s).
Proof.
  intros [n wt] [Hw Hc]. simpl in *. subst wt.
  unfold k_sem_give, sem_at_rest, SEM_LIMIT in *. simpl.
  destruct (Nat.eqb n 1) eqn:E; simpl; split; try reflexivity.
  - exact Hc.
  - apply Nat.eqb_neq in E. lia.
Qed.

Lemma sem_initial_at_rest : sem_at_rest sem_initial.
Proof. unfold sem_at_rest, sem_initial, SEM_LIMIT. simpl. split; [reflexivity | lia]. Qed.

Lemma p2p_step_sems_at_rest :
  forall (U : Type) (op : p2p_op) (w : p2p_world U),
    all_sems sem_at_rest w /\ p2p_go_neg_request_sem w = sem_initial ->
    all_sems sem_at_rest (p2p_step op w) /\
    p2p_go_neg_request_sem (p2p_step op w) = sem_initial.
Proof.
  intros U op w. destruct w as [c s1 s2 s3 s4 s5 cb u i l].
  unfold all_sems. simpl. intros ((H1 & H2 & H3 & H4 & H5) & H6).
  pose proof sem_initial_at_rest as H0.
  pose proof k_sem_give_at_rest as Hg.
  destruct op as [ | t r | r | p it f r | f r | r | ev];
    try (destruct ev as [[p|] | status | status | m | m | ]);
    try destruct p;
    destruct cb; destruct i; crush_handler;
    repeat match goal with |- _ /\ _ => split end;
    auto; try exact H0; try reflexivity.
Qed.

(** The semaphores in reachable states.  After any trace of operations
    that follows an initialization, none of the five semaphores has a
    waiter registered, none holds more than one signal, and the
    negotiation-request semaphore is exactly as initialization left it:
    nothing ever gives it. *)
Theorem semaphores_at_rest :
  forall (U : Type) (w0 : p2p_world U) (ops : list p2p_op),
    let w := p2p_run ops (snd (wifi_p2p_init w0)) in
    all_sems sem_at_rest w /\
    p2p_go_neg_request_sem w = sem_initial /\
    sem_signalled (p2p_go_neg_request_sem w) = false.
Proof.
  intros U w0 ops w. subst w.
  assert (Hinit : all_sems sem_at_rest (snd (wifi_p2p_init w0)) /\
                  p2p_go_neg_request_sem (snd (wifi_p2p_init w0))
                  = sem_initial).
  { destruct w0 as [c s1 s2 s3 s4 s5 cb u i l].
    unfold wifi_p2p_init, bring_iface_up, all_sems. simpl.
    pose proof sem_initial_at_rest as H0.
    destruct i; simpl; repeat match goal with |- _ /\ _ => split end;
      try exact H0; reflexivity. }
  revert Hinit. generalize (snd (wifi_p2p_init w0)).
  induction ops as [| op ops IH]; intros w Hinv.
  - change (p2p_run [] w) with w.
    destruct Hinv as [Ha Hg]. split; [exact Ha |]. split; [exact Hg |].
    rewrite Hg. reflexivity.
  - change (p2p_run (op :: ops) w) with (p2p_run ops (p2p_step op w)).
    apply IH. apply p2p_step_sems_at_rest. exact Hinv.
Qed.

(** Requests that fail.  Whatever a request returns when it does not
    return 0, it leaves the role, the tracked peer, the link flags,
    the semaphores and the callback state as they were.  Without a
    Wi-Fi interface each request returns -ENODEV and changes nothing at
    all; so does a connect request without a peer address (-EINVAL),
    and a stop-find, group-add or group-remove the radio subsystem
    refuses.  A refused find or connect changes the state to ERROR; a
    refused connect has by then recorded the intent and the frequency. *)
Theorem failed_request_frame :
  forall (U : Type) (w : p2p_world U)
         (timeout_sec intent freq ret : Z) (peer : option mac_addr),
    (fst (wifi_p2p_find timeout_sec ret w) <> 0 ->
     request_frame w (snd (wifi_p2p_find timeout_sec ret w))) /\
    (fst (wifi_p2p_connect peer intent freq ret w) <> 0 ->
     request_frame w (snd (wifi_p2p_connect peer intent freq ret w))) /\
    (fst (wifi_p2p_stop_find ret w) <> 0 ->
     snd (wifi_p2p_stop_find ret w) = w) /\
    (fst (wifi_p2p_group_add freq ret w) <> 0 ->
     snd (wifi_p2p_group_add freq ret w) = w) /\
    (fst (wifi_p2p_group_remove ret w) <> 0 ->
     snd (wifi_p2p_group_remove ret w) = w) /\
    (wifi_iface w = false ->
     wifi_p2p_find timeout_sec ret w = (- ENODEV, w) /\
     wifi_p2p_stop_find ret w = (- ENODEV, w) /\
     wifi_p2p_connect peer intent freq ret w = (- ENODEV, w) /\
     wifi_p2p_group_add freq ret w = (- ENODEV, w) /\
     wifi_p2p_group_remove ret w = (- ENODEV, w)) /\
    (wifi_iface w = true ->
     wifi_p2p_connect None intent freq ret w = (- EINVAL, w)) /\
    (wifi_iface w = true -> ret <> 0 ->
     state (p2p_ctx (snd (wifi_p2p_find timeout_sec ret w)))
     = WIFI_P2P_STATE_ERROR /\
     forall m,
       let w' := snd (wifi_p2p_connect (Some m) intent freq ret w) in
       state (p2p_ctx w') = WIFI_P2P_STATE_ERROR /\
       go_intent (p2p_ctx w') = intent /\
       frequency (p2p_ctx w') = freq).
Proof.
  intros U w timeout_sec intent freq ret peer.
  destruct w as [c s1 s2 s3 s4 s5 cb u i l].
  unfold request_frame, wifi_p2p_find, wifi_p2p_connect, wifi_p2p_stop_find,
         wifi_p2p_group_add, wifi_p2p_group_remove.
  simpl.
  destruct (ret =? 0) eqn:Er.
  - apply Z.eqb_eq in Er. subst ret.
    destruct i; destruct peer; simpl; split_ifs; simpl;
      repeat split; try reflexivity; try congruence; try discriminate;
      intros; try congruence; try discriminate.
  - destruct i; destruct peer; simpl;
      repeat split; try reflexivity; try congruence; try discriminate;
      intros; try congruence; try discriminate.
Qed.

(** A device without a Wi-Fi interface: every request comes back with
    -ENODEV and the state as it was. *)
Lemma failed_request_frame_witness :
  let w : p2p_world unit :=
    mk_world ctx_zero sem_initial sem_initial sem_initial sem_initial
             sem_initial None tt false [] in
  wifi_iface w = false /\
  wifi_p2p_find 10 0 w = (- ENODEV, w) /\
  wifi_p2p_connect (Some mac_a) 15 2437 0 w = (- ENODEV, w).
Proof.
  cbv zeta.
  pose proof (failed_request_frame unit
    (mk_world ctx_zero sem_initial sem_initial sem_initial sem_initial
              sem_initial None tt false [])
    10 15 2437 0 (Some mac_a)) as (_ & _ & _ & _ & _ & H & _).
  destruct (H eq_refl) as (H1 & _ & H3 & _).
  split; [reflexivity |]. split; [exact H1 | exact H3].
Defined.

(* ------------------------------------------------------------------ *)
(** ** Waiting on the gates                                            *)
(* ------------------------------------------------------------------ *)

Ltac eval_p2p :=
  cbv [wifi_p2p_wait_for_peer wifi_p2p_wait_for_group_formation
       wifi_p2p_wait_for_connection wifi_p2p_wait_for_ap_sta_connected
       k_sem_take dispatch_all fold_left p2p_mgmt_event_handler
       handle_p2p_device_found handle_p2p_connect_result
       handle_ap_enable_result handle_ap_sta_connected
       handle_ap_sta_disconnected notify_user_event bring_iface_up
       wifi_p2p_find wifi_p2p_stop_find wifi_p2p_connect
       wifi_p2p_group_add wifi_p2p_group_remove
       upd_ctx upd_find_sem upd_connect_sem upd_group_formed_sem
       upd_go_neg_request_sem upd_ap_sta_connected_sem upd_user
       add_link_ops set_state set_role set_peer_mac set_peer_count
       set_go_intent set_frequency set_group_formed set_connected
       k_sem_give k_sem_reset sem_signalled sem_initial SEM_LIMIT
       p2p_ctx p2p_find_sem p2p_connect_sem p2p_group_formed_sem
       p2p_go_neg_request_sem p2p_ap_sta_connected_sem user_event_cb user
       wifi_iface link_ops state role peer_mac own_mac peer_count
       go_intent frequency group_formed connected sem_count sem_wait
       role_eqb state_eqb negb fst snd Nat.ltb Nat.leb Nat.eqb Nat.pred
       Z.eqb Z.ltb Z.leb Z.compare Z.opp Pos.eqb Pos.compare
       Pos.compare_cont CompOpp EAGAIN EBUSY ETIMEDOUT EIO ENODEV EINVAL].

Lemma wifi_p2p_init_eq :
  forall (U : Type) c s1 s2 s3 s4 s5 cb (u : U) i l,
    snd (wifi_p2p_init (mk_world c s1 s2 s3 s4 s5 cb u i l))
    = mk_world ctx_zero sem_initial sem_initial sem_initial sem_initial
               sem_initial cb u i
               (if i then l ++ [NET_IF_UP; NET_IF_CARRIER_ON;
                                NET_IF_DORMANT_OFF]
                else l).
Proof.
  intros U c s1 s2 s3 s4 s5 cb u i l.
  destruct i; vm_compute; reflexivity.
Qed.

(** Waiting right after initialization.  With a timeout other than zero
    and no notification arriving, each of the four wait functions
    returns -ETIMEDOUT and leaves the module state as initialization
    left it.  With a timeout of zero the semaphore is polled
    (k_sem_take returns -EBUSY, not -EAGAIN), and the wait functions
    then return 0 although nothing was signalled. *)
Theorem wait_after_init :
  forall (U : Type) (w : p2p_world U) (timeout_ms : Z)
         (evs : list net_mgmt_event),
    timeout_ms <> 0 ->
    let wi := snd (wifi_p2p_init w) in
    wifi_p2p_wait_for_peer timeout_ms [] wi = (- ETIMEDOUT, wi) /\
    wifi_p2p_wait_for_group_formation timeout_ms [] wi = (- ETIMEDOUT, wi) /\
    wifi_p2p_wait_for_connection timeout_ms [] wi = (- ETIMEDOUT, wi) /\
    wifi_p2p_wait_for_ap_sta_connected timeout_ms [] wi
    = (- ETIMEDOUT, wi) /\
    wifi_p2p_wait_for_peer 0 evs wi = (0, wi) /\
    wifi_p2p_wait_for_group_formation 0 evs wi = (0, wi) /\
    wifi_p2p_wait_for_connection 0 evs wi = (0, wi) /\
    wifi_p2p_wait_for_ap_sta_connected 0 evs wi = (0, wi).
Proof.
  intros U w timeout_ms evs Ht wi. subst wi.
  apply Z.eqb_neq in Ht.
  destruct w as [c s1 s2 s3 s4 s5 cb u i l].
  rewrite wifi_p2p_init_eq.
  unfold wifi_p2p_wait_for_peer, wifi_p2p_wait_for_group_formation,
         wifi_p2p_wait_for_connection, wifi_p2p_wait_for_ap_sta_connected,
         k_sem_take.
  simpl. rewrite Ht. simpl. repeat split; reflexivity.
Qed.

Lemma wait_after_init_witness :
  let wi := snd (wifi_p2p_init (boot_world (Some recording_cb) [])) in
  30000 <> 0 /\
  wifi_p2p_wait_for_group_formation 30000 [] wi = (- ETIMEDOUT, wi).
Proof.
  cbv zeta. assert (H : 30000 <> 0) by lia. split; [exact H |].
  exact (proj1 (proj2 (wait_after_init _ (boot_world (Some recording_cb) [])
                          30000 [] H))).
Defined.

(** The group-formation gate, one notification at a time.  The caller
    blocks on the empty semaphore with a timeout other than zero while
    exactly one notification is handled: an access-point-enable success
    or a connect-result success ends the wait with 0; an
    access-point-enable failure ends it with -EIO; a connect-result
    failure ends it with -EIO unless the state is CONNECTING, in which
    case the wait times out and nothing has changed; a peer-found or a
    station notification lets the wait time out.  In the two
    successful cases the signal is used up by the wake-up. *)
Theorem group_formation_wait_outcomes :
  forall (U : Type) (w : p2p_world U) (timeout_ms status : Z)
         (info : option wifi_p2p_device_info) (m : mac_addr),
    p2p_group_formed_sem w = sem_initial ->
    timeout_ms <> 0 ->
    status <> 0 ->
    let wait ev := wifi_p2p_wait_for_group_formation timeout_ms [ev] w in
    (fst (wait (NET_EVENT_WIFI_AP_ENABLE_RESULT 0)) = 0 /\
     state (p2p_ctx (snd (wait (NET_EVENT_WIFI_AP_ENABLE_RESULT 0))))
     = WIFI_P2P_STATE_GROUP_FORMED /\
     p2p_group_formed_sem (snd (wait (NET_EVENT_WIFI_AP_ENABLE_RESULT 0)))
     = sem_initial) /\
    (fst (wait (NET_EVENT_WIFI_CONNECT_RESULT 0)) = 0 /\
     state (p2p_ctx (snd (wait (NET_EVENT_WIFI_CONNECT_RESULT 0))))
     = WIFI_P2P_STATE_CONNECTED /\
     p2p_group_formed_sem (snd (wait (NET_EVENT_WIFI_CONNECT_RESULT 0)))
     = sem_initial) /\
    fst (wait (NET_EVENT_WIFI_AP_ENABLE_RESULT status)) = - EIO /\
    (state (p2p_ctx w) = WIFI_P2P_STATE_CONNECTING ->
     wait (NET_EVENT_WIFI_CONNECT_RESULT status) = (- ETIMEDOUT, w)) /\
    (state (p2p_ctx w) <> WIFI_P2P_STATE_CONNECTING ->
     fst (wait (NET_EVENT_WIFI_CONNECT_RESULT status)) = - EIO) /\
    fst (wait (NET_EVENT_WIFI_P2P_DEVICE_FOUND info)) = - ETIMEDOUT /\
    fst (wait (NET_EVENT_WIFI_AP_STA_CONNECTED m)) = - ETIMEDOUT /\
    fst (wait (NET_EVENT_WIFI_AP_STA_DISCONNECTED m)) = - ETIMEDOUT.
Proof.
  intros U w timeout_ms status info m Hs Ht Hst wait. subst wait.
  apply Z.eqb_neq in Ht. apply Z.eqb_neq in Hst.
  destruct w as [c s1 s2 s3 s4 s5 cb u i l]. simpl in Hs. subst s3.
  destruct c as [st rl pm om pc gi fr gf cn].
  unfold wifi_p2p_wait_for_group_formation, k_sem_take, dispatch_all.
  simpl. rewrite Ht. simpl.
  unfold handle_p2p_connect_result, handle_ap_enable_result,
         handle_p2p_device_found, handle_ap_sta_connected,
         handle_ap_sta_disconnected, notify_user_event, bring_iface_up.
  simpl. rewrite Hst.
  repeat match goal with |- _ /\ _ => split end.
  - destruct cb; destruct i; reflexivity.
  - destruct cb; destruct i; reflexivity.
  - destruct cb; destruct i; reflexivity.
  - destruct cb; destruct rl; reflexivity.
  - destruct cb; destruct rl; reflexivity.
  - destruct cb; destruct rl; reflexivity.
  - destruct cb; reflexivity.
  - intros ->. reflexivity.
  - intros Hn. apply state_eqb_neq in Hn. simpl. rewrite Hn.
    destruct cb; reflexivity.
  - destruct info; destruct cb; reflexivity.
  - destruct cb; reflexivity.
  - destruct (mac_eqb pm m); destruct cb; reflexivity.
Qed.

(** The orchestrator waits on a fresh context in state CONNECTING. *)
Lemma group_formation_wait_outcomes_witness :
  let w := snd (wifi_p2p_connect (Some mac_b) 7 2437 0 example_app) in
  p2p_group_formed_sem w = sem_initial /\
  30000 <> 0 /\ -1 <> 0 /\
  state (p2p_ctx w) = WIFI_P2P_STATE_CONNECTING /\
  wifi_p2p_wait_for_group_formation 30000
    [NET_EVENT_WIFI_CONNECT_RESULT (-1)] w = (- ETIMEDOUT, w) /\
  fst (wifi_p2p_wait_for_group_formation 30000
         [NET_EVENT_WIFI_AP_ENABLE_RESULT 0] w) = 0.
Proof.
  cbv zeta.
  assert (Hs : p2p_group_formed_sem
                 (snd (wifi_p2p_connect (Some mac_b) 7 2437 0 example_app))
               = sem_initial) by reflexivity.
  assert (Ht : 30000 <> 0) by lia.
  assert (Hst : -1 <> 0) by lia.
  pose proof (group_formation_wait_outcomes _ _ 30000 (-1) None mac_a
                Hs Ht Hst) as H.
  cbv zeta in H. destruct H as ((H1 & _) & _ & _ & H4 & _).
  split; [exact Hs |]. split; [exact Ht |]. split; [exact Hst |].
  split; [reflexivity |]. split; [exact (H4 eq_refl) | exact H1].
Defined.

(** Signals are kept between waits.  When the access-point-enable
    success and the connect-result success both arrive during one
    group-formation wait, the first wakes the caller and the second is
    stored in the semaphore.  Nothing but wifi_p2p_init clears it: after
    a later connect call the next group-formation wait returns 0 at
    once, with the state still CONNECTING and no notification handled. *)
Theorem stored_signal_ends_next_wait :
  forall (U : Type) (w : p2p_world U) (timeout_ms timeout2 intent freq : Z)
         (m : mac_addr) (evs : list net_mgmt_event),
    wifi_iface w = true ->
    p2p_group_formed_sem w = sem_initial ->
    timeout_ms <> 0 ->
    let first := wifi_p2p_wait_for_group_formation timeout_ms
                   [NET_EVENT_WIFI_AP_ENABLE_RESULT 0;
                    NET_EVENT_WIFI_CONNECT_RESULT 0] w in
    let again := snd (wifi_p2p_connect (Some m) intent freq 0 (snd first)) in
    let second := wifi_p2p_wait_for_group_formation timeout2 evs again in
    fst first = 0 /\
    sem_count (p2p_group_formed_sem (snd first)) = 1%nat /\
    sem_count (p2p_group_formed_sem again) = 1%nat /\
    fst second = 0 /\
    p2p_ctx (snd second) = p2p_ctx again /\
    state (p2p_ctx (snd second)) = WIFI_P2P_STATE_CONNECTING /\
    user (snd second) = user again.
Proof.
  intros U w timeout_ms timeout2 intent freq m evs Hi Hs Ht
         first again second.
  apply Z.eqb_neq in Ht.
  destruct w as [c s1 s2 s3 s4 s5 cb u i l]. simpl in Hi, Hs. subst i s3.
  destruct c as [st rl pm om pc gi fr gf cn].
  destruct cb as [f|].
  all: assert (Hfirst : exists u',
             first
             = (0, mk_world (mk_context WIFI_P2P_STATE_CONNECTED
                               WIFI_P2P_ROLE_GO pm om pc gi fr true true)
                            s1 (k_sem_give s2) (mk_sem 1 NoWaiter) s4 s5
                            (user_event_cb
                               (mk_world (mk_context st rl pm om pc gi fr
                                                     gf cn)
                                         s1 s2 sem_initial s4 s5 _ u true l))
                            u' true
                            (l ++ [NET_IF_UP; NET_IF_CARRIER_ON;
                                   NET_IF_DORMANT_OFF])))
    by (subst first;
        unfold wifi_p2p_wait_for_group_formation, k_sem_take;
        cbn [p2p_group_formed_sem sem_initial sem_count Nat.ltb Nat.leb];
        rewrite Ht; eval_p2p; eexists; reflexivity).
  all: destruct Hfirst as [u' Hfirst].
  all: subst second again; rewrite Hfirst; clear Hfirst first.
  all: unfold wifi_p2p_connect; cbn [snd wifi_iface negb user_event_cb].
  all: destruct (intent =? 15); destruct (intent =? 0);
    change (0 =? 0) with true; eval_p2p; repeat split; reflexivity.
Qed.

Lemma stored_signal_ends_next_wait_witness :
  let first := wifi_p2p_wait_for_group_formation 30000
                 [NET_EVENT_WIFI_AP_ENABLE_RESULT 0;
                  NET_EVENT_WIFI_CONNECT_RESULT 0] example_app in
  let again := snd (wifi_p2p_connect (Some mac_a) 15 2437 0 (snd first)) in
  wifi_iface example_app = true /\
  p2p_group_formed_sem example_app = sem_initial /\
  30000 <> 0 /\
  fst (wifi_p2p_wait_for_group_formation 30000 [] again) = 0.
Proof.
  cbv zeta.
  assert (Ht : 30000 <> 0) by lia.
  pose proof (stored_signal_ends_next_wait _ example_app 30000 30000 15 2437
                mac_a [] eq_refl eq_refl Ht) as H.
  cbv zeta in H. destruct H as (_ & _ & _ & H4 & _).
  split; [reflexivity |]. split; [reflexivity |]. split; [exact Ht |].
  exact H4.
Defined.

(* ------------------------------------------------------------------ *)
(** ** Looking a peer up by address                                    *)
(* ------------------------------------------------------------------ *)

Lemma find_peer_loop_found :
  forall peers filter_mac remaining i r,
    find_peer_loop peers filter_mac i remaining = Some r ->
    (i <= r < i + remaining)%nat /\
    (exists p, nth_error peers r = Some p /\ mac p = filter_mac) /\
    (forall j q, (i <= j < r)%nat -> nth_error peers j = Some q ->
                 mac q <> filter_mac).
Proof.
  intros peers filter_mac remaining.
  induction remaining as [| n IH]; intros i r H; simpl in H.
  - discriminate.
  - destruct (nth_error peers i) as [p|] eqn:Hp; [| discriminate].
    destruct (mac_eqb (mac p) filter_mac) eqn:E.
    + inversion H; subst r. apply mac_eqb_eq in E.
      split; [lia |]. split; [exists p; split; assumption |].
      intros j q Hj. lia.
    + apply mac_eqb_neq in E.
      destruct (IH _ _ H) as (Hr & Hp' & Hbefore).
      split; [lia |]. split; [exact Hp' |].
      intros j q Hj Hq.
      destruct (Nat.eq_dec j i) as [-> | Hne].
      * rewrite Hp in Hq. inversion Hq; subst. exact E.
      * apply (Hbefore j q); [lia | exact Hq].
Qed.

Lemma find_peer_loop_finds :
  forall peers filter_mac remaining i j p,
    (i <= j < i + remaining)%nat ->
    nth_error peers j = Some p ->
    mac p = filter_mac ->
    exists r, find_peer_loop peers filter_mac i remaining = Some r.
Proof.
  intros peers filter_mac remaining.
  induction remaining as [| n IH]; intros i j p Hj Hp Hm; simpl.
  - lia.
  - destruct (nth_error peers i) as [q|] eqn:Hq.
    + destruct (mac_eqb (mac q) filter_mac) eqn:E.
      * exists i. reflexivity.
      * assert (j <> i).
        { intros ->. rewrite Hp in Hq. inversion Hq; subst.
          apply mac_eqb_neq in E. contradiction. }
        apply (IH (S i) j p); [lia | exact Hp | exact Hm].
    + exfalso. apply nth_error_None in Hq.
      assert (nth_error peers j <> None) by congruence.
      apply nth_error_Some in H. lia.
Qed.

(** Lookup by address.  With a non-empty filter that parses to an
    address carried by one of the first [peer_count] peers,
    wifi_p2p_find_peer_by_mac returns the first such peer: its address
    equals the parsed filter and no peer before it has that address. *)
Theorem find_peer_by_mac_first_match :
  forall (sscanf_mac : string -> list Z)
         (peers : list wifi_p2p_device_info) (peer_count : Z)
         (filter : string) (m : mac_addr) (j : nat)
         (p : wifi_p2p_device_info),
    str_is_empty filter = false ->
    parse_mac_address sscanf_mac filter = Some m ->
    (j < Z.to_nat peer_count)%nat ->
    nth_error peers j = Some p ->
    mac p = m ->
    exists i q,
      wifi_p2p_find_peer_by_mac sscanf_mac (Some peers) peer_count
                                (Some filter) = Some i /\
      (i <= j)%nat /\
      nth_error peers i = Some q /\
      mac q = m /\
      (forall k q', (k < i)%nat -> nth_error peers k = Some q' ->
                    mac q' <> m).
Proof.
  intros sscanf_mac peers peer_count filter m j p Hne Hparse Hj Hp Hm.
  unfold wifi_p2p_find_peer_by_mac.
  assert (Hc : (peer_count =? 0) = false) by (apply Z.eqb_neq; lia).
  rewrite Hc, Hne, Hparse.
  destruct (find_peer_loop_finds peers m (Z.to_nat peer_count) 0 j p
              ltac:(lia) Hp Hm) as [r Hr].
  destruct (find_peer_loop_found _ _ _ _ _ Hr) as (Hrange & (q & Hq & Hmq) & Hbefore).
  exists r, q. split; [exact Hr |].
  split.
  - destruct (Nat.le_gt_cases r j) as [Hle | Hgt]; [exact Hle |].
    exfalso. apply (Hbefore j p); [lia | exact Hp | exact Hm].
  - split; [exact Hq |]. split; [exact Hmq |].
    intros k q' Hk. apply Hbefore. lia.
Qed.

(** Two of three listed peers carry the address the filter names; the
    earlier one is returned. *)
Lemma find_peer_by_mac_first_match_witness :
  let target := Mac 0xaa 0xbb 0xcc 0xdd 0xee 0xff in
  let peers := [mk_device_info mac_a "peer-1" (-40);
                mk_device_info target "peer-2" (-70);
                mk_device_info target "peer-3" (-30)] in
  parse_mac_address example_sscanf "aa:bb:cc:dd:ee:ff" = Some target /\
  wifi_p2p_find_peer_by_mac example_sscanf (Some peers) 3
                            (Some "aa:bb:cc:dd:ee:ff"%string) = Some 1%nat.
Proof.
  cbv zeta. split; [reflexivity |].
  destruct (find_peer_by_mac_first_match example_sscanf
              [mk_device_info mac_a "peer-1" (-40);
               mk_device_info (Mac 0xaa 0xbb 0xcc 0xdd 0xee 0xff) "peer-2" (-70);
               mk_device_info (Mac 0xaa 0xbb 0xcc 0xdd 0xee 0xff) "peer-3" (-30)]
              3 "aa:bb:cc:dd:ee:ff" (Mac 0xaa 0xbb 0xcc 0xdd 0xee 0xff)
              2%nat
              (mk_device_info (Mac 0xaa 0xbb 0xcc 0xdd 0xee 0xff) "peer-3" (-30))
              eq_refl eq_refl ltac:(simpl; lia) eq_refl eq_refl)
    as (i & q & Hfind & _).
  rewrite Hfind. vm_compute in Hfind. symmetry. exact Hfind.
Defined.

(* ================================================================== *)
(** * Further properties of the echo engine                            *)
(* ================================================================== *)

Lemma u32_range : forall x, 0 <= u32 x < 2 ^ 32.
Proof. intros x. unfold u32. apply Z.mod_pos_bound. lia. Qed.

(** One ping.  udp_echo_ping never returns 0.  It returns a positive
    byte count exactly when the send did not fail and the receive
    delivered at least one byte; the round-trip time it then stores is
    the uptime difference in milliseconds times 1000, truncated to 32
    bits, hence a whole number of milliseconds for any wait shorter
    than 2^32 microseconds.  Otherwise it stores nothing: a failed send
    is reported with its negated errno without a receive being
    attempted, and a receive that times out (EAGAIN) or delivers an
    empty datagram is reported as -ETIMEDOUT. *)
Theorem udp_echo_ping_outcomes :
  forall (e : ping_env) (rtt0 : Z),
    sock_result_ok (ping_sendto e) ->
    sock_result_ok (ping_recvfrom e) ->
    let ret := fst (udp_echo_ping e rtt0) in
    let rtt := snd (udp_echo_ping e rtt0) in
    ret <> 0 /\
    (0 < ret <->
     0 <= sock_ret (ping_sendto e) /\ 0 < sock_ret (ping_recvfrom e)) /\
    (0 < ret ->
     ret = sock_ret (ping_recvfrom e) /\
     rtt = u32 ((end_time e - start_time e) * 1000) /\
     0 <= rtt < 2 ^ 32) /\
    (0 < ret ->
     0 <= (end_time e - start_time e) * 1000 < 2 ^ 32 ->
     rtt = (end_time e - start_time e) * 1000 /\ rtt mod 1000 = 0) /\
    (ret < 0 -> rtt = rtt0) /\
    (sock_ret (ping_sendto e) < 0 -> ret = - sock_errno (ping_sendto e)) /\
    (0 <= sock_ret (ping_sendto e) ->
     sock_ret (ping_recvfrom e) = 0 \/
     (sock_ret (ping_recvfrom e) < 0 /\
      sock_errno (ping_recvfrom e) = EAGAIN) ->
     ret = - ETIMEDOUT).
Proof.
  intros e rtt0 Hs Hr ret rtt. subst ret rtt.
  unfold sock_result_ok in *.
  pose proof (u32_range ((end_time e - start_time e) * 1000)) as Hu.
  unfold udp_echo_ping, udp_send, udp_receive, EWOULDBLOCK, EAGAIN,
         ETIMEDOUT in *.
  destruct e as [t0 [sr se] [rr re] t1]; simpl in *.
  destruct (Z.ltb_spec sr 0) as [Hsr | Hsr].
  - specialize (Hs Hsr).
    destruct (Z.ltb_spec (- se) 0) as [H1 | H1]; [| lia].
    simpl. repeat split; intros; try lia.
  - destruct (Z.ltb_spec sr 0) as [H1 | _]; [lia |].
    destruct (Z.ltb_spec rr 0) as [Hrr | Hrr].
    + specialize (Hr Hrr).
      destruct (Z.eqb_spec re 11) as [He | He]; simpl.
      * repeat split; intros; try lia.
      * destruct (Z.leb_spec (- re) 0) as [H2 | H2]; [| lia].
        destruct (Z.eqb_spec (- re) 0) as [H3 | H3]; [lia |].
        simpl. repeat split; intros; try lia.
    + destruct (Z.leb_spec rr 0) as [H2 | H2].
      * destruct (Z.eqb_spec rr 0) as [H3 | H3]; [| lia].
        simpl. repeat split; intros; try lia.
      * simpl. repeat split; intros; try lia.
        -- change (Z.pow_pos 2 32) with (2 ^ 32) in *.
           unfold u32. apply Z.mod_small. lia.
        -- change (Z.pow_pos 2 32) with (2 ^ 32) in *.
           unfold u32. rewrite (Z.mod_small _ (2 ^ 32)) by lia.
           apply Z.mod_mul. lia.
Qed.

(** A reply of 64 bytes that takes 10 ms. *)
Lemma udp_echo_ping_outcomes_witness :
  sock_result_ok (ping_sendto (ping_reply 1000 10 64)) /\
  sock_result_ok (ping_recvfrom (ping_reply 1000 10 64)) /\
  udp_echo_ping (ping_reply 1000 10 64) 0 = (64, 10000) /\
  fst (udp_echo_ping (ping_reply 1000 10 64) 0) <> 0.
Proof.
  assert (Hs : sock_result_ok (ping_sendto (ping_reply 1000 10 64)))
    by (unfold sock_result_ok; simpl; lia).
  assert (Hr : sock_result_ok (ping_recvfrom (ping_reply 1000 10 64)))
    by (unfold sock_result_ok; simpl; lia).
  pose proof (udp_echo_ping_outcomes (ping_reply 1000 10 64) 0 Hs Hr) as H.
  cbv zeta in H. destruct H as (Hne & _).
  split; [exact Hs |]. split; [exact Hr |]. split; [reflexivity | exact Hne].
Defined.

Lemma udp_echo_ping_rtt_range :
  forall e rtt0,
    0 < fst (udp_echo_ping e rtt0) ->
    0 <= snd (udp_echo_ping e rtt0) < 2 ^ 32.
Proof.
  intros e rtt0. unfold udp_echo_ping, ETIMEDOUT.
  pose proof (u32_range ((end_time e - start_time e) * 1000)) as Hu.
  destruct (Z.ltb_spec (udp_send (ping_sendto e)) 0);
    cbn [fst snd]; [lia |].
  destruct (Z.leb_spec (udp_receive (ping_recvfrom e)) 0);
    cbn [fst snd]; [| intros _; exact Hu].
  destruct (Z.eqb_spec (udp_receive (ping_recvfrom e)) 0);
    cbn [fst snd]; lia.
Qed.

Lemma client_stats_ok_mono :
  forall n m s, (n <= m)%nat -> client_stats_ok n s -> client_stats_ok m s.
Proof.
  unfold client_stats_ok. intros n m s Hnm H.
  destruct H as (H1 & H2 & H3 & H4 & H5 & H6).
  repeat match goal with |- _ /\ _ => split end; auto. lia.
Qed.

Lemma client_stats_ok_reset :
  client_stats_ok 0 (mk_stats 0 0 0 0 0 UINT32_MAX 0 0 0).
Proof.
  unfold client_stats_ok; cbn [packets_sent packets_received packets_lost
    rtt_min_us rtt_max_us rtt_avg_us rtt_total_us].
  repeat match goal with |- _ /\ _ => split end; try lia; try reflexivity.
Qed.

(** The accounting of one pass keeps the invariant, as long as the
    32-bit packet counters cannot wrap. *)
Lemma client_account_stats_ok :
  forall n packet_size ret rtt s,
    client_stats_ok n s ->
    Z.of_nat n + 1 < 2 ^ 32 ->
    (0 < ret -> 0 <= rtt < 2 ^ 32) ->
    client_stats_ok (S n) (client_account packet_size ret rtt s).
Proof.
  intros n ps ret rtt s Hok Hn Hrtt.
  destruct Hok as (Hr & Hl & Hsum & Hle & Hnone & Hsome).
  unfold client_account.
  destruct (Z.ltb_spec 0 ret) as [Hret | Hret].
  - specialize (Hrtt Hret).
    assert (Hrec : u32 (packets_received s + 1) = packets_received s + 1)
      by (apply u32_small; lia).
    assert (Hsent : u32 (packets_sent s + 1) = packets_sent s + 1)
      by (apply u32_small; lia).
    rewrite Hrec, Hsent.
    destruct (Z.eq_dec (packets_received s) 0) as [Hz | Hnz].
    + destruct (Hnone Hz) as (Hmin & Hmax & Havg & Htot).
      rewrite Hz, Hmax, Htot. cbn [Z.add Z.eqb Pos.eqb orb].
      assert (Hgt : (if rtt >? 0 then rtt else 0) = rtt).
      { rewrite Z.gtb_ltb. destruct (Z.ltb_spec 0 rtt); lia. }
      rewrite Hgt.
      assert (H64 : u64 rtt = rtt).
      { unfold u64. apply Z.mod_small.
        assert (2 ^ 32 < 2 ^ 64) by (apply Z.pow_lt_mono_r; lia). lia. }
      rewrite H64, Z.div_1_r, (u32_small rtt) by lia.
      unfold client_stats_ok;
        cbn [packets_sent packets_received packets_lost
             rtt_min_us rtt_max_us rtt_avg_us rtt_total_us].
      repeat match goal with |- _ /\ _ => split end; try lia.
      intros _.
      repeat match goal with |- _ /\ _ => split end; try lia.
      rewrite Z.div_1_r. reflexivity.
    + assert (Hpos : 0 < packets_received s) by lia.
      destruct (Hsome Hpos) as (Hmin0 & Hminmax & Hmaxlt & Hlo & Hhi & Havg).
      assert (Hne1 : (packets_received s + 1 =? 1) = false)
        by (apply Z.eqb_neq; lia).
      rewrite Hne1. cbn [orb].
      set (rmin := if rtt <? rtt_min_us s then rtt else rtt_min_us s).
      set (rmax := if rtt >? rtt_max_us s then rtt else rtt_max_us s).
      assert (Hrmin : rmin <= rtt /\ rmin <= rtt_min_us s /\ 0 <= rmin).
      { subst rmin. destruct (Z.ltb_spec rtt (rtt_min_us s)); lia. }
      assert (Hrmax : rtt <= rmax /\ rtt_max_us s <= rmax /\ rmax < 2 ^ 32).
      { subst rmax. rewrite Z.gtb_ltb.
        destruct (Z.ltb_spec (rtt_max_us s) rtt); lia. }
      destruct Hrmin as (Hm1 & Hm2 & Hm3).
      destruct Hrmax as (Hx1 & Hx2 & Hx3).
      assert (Hlo' : (packets_received s + 1) * rmin
                     <= rtt_total_us s + rtt).
      { assert (packets_received s * rmin
                <= packets_received s * rtt_min_us s)
          by (apply Z.mul_le_mono_nonneg_l; lia).
        lia. }
      assert (Hhi' : rtt_total_us s + rtt
                     <= (packets_received s + 1) * rmax).
      { assert (packets_received s * rtt_max_us s
                <= packets_received s * rmax)
          by (apply Z.mul_le_mono_nonneg_l; lia).
        lia. }
      assert (Htot0 : 0 <= rtt_total_us s).
      { assert (0 <= packets_received s * rtt_min_us s)
          by (apply Z.mul_nonneg_nonneg; lia).
        lia. }
      assert (H64 : u64 (rtt_total_us s + rtt) = rtt_total_us s + rtt).
      { unfold u64. apply Z.mod_small. split; [lia |].
        assert ((packets_received s + 1) * rmax <= 2 ^ 32 * 2 ^ 32).
        { apply Z.mul_le_mono_nonneg; lia. }
        assert ((packets_received s + 1) * rmax
                < (packets_received s + 1) * 2 ^ 32).
        { apply Z.mul_lt_mono_pos_l; lia. }
        assert ((packets_received s + 1) * 2 ^ 32 <= 2 ^ 32 * 2 ^ 32).
        { apply Z.mul_le_mono_nonneg_r; lia. }
        change (2 ^ 64) with (2 ^ 32 * 2 ^ 32). lia. }
      rewrite H64.
      assert (Hq : 0 <= (rtt_total_us s + rtt) / (packets_received s + 1)
                   <= rmax).
      { split.
        - apply Z.div_pos; lia.
        - apply Z.div_le_upper_bound; lia. }
      rewrite (u32_small ((rtt_total_us s + rtt) / (packets_received s + 1)))
        by lia.
      unfold client_stats_ok;
        cbn [packets_sent packets_received packets_lost
             rtt_min_us rtt_max_us rtt_avg_us rtt_total_us].
      repeat match goal with |- _ /\ _ => split end; lia.
  - destruct (Z.eqb_spec ret (- ETIMEDOUT)) as [Ht | Ht].
    + rewrite (u32_small (packets_sent s + 1)) by lia.
      rewrite (u32_small (packets_lost s + 1)) by lia.
      unfold client_stats_ok;
        cbn [packets_sent packets_received packets_lost
             rtt_min_us rtt_max_us rtt_avg_us rtt_total_us].
      repeat match goal with |- _ /\ _ => split end; auto; try lia.
    + apply (client_stats_ok_mono n); [lia |].
      unfold client_stats_ok.
      repeat match goal with |- _ /\ _ => split end; auto.
Qed.

Lemma client_loop_stats_ok :
  forall env packet_size count seq_num rtt n s reason s',
    client_stats_ok n s ->
    Z.of_nat (n + List.length env) < 2 ^ 32 ->
    client_loop packet_size count env seq_num rtt (Some s)
      = Some (reason, Some s') ->
    client_stats_ok (n + List.length env) s'.
Proof.
  induction env as [| it rest IH];
    intros ps count seq rtt n s reason s' Hok Hn Hrun.
  - discriminate Hrun.
  - cbn [client_loop] in Hrun. cbn [List.length] in *.
    destruct (client_stop_read it).
    + inversion Hrun; subst. apply (client_stats_ok_mono n); [lia | exact Hok].
    + destruct ((0 <? count) && (count <=? seq))%bool.
      * inversion Hrun; subst.
        apply (client_stats_ok_mono n); [lia | exact Hok].
      * pose proof (udp_echo_ping_rtt_range (client_ping it) rtt) as Hr.
        destruct (udp_echo_ping (client_ping it) rtt) as [ret rtt'].
        cbn [fst snd] in Hr.
        replace (n + S (List.length rest))%nat
          with (S n + List.length rest)%nat by lia.
        eapply IH; [| | exact Hrun].
        -- apply client_account_stats_ok; [exact Hok | lia | exact Hr].
        -- lia.
Qed.

(** The statistics a client run leaves behind.  After
    udp_echo_client_run has returned from a run of fewer than 2^32
    passes on freshly reset statistics, the counters add up (sent =
    received + lost, at most one packet per pass); with no reply
    received the RTT fields are still those of the reset (minimum
    UINT32_MAX, maximum 0, average 0); with at least one reply the
    average is the total divided by the number of replies and lies
    between the minimum and the maximum.  The loss percentage that
    udp_echo_print_stats then reports is between 0 and 100, and is
    missing exactly when nothing was sent. *)
Theorem client_statistics_invariant :
  forall (buffer_size packet_size count : Z) (env : list client_iter)
         (s0 s : udp_echo_stats) (reason : exit_reason),
    Z.of_nat (List.length env) < 2 ^ 32 ->
    udp_echo_client_run buffer_size packet_size count
      (udp_echo_reset_stats (Some s0)) env = Some (reason, Some s) ->
    client_stats_ok (List.length env) s /\
    (0 < packets_received s ->
     rtt_min_us s <= rtt_avg_us s <= rtt_max_us s) /\
    (exists rep,
       udp_echo_print_stats (Some s) = Some rep /\
       (packets_sent s = 0 -> rep_loss_pct rep = None) /\
       (0 < packets_sent s ->
        exists p, rep_loss_pct rep = Some p /\ 0 <= p <= 100 /\
                  (packets_lost s * 100 < 2 ^ 32 ->
                   p = packets_lost s * 100 / packets_sent s))).
Proof.
  intros bs ps count env s0 s reason Hlen Hrun.
  unfold udp_echo_client_run, udp_echo_reset_stats in Hrun.
  apply (client_loop_stats_ok env _ count 0 0 0%nat) in Hrun;
    [| exact client_stats_ok_reset | exact Hlen].
  cbn [Nat.add] in Hrun.
  split; [exact Hrun |].
  destruct Hrun as (Hr & Hl & Hsum & Hle & Hnone & Hsome).
  split.
  - intros Hpos.
    destruct (Hsome Hpos) as (Hmin0 & Hminmax & Hmaxlt & Hlo & Hhi & Havg).
    rewrite Havg. split.
    + apply Z.div_le_lower_bound; lia.
    + apply Z.div_le_upper_bound; lia.
  - unfold udp_echo_print_stats. eexists. split; [reflexivity |].
    cbn [rep_loss_pct]. split.
    + intros Hz. rewrite Hz. reflexivity.
    + intros Hpos.
      destruct (Z.ltb_spec 0 (packets_sent s)) as [_ | Hc]; [| lia].
      eexists. split; [reflexivity |].
      pose proof (u32_range (packets_lost s * 100)) as Hu.
      assert (Hmod : u32 (packets_lost s * 100) <= packets_lost s * 100).
      { unfold u32. apply Z.mod_le; lia. }
      split; [split |].
      * apply Z.div_pos; lia.
      * apply Z.div_le_upper_bound; lia.
      * intros Hfit. rewrite u32_small by lia. reflexivity.
Qed.

(** A reply, a timeout and a failed send, then the count check. *)
Lemma client_statistics_invariant_witness :
  Z.of_nat (List.length
              (client_script [ping_reply 1000 10 64; ping_timeout 4000;
                              ping_send_error 7000 113])) < 2 ^ 32 /\
  exists s,
    udp_echo_client_run 128 64 3 (udp_echo_reset_stats (Some stats_zero))
      (client_script [ping_reply 1000 10 64; ping_timeout 4000;
                      ping_send_error 7000 113])
      = Some (ExitCount, Some s) /\
    client_stats_ok 4 s.
Proof.
  assert (Hlen : Z.of_nat (List.length
              (client_script [ping_reply 1000 10 64; ping_timeout 4000;
                              ping_send_error 7000 113])) < 2 ^ 32)
    by (vm_compute; reflexivity).
  split; [exact Hlen |].
  eexists. split; [vm_compute; reflexivity |].
  refine (proj1 (client_statistics_invariant 128 64 3
                   (client_script [ping_reply 1000 10 64; ping_timeout 4000;
                                   ping_send_error 7000 113])
                   stats_zero _ ExitCount Hlen _)).
  vm_compute. reflexivity.
Defined.

Lemma client_loop_count_zero :
  forall env packet_size seq_num rtt stats,
    (existsb client_stop_read env = false ->
     client_loop packet_size 0 env seq_num rtt stats = None) /\
    (forall r,
       client_loop packet_size 0 env seq_num rtt stats = Some r ->
       fst r = ExitStopFlag /\ existsb client_stop_read env = true).
Proof.
  induction env as [| it rest IH]; intros ps seq rtt stats.
  - split; [reflexivity | intros r H; discriminate H].
  - cbn [client_loop existsb].
    destruct (client_stop_read it); cbn [orb andb].
    + split; [discriminate |].
      intros r H. inversion H; subst. split; reflexivity.
    + change (0 <? 0) with false. cbn [andb].
      destruct (udp_echo_ping (client_ping it) rtt) as [ret rtt'].
      apply IH.
Qed.

(** With a count of 0 the client loop has no count limit: as long as no
    pass reads the stop flag as set the loop is still running at the
    end of any script, and when udp_echo_client_run does return it is
    because a pass read the flag as set. *)
Theorem client_count_zero_runs_until_stopped :
  forall (buffer_size packet_size : Z) (stats : option udp_echo_stats)
         (env : list client_iter),
    (existsb client_stop_read env = false ->
     udp_echo_client_run buffer_size packet_size 0 stats env = None) /\
    (forall r,
       udp_echo_client_run buffer_size packet_size 0 stats env = Some r ->
       fst r = ExitStopFlag /\ existsb client_stop_read env = true).
Proof.
  intros bs ps stats env. unfold udp_echo_client_run.
  apply client_loop_count_zero.
Qed.

(* ------------------------------------------------------------------ *)
(** ** The echo server: what a whole run does                          *)

Lemma u32_add_l : forall a b, u32 (u32 a + b) = u32 (a + b).
Proof. intros a b. unfold u32. apply Z.add_mod_idemp_l. lia. Qed.

Lemma echoes_delivered_bounds :
  forall env,
    0 <= echoes_delivered env
    <= Z.of_nat (List.length (expected_echoes env)).
Proof.
  induction env as [| it rest IH]; cbn [echoes_delivered expected_echoes].
  - simpl. lia.
  - destruct (server_stop_read it); [simpl; lia |].
    destruct (server_recvfrom it) as [e | [| b bs] from]; try exact IH.
    cbn [List.length]. rewrite Nat2Z.inj_succ.
    destruct (sock_ret (server_sendto it) <? 0); lia.
Qed.

Lemma udp_echo_server_run_accounting :
  forall env s calls r,
    udp_echo_server_run env (Some s, calls) = Some r ->
    exists s',
      r = (Some s', calls ++ expected_echoes env) /\
      u32 (packets_received s')
      = u32 (packets_received s
             + Z.of_nat (List.length (expected_echoes env))) /\
      u32 (packets_sent s') = u32 (packets_sent s + echoes_delivered env) /\
      packets_lost s' = packets_lost s /\
      rtt_min_us s' = rtt_min_us s /\ rtt_max_us s' = rtt_max_us s /\
      rtt_avg_us s' = rtt_avg_us s /\ rtt_total_us s' = rtt_total_us s.
Proof.
  induction env as [| it rest IH]; intros s calls r Hrun.
  - discriminate Hrun.
  - cbn [udp_echo_server_run expected_echoes echoes_delivered] in *.
    destruct (server_stop_read it).
    + inversion Hrun; subst. exists s.
      rewrite app_nil_r. cbn [List.length Z.of_nat].
      rewrite !Z.add_0_r. repeat split; reflexivity.
    + unfold server_body in Hrun.
      destruct (server_recvfrom it) as [e | [| b bs] from].
      * apply IH in Hrun. exact Hrun.
      * cbn [List.length Z.of_nat Z.eqb] in Hrun.
        apply IH in Hrun. exact Hrun.
      * assert (Hlen : (Z.of_nat (List.length (b :: bs)) =? 0) = false).
        { apply Z.eqb_neq. cbn [List.length]. lia. }
        rewrite Hlen in Hrun.
        cbn [server_count_received server_count_sent] in Hrun.
        destruct (sock_ret (server_sendto it) <? 0);
          apply IH in Hrun;
          destruct Hrun as (s' & Hr & Hrecv & Hsent & Hrest);
          cbn [packets_sent packets_received packets_lost rtt_min_us
               rtt_max_us rtt_avg_us rtt_total_us] in *;
          exists s'; rewrite <- app_assoc in Hr; cbn [app] in Hr;
          (split; [exact Hr |]);
          rewrite ?u32_add_l in Hrecv; rewrite ?u32_add_l in Hsent;
          cbn [List.length]; rewrite Nat2Z.inj_succ;
          (split; [rewrite Hrecv; f_equal; lia |]);
          (split; [rewrite Hsent; f_equal; lia | exact Hrest]).
Qed.

Lemma udp_echo_server_run_counters_range :
  forall env s calls s' calls',
    0 <= packets_received s < 2 ^ 32 ->
    0 <= packets_sent s < 2 ^ 32 ->
    udp_echo_server_run env (Some s, calls) = Some (Some s', calls') ->
    0 <= packets_received s' < 2 ^ 32 /\ 0 <= packets_sent s' < 2 ^ 32.
Proof.
  induction env as [| it rest IH]; intros s calls s' calls' Hr Hs Hrun.
  - discriminate Hrun.
  - cbn [udp_echo_server_run] in Hrun.
    destruct (server_stop_read it).
    + inversion Hrun; subst. split; assumption.
    + unfold server_body in Hrun.
      destruct (server_recvfrom it) as [e | payload from].
      * eapply IH; eassumption.
      * destruct (Z.of_nat (List.length payload) =? 0).
        -- eapply IH; eassumption.
        -- cbn [server_count_received server_count_sent] in Hrun.
           destruct (sock_ret (server_sendto it) <? 0);
             (eapply IH; [| | exact Hrun]);
             cbn [packets_sent packets_received];
             try apply u32_range; assumption.
Qed.

(** A whole run of the echo server.  When udp_echo_server_run returns
    after being started on freshly reset statistics, it has made one
    sendto call for every non-empty datagram received before the pass
    that read the stop flag as set, in order of arrival, each with the
    bytes received and addressed to the sender, and no other call;
    packets_received counts those calls and packets_sent the ones whose
    send did not fail (both modulo 2^32), so packets_sent never exceeds
    the number of datagrams received; the loss counter and the RTT
    fields are left as the reset put them.  With a NULL statistics
    pointer the same calls are made. *)
Theorem echo_server_accounting :
  forall (env : list server_iter) (s0 : udp_echo_stats),
    (forall stats' calls',
       udp_echo_server_run env (udp_echo_reset_stats (Some s0), [])
         = Some (stats', calls') ->
       calls' = expected_echoes env /\
       exists s',
         stats' = Some s' /\
         packets_received s'
         = u32 (Z.of_nat (List.length (expected_echoes env))) /\
         packets_sent s' = u32 (echoes_delivered env) /\
         0 <= echoes_delivered env
           <= Z.of_nat (List.length (expected_echoes env)) /\
         packets_lost s' = 0 /\
         rtt_min_us s' = UINT32_MAX /\ rtt_max_us s' = 0 /\
         rtt_avg_us s' = 0 /\ rtt_total_us s' = 0) /\
    (forall stats' calls',
       udp_echo_server_run env (None, []) = Some (stats', calls') ->
       stats' = None /\ calls' = expected_echoes env).
Proof.
  intros env s0. split.
  - intros stats' calls' Hrun. cbn [udp_echo_reset_stats] in Hrun.
    pose proof Hrun as Hacc.
    apply udp_echo_server_run_accounting in Hacc.
    destruct Hacc as (s' & Hr & Hrecv & Hsent & Hlost & Hmin & Hmax
                      & Havg & Htot).
    inversion Hr; subst. cbn [app]. split; [reflexivity |].
    apply udp_echo_server_run_counters_range in Hrun;
      [| cbn [packets_received]; lia | cbn [packets_sent]; lia].
    destruct Hrun as (Hrr & Hsr).
    exists s'. split; [reflexivity |].
    cbn [packets_sent packets_received packets_lost rtt_min_us
         rtt_max_us rtt_avg_us rtt_total_us Z.add] in *.
    rewrite (u32_small (packets_received s')) in Hrecv by exact Hrr.
    rewrite (u32_small (packets_sent s')) in Hsent by exact Hsr.
    split; [exact Hrecv |]. split; [exact Hsent |].
    split; [apply echoes_delivered_bounds |].
    repeat split; assumption.
  - intros stats' calls' Hrun.
    assert (Hgen : forall env calls r,
               udp_echo_server_run env (None, calls) = Some r ->
               r = (None, calls ++ expected_echoes env)).
    { clear. induction env as [| it rest IH]; intros calls r Hrun.
      - discriminate Hrun.
      - cbn [udp_echo_server_run expected_echoes] in *.
        destruct (server_stop_read it).
        + inversion Hrun; subst. rewrite app_nil_r. reflexivity.
        + unfold server_body in Hrun.
          destruct (server_recvfrom it) as [e | [| b bs] from].
          * apply IH in Hrun. exact Hrun.
          * cbn [List.length Z.of_nat Z.eqb] in Hrun.
            apply IH in Hrun. exact Hrun.
          * assert (Hlen : (Z.of_nat (List.length (b :: bs)) =? 0) = false).
            { apply Z.eqb_neq. cbn [List.length]. lia. }
            rewrite Hlen in Hrun.
            cbn [server_count_received server_count_sent] in Hrun.
            destruct (sock_ret (server_sendto it) <? 0);
              apply IH in Hrun; rewrite <- app_assoc in Hrun;
              exact Hrun. }
    apply Hgen in Hrun. inversion Hrun; subst. cbn [app].
    split; reflexivity.
Qed.

(* ------------------------------------------------------------------ *)
(** ** Starting and stopping an echo session                           *)





(* ------------------------------------------------------------------ *)
(** ** The address-bound notification                                  *)

Lemma deliver_all_nil :
  forall (V : Type) (n : net_utils.statics V), net_utils.deliver_all [] n = n.
Proof. reflexivity. Qed.

Lemma deliver_all_cons :
  forall (V : Type) ev evs (n : net_utils.statics V),
    net_utils.deliver_all (ev :: evs) n
    = net_utils.deliver_all evs (net_utils.deliver ev n).
Proof. reflexivity. Qed.

Lemma deliver_all_unregistered :
  forall (V : Type) evs (n : net_utils.statics V),
    net_utils.dhcp_cb_registered n = false ->
    net_utils.deliver_all evs n = n.
Proof.
  induction evs as [| ev evs IH]; intros n Hn; [reflexivity |].
  rewrite deliver_all_cons. unfold net_utils.deliver. rewrite Hn.
  apply IH. exact Hn.
Qed.

Lemma deliver_all_handled :
  forall evs (n : net_utils.statics main_dhcp),
    net_utils.dhcp_cb_registered n = true ->
    net_utils.dhcp_bound_cb n = Some dhcp_bound_cb ->
    dhcp_bound_handled (dhcp_globals (net_utils.cb_state n)) = true ->
    net_utils.cb_state (net_utils.deliver_all evs n) = net_utils.cb_state n /\
    (sem_signalled (net_utils.dhcp_bound_sem n) = true ->
     sem_signalled
       (net_utils.dhcp_bound_sem (net_utils.deliver_all evs n)) = true).
Proof.
  induction evs as [| [ev i] evs IH]; intros n Hreg Hcb Hh.
  - split; [reflexivity | auto].
  - rewrite deliver_all_cons.
    assert (Hstep :
      net_utils.dhcp_cb_registered (net_utils.deliver (ev, i) n) = true /\
      net_utils.dhcp_bound_cb (net_utils.deliver (ev, i) n)
      = Some dhcp_bound_cb /\
      net_utils.cb_state (net_utils.deliver (ev, i) n)
      = net_utils.cb_state n /\
      (sem_signalled (net_utils.dhcp_bound_sem n) = true ->
       sem_signalled
         (net_utils.dhcp_bound_sem (net_utils.deliver (ev, i) n)) = true)).
    { unfold net_utils.deliver. rewrite Hreg. cbn [fst snd].
      destruct ev; cbn [net_utils.net_mgmt_event_handler
                        net_utils.dhcp_bound_cb];
        [| repeat split; auto].
      rewrite Hcb.
      cbn [net_utils.dhcp_cb_registered net_utils.dhcp_bound_cb
           net_utils.cb_state net_utils.dhcp_bound_sem
           net_utils.dhcp_server_running net_utils.server_calls].
      unfold dhcp_bound_cb. rewrite Hh.
      repeat split; auto. intros _. apply sem_signalled_give. }
    destruct Hstep as (Hreg' & Hcb' & Hst & Hsem).
    destruct (IH _ Hreg' Hcb') as (IH1 & IH2).
    { rewrite Hst. exact Hh. }
    split; [rewrite IH1; exact Hst | auto].
Qed.

Lemma deliver_all_first_bound :
  forall evs (n : net_utils.statics main_dhcp),
    net_utils.dhcp_cb_registered n = true ->
    net_utils.dhcp_bound_cb n = Some dhcp_bound_cb ->
    dhcp_bound_handled (dhcp_globals (net_utils.cb_state n)) = false ->
    match first_bound evs with
    | None => net_utils.deliver_all evs n = n
    | Some i =>
        net_utils.cb_state (net_utils.deliver_all evs n)
        = mk_main_dhcp
            (set_dhcp_bound_handled true
               (dhcp_globals (net_utils.cb_state n))) i true /\
        sem_signalled
          (net_utils.dhcp_bound_sem (net_utils.deliver_all evs n)) = true
    end.
Proof.
  induction evs as [| [ev i] evs IH]; intros n Hreg Hcb Hh.
  - reflexivity.
  - rewrite deliver_all_cons. cbn [first_bound].
    destruct ev.
    + assert (Hd :
        net_utils.deliver (net_utils.NET_EVENT_IPV4_DHCP_BOUND, i) n
        = net_utils.mk_statics
            (net_utils.dhcp_server_running n)
            (k_sem_give (net_utils.dhcp_bound_sem n))
            (Some dhcp_bound_cb) true
            (mk_main_dhcp
               (set_dhcp_bound_handled true
                  (dhcp_globals (net_utils.cb_state n))) i true)
            (net_utils.server_calls n)).
      { unfold net_utils.deliver. rewrite Hreg. cbn [fst snd].
        cbn [net_utils.net_mgmt_event_handler net_utils.dhcp_bound_cb].
        rewrite Hcb.
        cbn [net_utils.dhcp_cb_registered net_utils.dhcp_bound_cb
             net_utils.cb_state net_utils.dhcp_bound_sem
             net_utils.dhcp_server_running net_utils.server_calls].
        unfold dhcp_bound_cb. rewrite Hh, Hreg. reflexivity. }
      rewrite Hd.
      match goal with
      | |- context [net_utils.deliver_all evs ?n1] =>
          destruct (deliver_all_handled evs n1) as (H1 & H2);
          [reflexivity | reflexivity | |]
      end.
      * cbn [net_utils.cb_state dhcp_globals].
        destruct (dhcp_globals (net_utils.cb_state n)); reflexivity.
      * split; [exact H1 |]. apply H2.
        cbn [net_utils.dhcp_bound_sem]. apply sem_signalled_give.
    + assert (Hd :
        net_utils.deliver (net_utils.NET_EVENT_IPV4_OTHER, i) n = n).
      { unfold net_utils.deliver. rewrite Hreg. reflexivity. }
      rewrite Hd. apply IH; assumption.
Qed.

(** The address-bound notification is one-shot.  Before
    net_utils_register_dhcp_callback has run no event reaches the
    module.  After the registration sequence of p2p_connect_handler,
    whatever the events that follow: if none of them is an
    address-bound event nothing changes; otherwise only the first one
    reaches main.c, which records its interface pointer and queues the
    work item once, and the semaphore is signalled.  The queued work
    item, when run, starts the echo client after the configured delay
    if that pointer was not NULL and does nothing otherwise; in both
    cases it is no longer queued, and running the queue again changes
    nothing. *)
Theorem dhcp_bound_one_shot :
  forall (iface : bool) (n : net_utils.statics main_dhcp)
         (evs : list (net_utils.net_event * bool))
         (delay : Z) (sock : sock_result) (pton : inet_pton_result)
         (udp_echo_port : Z),
    let n1 := register_dhcp_bound iface n in
    let n2 := net_utils.deliver_all evs n1 in
    let armed := set_dhcp_bound_handled false
                   (dhcp_globals (net_utils.cb_state n)) in
    (net_utils.dhcp_cb_registered n = false ->
     net_utils.deliver_all evs n = n) /\
    net_utils.dhcp_cb_registered n1 = true /\
    dhcp_globals (net_utils.cb_state n1) = armed /\
    match first_bound evs with
    | None => n2 = n1
    | Some i =>
        net_utils.cb_state n2
        = mk_main_dhcp (set_dhcp_bound_handled true armed) i true /\
        sem_signalled (net_utils.dhcp_bound_sem n2) = true /\
        let m3 := run_dhcp_bound_work delay sock pton udp_echo_port
                    (net_utils.cb_state n2) in
        dhcp_bound_work_pending m3 = false /\
        dhcp_globals m3
        = (if i
           then start_udp_echo_client sock pton udp_echo_port
                  (log_action (ACT_K_SLEEP delay)
                     (set_dhcp_bound_handled true armed))
           else set_dhcp_bound_handled true armed) /\
        run_dhcp_bound_work delay sock pton udp_echo_port m3 = m3
    end.
Proof.
  intros iface n evs delay sock pton port n1 n2 armed.
  split; [apply deliver_all_unregistered |].
  assert (Hreg : net_utils.dhcp_cb_registered n1 = true).
  { subst n1. unfold register_dhcp_bound,
      net_utils.net_utils_register_dhcp_callback,
      net_utils.net_utils_set_dhcp_bound_cb.
    cbn [net_utils.dhcp_cb_registered].
    destruct (net_utils.dhcp_cb_registered n); reflexivity. }
  assert (Hcb : net_utils.dhcp_bound_cb n1 = Some dhcp_bound_cb).
  { subst n1. unfold register_dhcp_bound,
      net_utils.net_utils_register_dhcp_callback,
      net_utils.net_utils_set_dhcp_bound_cb.
    cbn [net_utils.dhcp_cb_registered].
    destruct (net_utils.dhcp_cb_registered n); reflexivity. }
  assert (Hst : net_utils.cb_state n1
                = mk_main_dhcp armed iface
                    (dhcp_bound_work_pending (net_utils.cb_state n))).
  { subst n1. unfold register_dhcp_bound,
      net_utils.net_utils_register_dhcp_callback,
      net_utils.net_utils_set_dhcp_bound_cb.
    cbn [net_utils.dhcp_cb_registered].
    destruct (net_utils.dhcp_cb_registered n); reflexivity. }
  split; [exact Hreg |].
  split; [rewrite Hst; reflexivity |].
  pose proof (deliver_all_first_bound evs n1 Hreg Hcb) as Hfb.
  rewrite Hst in Hfb. cbn [dhcp_globals] in Hfb.
  assert (Harmed : dhcp_bound_handled armed = false)
    by (subst armed; reflexivity).
  specialize (Hfb Harmed).
  destruct (first_bound evs) as [i |]; [| exact Hfb].
  destruct Hfb as (Hcs & Hsem).
  fold n2 in Hcs, Hsem.
  split; [exact Hcs |]. split; [exact Hsem |].
  rewrite Hcs. cbv zeta.
  unfold run_dhcp_bound_work, dhcp_bound_handler.
  cbn [dhcp_bound_work_pending dhcp_bound_iface dhcp_globals].
  destruct i; cbn [negb dhcp_bound_work_pending dhcp_globals];
    repeat split; reflexivity.
Qed.

(* ------------------------------------------------------------------ *)
(** ** The address server of the coordinator                           *)

(** net_utils_start_dhcp_server and net_utils_stop_dhcp_server.  With no
    interface given and none found both return -ENODEV and change
    nothing.  A start that returns 0 has called Zephyr once and leaves
    the server marked as running, which includes the case in which
    Zephyr answers -EALREADY; any other start returns a negative code
    and leaves the mark as it was.  A stop on a server not marked as
    running returns 0
    without calling Zephyr.  A stop after a successful start calls
    Zephyr once; if that fails the error is returned and the server
    stays marked as running, otherwise the mark is cleared. *)
Theorem dhcp_server_start_stop :
  forall (V : Type) (wifi_present iface : bool) (pool_start : option string)
         (pton_ret start_ret stop_ret : Z) (n : net_utils.statics V),
    let r1 := net_utils.net_utils_start_dhcp_server wifi_present iface
                pool_start pton_ret start_ret n in
    let r2 := net_utils.net_utils_stop_dhcp_server wifi_present iface
                stop_ret (snd r1) in
    (iface || wifi_present = false ->
     r1 = (- ENODEV, n) /\
     net_utils.net_utils_stop_dhcp_server wifi_present iface stop_ret n
     = (- ENODEV, n)) /\
    (fst r1 = 0 ->
     net_utils.dhcp_server_running (snd r1) = true /\
     net_utils.server_calls (snd r1)
     = net_utils.server_calls n ++ [net_utils.NET_DHCPV4_SERVER_START]) /\
    (fst r1 <> 0 ->
     fst r1 < 0 /\
     net_utils.dhcp_server_running (snd r1)
     = net_utils.dhcp_server_running n) /\
    (iface || wifi_present = true -> pool_start <> None ->
     0 <= pton_ret -> start_ret = - EALREADY -> fst r1 = 0) /\
    (iface || wifi_present = true ->
     net_utils.dhcp_server_running n = false ->
     net_utils.net_utils_stop_dhcp_server wifi_present iface stop_ret n
     = (0, n)) /\
    (fst r1 = 0 -> stop_ret < 0 ->
     fst r2 = stop_ret /\
     net_utils.dhcp_server_running (snd r2) = true) /\
    (fst r1 = 0 -> 0 <= stop_ret ->
     fst r2 = 0 /\
     net_utils.dhcp_server_running (snd r2) = false /\
     net_utils.server_calls (snd r2)
     = net_utils.server_calls n
       ++ [net_utils.NET_DHCPV4_SERVER_START;
           net_utils.NET_DHCPV4_SERVER_STOP]).
Proof.
  intros V wifi iface pool pton_ret start_ret stop_ret n r1 r2.
  subst r2 r1.
  unfold net_utils.net_utils_start_dhcp_server,
    net_utils.net_utils_stop_dhcp_server.
  destruct n as [running sem cb reg st calls].
  destruct iface, wifi, pool as [pool |], running;
    cbn [negb orb fst snd net_utils.dhcp_server_running
         net_utils.server_calls net_utils.set_running
         net_utils.log_server_call];
    destruct (Z.ltb_spec pton_ret 0);
    destruct (Z.eqb_spec start_ret (- EALREADY));
    destruct (Z.ltb_spec start_ret 0);
    destruct (Z.ltb_spec stop_ret 0);
    cbn [negb orb fst snd net_utils.dhcp_server_running
         net_utils.server_calls net_utils.set_running
         net_utils.log_server_call];
    rewrite <- ?app_assoc; cbn [app];
    unfold ENODEV, EINVAL, EALREADY in *;
    repeat match goal with |- _ /\ _ => split end;
    intros; rewrite <- ?app_assoc; cbn [app];
    repeat match goal with |- _ /\ _ => split end;
    try reflexivity; try discriminate; try lia; try congruence.
Qed.

(* ------------------------------------------------------------------ *)
(** ** A pairing attempt whose peer listing fails                      *)

Lemma p2p_start_handler_failed_listing :
  forall cfg (e : start_env) (w : app),
    app_cb_ok w ->
    p2p_pairing_in_progress (user w) = false ->
    get_peers_ret e <> 0 ->
    discovered_peer_count (user (p2p_start_handler cfg e w)) = 0.
Proof.
  intros cfg e w Hcb Hf Hret. unfold p2p_start_handler. rewrite Hf.
  set (w0 := upd_user (fun g => set_discovered (discovered_peers g) 0 g)
               (upd_user (set_pairing_in_progress true) w)).
  assert (H0 : discovered_peer_count (user w0) = 0 /\ app_cb_ok w0).
  { subst w0. unfold app_cb_ok in *. destruct w; simpl in *.
    split; [reflexivity | exact Hcb]. }
  clearbody w0. destruct H0 as (Hc0 & Hcb0).
  pose proof (wifi_p2p_find_user _ (u16 (CONFIG_P2P_DISCOVERY_TIMEOUT cfg))
                (find_ret e) w0) as (Hu & Hucb).
  destruct (wifi_p2p_find (u16 (CONFIG_P2P_DISCOVERY_TIMEOUT cfg))
              (find_ret e) w0) as [ret wf].
  cbn [snd] in Hu, Hucb.
  assert (Hcbf : app_cb_ok wf)
    by (unfold app_cb_ok in *; rewrite Hucb; exact Hcb0).
  destruct (ret <? 0).
  - destruct (upd_user_fields (set_pairing_in_progress false) wf)
      as (E & _). rewrite E, Hu.
    destruct (user w0); exact Hc0.
  - destruct (k_sleep_pairing_statics (CONFIG_P2P_DISCOVERY_WAIT_MS cfg)
                (discovery_events e) wf Hcbf) as (_ & _ & Hcnt & _).
    set (ws := k_sleep (CONFIG_P2P_DISCOVERY_WAIT_MS cfg)
                 (discovery_events e) wf) in *.
    clearbody ws.
    assert (Hlist :
      snd (wifi_p2p_get_peers ws
             (discovered_peers (user ws), discovered_peer_count (user ws))
             (get_peers_ret e) (peers_found e) (peers_found_count e))
      = (discovered_peers (user ws), discovered_peer_count (user ws))).
    { unfold wifi_p2p_get_peers.
      destruct (negb (wifi_iface ws)); [reflexivity |].
      destruct (Z.eqb_spec (get_peers_ret e) 0); [contradiction |].
      reflexivity. }
    destruct (wifi_p2p_get_peers ws
             (discovered_peers (user ws), discovered_peer_count (user ws))
             (get_peers_ret e) (peers_found e) (peers_found_count e))
      as [r found].
    cbn [snd] in Hlist. subst found. cbn [fst snd].
    assert (Hz : discovered_peer_count (user ws) = 0) by congruence.
    set (wd := upd_user (set_discovered (discovered_peers (user ws))
                           (discovered_peer_count (user ws))) ws).
    assert (Hd : discovered_peer_count (user wd) = 0).
    { subst wd. destruct ws as [c s1 s2 s3 s4 s5 cb u i l].
      cbn [user upd_user] in *. destruct u; exact Hz. }
    clearbody wd.
    destruct ((0 <? discovered_peer_count (user wd))
              || state_eqb (state (p2p_ctx wd)) WIFI_P2P_STATE_FOUND)%bool.
    + destruct (upd_user_fields (set_connect_work_pending true) wd)
        as (E & _). rewrite E. destruct (user wd); exact Hd.
    + destruct (upd_user_fields (set_pairing_in_progress false) wd)
        as (E & _). rewrite E. destruct (user wd); exact Hd.
Qed.

(** When the peer listing of a pairing attempt fails, the attempt ends
    with the discovery.  The start sequence resets the peer count to 0
    and a failed wifi_p2p_get_peers stores nothing, so the count is
    still 0 when the start sequence ends, even if a peer-found
    notification had put the session in state FOUND and the connect
    sequence was queued for that reason.  The connect sequence then
    finds no peer listed: it sends no request, waits on nothing and
    only clears the in-flight flag, so that session context, gates,
    link-layer calls and timeline are those the start sequence left. *)
Theorem failed_peer_listing_ends_attempt :
  forall (cfg : kconfig) (sscanf_mac : string -> list Z)
         (se : start_env) (ce : connect_env) (w : app),
    app_cb_ok w ->
    p2p_pairing_in_progress (user w) = false ->
    get_peers_ret se <> 0 ->
    let w1 := p2p_start_handler cfg se w in
    let w2 := pairing_attempt cfg sscanf_mac se ce w in
    discovered_peer_count (user w1) = 0 /\
    p2p_ctx w2 = p2p_ctx w1 /\
    p2p_sems w2 = p2p_sems w1 /\
    link_ops w2 = link_ops w1 /\
    timeline (user w2) = timeline (user w1) /\
    udp_socket (user w2) = udp_socket (user w1) /\
    p2p_pairing_in_progress (user w2) = false /\
    p2p_connect_work_pending (user w2) = false.
Proof.
  intros cfg sscanf_mac se ce w Hcb Hf Hret w1 w2.
  pose proof (p2p_start_handler_failed_listing cfg se w Hcb Hf Hret) as Hz.
  pose proof (p2p_start_handler_exit cfg se w Hf) as Hexit.
  fold w1 in Hz, Hexit.
  subst w2. unfold pairing_attempt. fold w1. clearbody w1.
  split; [exact Hz |].
  unfold run_connect_work.
  destruct (p2p_connect_work_pending (user w1)) eqn:Hp.
  - unfold p2p_connect_handler.
    destruct (upd_user_fields (set_connect_work_pending false) w1)
      as (E & _).
    assert (Hz' : discovered_peer_count
                    (user (upd_user (set_connect_work_pending false) w1))
                  = 0).
    { rewrite E. destruct (user w1); exact Hz. }
    rewrite Hz'. change (0 =? 0) with true. cbv iota.
    destruct w1 as [c s1 s2 s3 s4 s5 cb u i l]. destruct u.
    repeat split; reflexivity.
  - destruct Hexit as [Hx | Hx]; [| discriminate Hx].
    repeat split; [exact Hx | exact Hp].
Qed.

(** A peer is announced during discovery, but the listing fails with
    -EIO: the connect sequence is queued and ends at once. *)
Lemma failed_peer_listing_ends_attempt_witness :
  app_cb_ok example_app /\
  p2p_connect_work_pending
    (user (p2p_start_handler (example_cfg "" 15)
             (mk_start_env 0
                [NET_EVENT_WIFI_P2P_DEVICE_FOUND
                   (Some (mk_device_info mac_b "peer-2" (-40)))]
                (- EIO) [] 0) example_app)) = true /\
  discovered_peer_count
    (user (p2p_start_handler (example_cfg "" 15)
             (mk_start_env 0
                [NET_EVENT_WIFI_P2P_DEVICE_FOUND
                   (Some (mk_device_info mac_b "peer-2" (-40)))]
                (- EIO) [] 0) example_app)) = 0 /\
  p2p_pairing_in_progress
    (user (pairing_attempt (example_cfg "" 15) example_sscanf
             (mk_start_env 0
                [NET_EVENT_WIFI_P2P_DEVICE_FOUND
                   (Some (mk_device_info mac_b "peer-2" (-40)))]
                (- EIO) [] 0) example_connect_env example_app)) = false.
Proof.
  assert (Hcb : app_cb_ok example_app) by (left; vm_compute; reflexivity).
  assert (Hf : p2p_pairing_in_progress (user example_app) = false)
    by (vm_compute; reflexivity).
  assert (Hret : get_peers_ret
                   (mk_start_env 0
                      [NET_EVENT_WIFI_P2P_DEVICE_FOUND
                         (Some (mk_device_info mac_b "peer-2" (-40)))]
                      (- EIO) [] 0) <> 0)
    by (vm_compute; discriminate).
  pose proof (failed_peer_listing_ends_attempt (example_cfg "" 15)
                example_sscanf _ example_connect_env example_app
                Hcb Hf Hret) as H.
  cbv zeta in H.
  destruct H as (Hz & _ & _ & _ & _ & _ & Hflag & _).
  split; [exact Hcb |].
  split; [vm_compute; reflexivity |].
  split; [exact Hz | exact Hflag].
Defined.
